(** * ADLink PCI-9118 analog-input driver: acquisition control core

    A shallow embedding of the session-state logic of
    [drivers/staging/comedi/drivers/adl_pci9118.c]: channel-list
    validation, padding removal from DMA blocks, pacer divisor
    computation, error-status decoding, command negotiation, acquisition
    start and cancellation, single conversions, the analog outputs, the
    interrupt service routine with its data paths, DMA transfer lengths
    and reset.

    C integers are carried as [Z]; every place where the C code truncates
    to a narrower type is written out ([u8], [u32], [s32]).  Device state
    is threaded explicitly: each driver routine takes the device and
    returns its result together with the updated device.  Port writes are
    appended to [io_log] (newest first), port reads come from [io_in],
    kernel log lines go to [klog]. *)

From Stdlib Require Import ZArith List Lia Bool String.
From stdpp Require Import base list.
Import ListNotations.
Local Open Scope Z_scope.

(** ** Machine integers *)

Definition u8 (x : Z) : Z := x mod 2 ^ 8.
Definition u16 (x : Z) : Z := x mod 2 ^ 16.
Definition u32 (x : Z) : Z := x mod 2 ^ 32.

(** Conversion of a 32-bit pattern to [int]. *)
Definition s32 (x : Z) : Z :=
  let y := u32 x in if y <? 2 ^ 31 then y else y - 2 ^ 32.

(** C truth value of an integer. *)
Definition nz (x : Z) : bool := negb (x =? 0).

(** [x & ~m] on a non-negative word. *)
Definition clear_bits (x m : Z) : Z := Z.land x (Z.lnot m).

Definition in_u32 (x : Z) : Prop := 0 <= x < 2 ^ 32.

(** The integer helpers are unfolded last when terms are compared: field
    reads and updates go first. *)
Strategy 1000 [u8 u16 u32 s32 nz clear_bits].

Arguments u8 : simpl never.
Arguments u16 : simpl never.
Arguments u32 : simpl never.
Arguments s32 : simpl never.
Arguments clear_bits : simpl never.

(** Two-element C arrays. *)
Definition arr2_get (a : Z * Z) (i : Z) : Z := if i =? 0 then fst a else snd a.
Definition arr2_set (a : Z * Z) (i : Z) (v : Z) : Z * Z :=
  if i =? 0 then (v, snd a) else (fst a, v).

(** ** Constants of the comedi interface *)

Module Comedi.

(** Modelled from the spec: the trigger sources of the command interface
    (section 6: immediate, follow, timer, count, external,
    software-internal, none).  [comedi.h] is not among the sources at
    hand; each source is one bit, as the masks tested by
    [pci9118_ai_cmdtest] ([TRIG_TIMER | TRIG_EXT], ...) require, numbered
    as in the comedi user interface. *)
Definition TRIG_NONE : Z := 0x01.
Definition TRIG_NOW : Z := 0x02.
Definition TRIG_FOLLOW : Z := 0x04.
Definition TRIG_TIMER : Z := 0x10.
Definition TRIG_COUNT : Z := 0x20.
Definition TRIG_EXT : Z := 0x40.
Definition TRIG_INT : Z := 0x80.
Definition TRIG_INVALID : Z := 0.

(** Modelled from the spec: the command flags "wake every scan" and
    "round to nearest" (sections 4.2 and 6), from [comedi.h]. *)
Definition TRIG_WAKE_EOS : Z := 0x20.
Definition TRIG_ROUND_NEAREST : Z := 0.

(** Modelled from the spec: the two events posted to the streaming buffer
    (section 6), from [comedi.h]. *)
Definition COMEDI_CB_EOA : Z := 2.
Definition COMEDI_CB_ERROR : Z := 16.

(** Modelled from the spec: a channel-list entry is a (channel, range,
    reference) tuple (section 4.1) packed into one word by [CR_PACK] of
    [comedi.h]: channel in bits 0..15, range in bits 16..23, reference in
    bits 24..25. *)
Definition CR_PACK (chan rng aref : Z) : Z :=
  Z.lor (Z.lor (Z.shiftl (Z.land aref 0x3) 24) (Z.shiftl (Z.land rng 0xff) 16))
        chan.
Definition CR_CHAN (a : Z) : Z := Z.land a 0xffff.
Definition CR_RANGE (a : Z) : Z := Z.land (Z.shiftr a 16) 0xff.
Definition CR_AREF (a : Z) : Z := Z.land (Z.shiftr a 24) 0x03.
Definition AREF_GROUND : Z := 0.
Definition AREF_COMMON : Z := 1.
Definition AREF_DIFF : Z := 2.

Strategy 1000 [CR_PACK CR_CHAN CR_RANGE CR_AREF].
Arguments CR_PACK : simpl never.
Arguments CR_CHAN : simpl never.
Arguments CR_RANGE : simpl never.
Arguments CR_AREF : simpl never.

(** Kernel error numbers. *)
Definition EIO : Z := 5.
Definition EINVAL : Z := 22.

(** Modelled from the spec: period of the 4 MHz pacer clock in
    nanoseconds (the "clock base" of section 4.2), from [8253.h]. *)
Definition I8254_OSC_BASE_4MHZ : Z := 250.

(** Modelled from the spec: the argument checkers of command negotiation
    (section 6, phases 1 to 3; "adjusting out-of-range arguments to the
    nearest legal value", section 2), from [comedi_fc.h].  Each returns
    the error code and the value left in the checked field. *)
Definition cfc_check_trigger_src (src flags : Z) : Z * Z :=
  let orig_src := src in
  let src := Z.land orig_src flags in
  if (src =? TRIG_INVALID) || negb (src =? orig_src)
  then (- EINVAL, src) else (0, src).

Definition cfc_check_trigger_is_unique (src : Z) : Z :=
  if negb (Z.land src (u32 (src - 1)) =? 0) then - EINVAL else 0.

Definition cfc_check_trigger_arg_is (arg val : Z) : Z * Z :=
  if negb (arg =? val) then (- EINVAL, val) else (0, arg).

Definition cfc_check_trigger_arg_min (arg val : Z) : Z * Z :=
  if arg <? val then (- EINVAL, val) else (0, arg).

Definition cfc_check_trigger_arg_max (arg val : Z) : Z * Z :=
  if arg >? val then (- EINVAL, val) else (0, arg).

End Comedi.
Import Comedi.

(** ** Register map and bit names of the card *)

Definition PCI9118_CHANLEN : Z := 255.

Definition PCI9118_CNT0 : Z := 0x00.
Definition PCI9118_CNT1 : Z := 0x04.
Definition PCI9118_CNT2 : Z := 0x08.
Definition PCI9118_CNTCTRL : Z := 0x0c.
Definition PCI9118_AD_DATA : Z := 0x10.
Definition PCI9118_DA1 : Z := 0x10.
Definition PCI9118_DA2 : Z := 0x14.
Definition PCI9118_ADSTAT : Z := 0x18.
Definition PCI9118_ADCNTRL : Z := 0x18.
Definition PCI9118_DI : Z := 0x1c.
Definition PCI9118_DO : Z := 0x1c.
Definition PCI9118_SOFTTRG : Z := 0x20.
Definition PCI9118_GAIN : Z := 0x24.
Definition PCI9118_BURST : Z := 0x28.
Definition PCI9118_SCANMOD : Z := 0x2c.
Definition PCI9118_ADFUNC : Z := 0x30.
Definition PCI9118_DELFIFO : Z := 0x34.
Definition PCI9118_INTSRC : Z := 0x38.
Definition PCI9118_INTCTRL : Z := 0x38.

Definition AdControl_UniP : Z := 0x80.
Definition AdControl_Diff : Z := 0x40.
Definition AdControl_SoftG : Z := 0x20.
Definition AdControl_ExtG : Z := 0x10.
Definition AdControl_ExtM : Z := 0x08.
Definition AdControl_TmrTr : Z := 0x04.
Definition AdControl_Int : Z := 0x02.
Definition AdControl_Dma : Z := 0x01.

Definition AdFunction_PDTrg : Z := 0x80.
Definition AdFunction_PETrg : Z := 0x40.
Definition AdFunction_BSSH : Z := 0x20.
Definition AdFunction_BM : Z := 0x10.
Definition AdFunction_BS : Z := 0x08.
Definition AdFunction_PM : Z := 0x04.
Definition AdFunction_AM : Z := 0x02.
Definition AdFunction_Start : Z := 0x01.

Definition AdStatus_nFull : Z := 0x100.
Definition AdStatus_nHfull : Z := 0x080.
Definition AdStatus_nEpty : Z := 0x040.
Definition AdStatus_Acmp : Z := 0x020.
Definition AdStatus_DTH : Z := 0x010.
Definition AdStatus_Bover : Z := 0x008.
Definition AdStatus_ADOS : Z := 0x004.
Definition AdStatus_ADOR : Z := 0x002.
Definition AdStatus_ADrdy : Z := 0x001.

Definition Int_Timer : Z := 0x08.
Definition Int_About : Z := 0x04.
Definition Int_Hfull : Z := 0x02.
Definition Int_DTrg : Z := 0x01.

Definition START_AI_EXT : Z := 0x01.
Definition STOP_AI_EXT : Z := 0x02.
Definition START_AI_INT : Z := 0x04.
Definition STOP_AI_INT : Z := 0x08.

Definition EXTTRG_AI : Z := 0.

Definition PCI9118_BIPOLAR_RANGES : Z := 4.

(** An I/O port: a register of the card's own window ([dev->iobase]) or
    an operation register of the PCI bridge ([devpriv->iobase_a]). *)
Inductive ioport : Type :=
| CardReg (offset : Z)
| AmccReg (offset : Z).

(** ** Board descriptors *)

Record boardtype := {
  name : string;
  device_id : Z;
  n_aichan : Z;
  n_aichand : Z;
  mux_aichan : Z;
  n_aichanlist : Z;
  n_aochan : Z;
  ai_maxdata : Z;
  ao_maxdata : Z;
  ai_ns_min : Z;
  ai_pacer_min : Z;
  half_fifo_size : Z
}.

Definition pci9118dg : boardtype :=
  {| name := "pci9118dg"; device_id := 0x80d9; n_aichan := 16; n_aichand := 8;
     mux_aichan := 256; n_aichanlist := PCI9118_CHANLEN; n_aochan := 2;
     ai_maxdata := 0x0fff; ao_maxdata := 0x0fff; ai_ns_min := 3000;
     ai_pacer_min := 12; half_fifo_size := 512 |}.

Definition pci9118hg : boardtype :=
  {| name := "pci9118hg"; device_id := 0x80d9; n_aichan := 16; n_aichand := 8;
     mux_aichan := 256; n_aichanlist := PCI9118_CHANLEN; n_aochan := 2;
     ai_maxdata := 0x0fff; ao_maxdata := 0x0fff; ai_ns_min := 3000;
     ai_pacer_min := 12; half_fifo_size := 512 |}.

Definition pci9118hr : boardtype :=
  {| name := "pci9118hr"; device_id := 0x80d9; n_aichan := 16; n_aichand := 8;
     mux_aichan := 256; n_aichanlist := PCI9118_CHANLEN; n_aochan := 2;
     ai_maxdata := 0xffff; ao_maxdata := 0x0fff; ai_ns_min := 10000;
     ai_pacer_min := 40; half_fifo_size := 512 |}.

Definition boardtypes : list boardtype := [pci9118dg; pci9118hg; pci9118hr].

(** ** Session state *)

(** The one trigger callback the driver installs in [async->inttrig]. *)
Inductive inttrig_handler : Type := pci9118_ai_inttrig.

Record pci9118_private := {
  master : Z;
  usemux : Z;
  AdControlReg : Z;
  IntControlReg : Z;
  AdFunctionReg : Z;
  ai_neverending : Z;
  ai_do : Z;
  ai_act_scan : Z;
  ai_n_realscanlen : Z;
  ai_act_dmapos : Z;
  ai_add_front : Z;
  ai_add_back : Z;
  ai_flags : Z;
  ai12_startstop : Z;
  ai_divisor1 : Z;
  ai_divisor2 : Z;
  ao_data : Z * Z;
  dma_doublebuf : Z;
  dma_actbuf : Z;
  dmabuf_hw : Z * Z;
  dmabuf_size : Z * Z;
  dmabuf_use_size : Z * Z;
  exttrg_users : Z;
  usedma : Z;
  softsshdelay : Z;
  softsshsample : Z;
  softsshhold : Z;
  ai_maskerr : Z;
  ai_maskharderr : Z
}.

Record comedi_cmd := {
  start_src : Z;
  start_arg : Z;
  scan_begin_src : Z;
  scan_begin_arg : Z;
  convert_src : Z;
  convert_arg : Z;
  scan_end_src : Z;
  scan_end_arg : Z;
  stop_src : Z;
  stop_arg : Z;
  chanlist : option (list Z);
  chanlist_len : Z;
  flags : Z
}.

Record comedi_async := {
  prealloc_bufsz : Z;
  cur_chan : Z;
  events : Z;
  inttrig : option inttrig_handler;
  cmd : comedi_cmd
}.

Record comedi_subdevice := {
  len_chanlist : Z;
  maxdata : Z;
  async : comedi_async
}.

Record comedi_device := {
  board_ptr : boardtype;
  private : pci9118_private;
  read_subdev : comedi_subdevice;
  io_in : ioport -> Z;
  io_log : list (ioport * Z);
  klog : list string
}.

(** Field updates ([r->f = v]). *)

Definition set_master (v : Z) (r : pci9118_private) : pci9118_private :=
  {| master := v; usemux := usemux r; AdControlReg := AdControlReg r; IntControlReg
     := IntControlReg r; AdFunctionReg := AdFunctionReg r; ai_neverending :=
     ai_neverending r; ai_do := ai_do r; ai_act_scan := ai_act_scan r;
     ai_n_realscanlen := ai_n_realscanlen r; ai_act_dmapos := ai_act_dmapos r;
     ai_add_front := ai_add_front r; ai_add_back := ai_add_back r; ai_flags :=
     ai_flags r; ai12_startstop := ai12_startstop r; ai_divisor1 := ai_divisor1 r;
     ai_divisor2 := ai_divisor2 r; ao_data := ao_data r; dma_doublebuf :=
     dma_doublebuf r; dma_actbuf := dma_actbuf r; dmabuf_hw := dmabuf_hw r;
     dmabuf_size := dmabuf_size r; dmabuf_use_size := dmabuf_use_size r;
     exttrg_users := exttrg_users r; usedma := usedma r; softsshdelay :=
     softsshdelay r; softsshsample := softsshsample r; softsshhold := softsshhold
     r; ai_maskerr := ai_maskerr r; ai_maskharderr := ai_maskharderr r |}.
Definition set_usemux (v : Z) (r : pci9118_private) : pci9118_private :=
  {| master := master r; usemux := v; AdControlReg := AdControlReg r; IntControlReg
     := IntControlReg r; AdFunctionReg := AdFunctionReg r; ai_neverending :=
     ai_neverending r; ai_do := ai_do r; ai_act_scan := ai_act_scan r;
     ai_n_realscanlen := ai_n_realscanlen r; ai_act_dmapos := ai_act_dmapos r;
     ai_add_front := ai_add_front r; ai_add_back := ai_add_back r; ai_flags :=
     ai_flags r; ai12_startstop := ai12_startstop r; ai_divisor1 := ai_divisor1 r;
     ai_divisor2 := ai_divisor2 r; ao_data := ao_data r; dma_doublebuf :=
     dma_doublebuf r; dma_actbuf := dma_actbuf r; dmabuf_hw := dmabuf_hw r;
     dmabuf_size := dmabuf_size r; dmabuf_use_size := dmabuf_use_size r;
     exttrg_users := exttrg_users r; usedma := usedma r; softsshdelay :=
     softsshdelay r; softsshsample := softsshsample r; softsshhold := softsshhold
     r; ai_maskerr := ai_maskerr r; ai_maskharderr := ai_maskharderr r |}.
Definition set_AdControlReg (v : Z) (r : pci9118_private) : pci9118_private :=
  {| master := master r; usemux := usemux r; AdControlReg := v; IntControlReg :=
     IntControlReg r; AdFunctionReg := AdFunctionReg r; ai_neverending :=
     ai_neverending r; ai_do := ai_do r; ai_act_scan := ai_act_scan r;
     ai_n_realscanlen := ai_n_realscanlen r; ai_act_dmapos := ai_act_dmapos r;
     ai_add_front := ai_add_front r; ai_add_back := ai_add_back r; ai_flags :=
     ai_flags r; ai12_startstop := ai12_startstop r; ai_divisor1 := ai_divisor1 r;
     ai_divisor2 := ai_divisor2 r; ao_data := ao_data r; dma_doublebuf :=
     dma_doublebuf r; dma_actbuf := dma_actbuf r; dmabuf_hw := dmabuf_hw r;
     dmabuf_size := dmabuf_size r; dmabuf_use_size := dmabuf_use_size r;
     exttrg_users := exttrg_users r; usedma := usedma r; softsshdelay :=
     softsshdelay r; softsshsample := softsshsample r; softsshhold := softsshhold
     r; ai_maskerr := ai_maskerr r; ai_maskharderr := ai_maskharderr r |}.
Definition set_IntControlReg (v : Z) (r : pci9118_private) : pci9118_private :=
  {| master := master r; usemux := usemux r; AdControlReg := AdControlReg r;
     IntControlReg := v; AdFunctionReg := AdFunctionReg r; ai_neverending :=
     ai_neverending r; ai_do := ai_do r; ai_act_scan := ai_act_scan r;
     ai_n_realscanlen := ai_n_realscanlen r; ai_act_dmapos := ai_act_dmapos r;
     ai_add_front := ai_add_front r; ai_add_back := ai_add_back r; ai_flags :=
     ai_flags r; ai12_startstop := ai12_startstop r; ai_divisor1 := ai_divisor1 r;
     ai_divisor2 := ai_divisor2 r; ao_data := ao_data r; dma_doublebuf :=
     dma_doublebuf r; dma_actbuf := dma_actbuf r; dmabuf_hw := dmabuf_hw r;
     dmabuf_size := dmabuf_size r; dmabuf_use_size := dmabuf_use_size r;
     exttrg_users := exttrg_users r; usedma := usedma r; softsshdelay :=
     softsshdelay r; softsshsample := softsshsample r; softsshhold := softsshhold
     r; ai_maskerr := ai_maskerr r; ai_maskharderr := ai_maskharderr r |}.
Definition set_AdFunctionReg (v : Z) (r : pci9118_private) : pci9118_private :=
  {| master := master r; usemux := usemux r; AdControlReg := AdControlReg r;
     IntControlReg := IntControlReg r; AdFunctionReg := v; ai_neverending :=
     ai_neverending r; ai_do := ai_do r; ai_act_scan := ai_act_scan r;
     ai_n_realscanlen := ai_n_realscanlen r; ai_act_dmapos := ai_act_dmapos r;
     ai_add_front := ai_add_front r; ai_add_back := ai_add_back r; ai_flags :=
     ai_flags r; ai12_startstop := ai12_startstop r; ai_divisor1 := ai_divisor1 r;
     ai_divisor2 := ai_divisor2 r; ao_data := ao_data r; dma_doublebuf :=
     dma_doublebuf r; dma_actbuf := dma_actbuf r; dmabuf_hw := dmabuf_hw r;
     dmabuf_size := dmabuf_size r; dmabuf_use_size := dmabuf_use_size r;
     exttrg_users := exttrg_users r; usedma := usedma r; softsshdelay :=
     softsshdelay r; softsshsample := softsshsample r; softsshhold := softsshhold
     r; ai_maskerr := ai_maskerr r; ai_maskharderr := ai_maskharderr r |}.
Definition set_ai_neverending (v : Z) (r : pci9118_private) : pci9118_private :=
  {| master := master r; usemux := usemux r; AdControlReg := AdControlReg r;
     IntControlReg := IntControlReg r; AdFunctionReg := AdFunctionReg r;
     ai_neverending := v; ai_do := ai_do r; ai_act_scan := ai_act_scan r;
     ai_n_realscanlen := ai_n_realscanlen r; ai_act_dmapos := ai_act_dmapos r;
     ai_add_front := ai_add_front r; ai_add_back := ai_add_back r; ai_flags :=
     ai_flags r; ai12_startstop := ai12_startstop r; ai_divisor1 := ai_divisor1 r;
     ai_divisor2 := ai_divisor2 r; ao_data := ao_data r; dma_doublebuf :=
     dma_doublebuf r; dma_actbuf := dma_actbuf r; dmabuf_hw := dmabuf_hw r;
     dmabuf_size := dmabuf_size r; dmabuf_use_size := dmabuf_use_size r;
     exttrg_users := exttrg_users r; usedma := usedma r; softsshdelay :=
     softsshdelay r; softsshsample := softsshsample r; softsshhold := softsshhold
     r; ai_maskerr := ai_maskerr r; ai_maskharderr := ai_maskharderr r |}.
Definition set_ai_do (v : Z) (r : pci9118_private) : pci9118_private :=
  {| master := master r; usemux := usemux r; AdControlReg := AdControlReg r;
     IntControlReg := IntControlReg r; AdFunctionReg := AdFunctionReg r;
     ai_neverending := ai_neverending r; ai_do := v; ai_act_scan := ai_act_scan r;
     ai_n_realscanlen := ai_n_realscanlen r; ai_act_dmapos := ai_act_dmapos r;
     ai_add_front := ai_add_front r; ai_add_back := ai_add_back r; ai_flags :=
     ai_flags r; ai12_startstop := ai12_startstop r; ai_divisor1 := ai_divisor1 r;
     ai_divisor2 := ai_divisor2 r; ao_data := ao_data r; dma_doublebuf :=
     dma_doublebuf r; dma_actbuf := dma_actbuf r; dmabuf_hw := dmabuf_hw r;
     dmabuf_size := dmabuf_size r; dmabuf_use_size := dmabuf_use_size r;
     exttrg_users := exttrg_users r; usedma := usedma r; softsshdelay :=
     softsshdelay r; softsshsample := softsshsample r; softsshhold := softsshhold
     r; ai_maskerr := ai_maskerr r; ai_maskharderr := ai_maskharderr r |}.
Definition set_ai_act_scan (v : Z) (r : pci9118_private) : pci9118_private :=
  {| master := master r; usemux := usemux r; AdControlReg := AdControlReg r;
     IntControlReg := IntControlReg r; AdFunctionReg := AdFunctionReg r;
     ai_neverending := ai_neverending r; ai_do := ai_do r; ai_act_scan := v;
     ai_n_realscanlen := ai_n_realscanlen r; ai_act_dmapos := ai_act_dmapos r;
     ai_add_front := ai_add_front r; ai_add_back := ai_add_back r; ai_flags :=
     ai_flags r; ai12_startstop := ai12_startstop r; ai_divisor1 := ai_divisor1 r;
     ai_divisor2 := ai_divisor2 r; ao_data := ao_data r; dma_doublebuf :=
     dma_doublebuf r; dma_actbuf := dma_actbuf r; dmabuf_hw := dmabuf_hw r;
     dmabuf_size := dmabuf_size r; dmabuf_use_size := dmabuf_use_size r;
     exttrg_users := exttrg_users r; usedma := usedma r; softsshdelay :=
     softsshdelay r; softsshsample := softsshsample r; softsshhold := softsshhold
     r; ai_maskerr := ai_maskerr r; ai_maskharderr := ai_maskharderr r |}.
Definition set_ai_n_realscanlen (v : Z) (r : pci9118_private) : pci9118_private :=
  {| master := master r; usemux := usemux r; AdControlReg := AdControlReg r;
     IntControlReg := IntControlReg r; AdFunctionReg := AdFunctionReg r;
     ai_neverending := ai_neverending r; ai_do := ai_do r; ai_act_scan :=
     ai_act_scan r; ai_n_realscanlen := v; ai_act_dmapos := ai_act_dmapos r;
     ai_add_front := ai_add_front r; ai_add_back := ai_add_back r; ai_flags :=
     ai_flags r; ai12_startstop := ai12_startstop r; ai_divisor1 := ai_divisor1 r;
     ai_divisor2 := ai_divisor2 r; ao_data := ao_data r; dma_doublebuf :=
     dma_doublebuf r; dma_actbuf := dma_actbuf r; dmabuf_hw := dmabuf_hw r;
     dmabuf_size := dmabuf_size r; dmabuf_use_size := dmabuf_use_size r;
     exttrg_users := exttrg_users r; usedma := usedma r; softsshdelay :=
     softsshdelay r; softsshsample := softsshsample r; softsshhold := softsshhold
     r; ai_maskerr := ai_maskerr r; ai_maskharderr := ai_maskharderr r |}.
Definition set_ai_act_dmapos (v : Z) (r : pci9118_private) : pci9118_private :=
  {| master := master r; usemux := usemux r; AdControlReg := AdControlReg r;
     IntControlReg := IntControlReg r; AdFunctionReg := AdFunctionReg r;
     ai_neverending := ai_neverending r; ai_do := ai_do r; ai_act_scan :=
     ai_act_scan r; ai_n_realscanlen := ai_n_realscanlen r; ai_act_dmapos := v;
     ai_add_front := ai_add_front r; ai_add_back := ai_add_back r; ai_flags :=
     ai_flags r; ai12_startstop := ai12_startstop r; ai_divisor1 := ai_divisor1 r;
     ai_divisor2 := ai_divisor2 r; ao_data := ao_data r; dma_doublebuf :=
     dma_doublebuf r; dma_actbuf := dma_actbuf r; dmabuf_hw := dmabuf_hw r;
     dmabuf_size := dmabuf_size r; dmabuf_use_size := dmabuf_use_size r;
     exttrg_users := exttrg_users r; usedma := usedma r; softsshdelay :=
     softsshdelay r; softsshsample := softsshsample r; softsshhold := softsshhold
     r; ai_maskerr := ai_maskerr r; ai_maskharderr := ai_maskharderr r |}.
Definition set_ai_add_front (v : Z) (r : pci9118_private) : pci9118_private :=
  {| master := master r; usemux := usemux r; AdControlReg := AdControlReg r;
     IntControlReg := IntControlReg r; AdFunctionReg := AdFunctionReg r;
     ai_neverending := ai_neverending r; ai_do := ai_do r; ai_act_scan :=
     ai_act_scan r; ai_n_realscanlen := ai_n_realscanlen r; ai_act_dmapos :=
     ai_act_dmapos r; ai_add_front := v; ai_add_back := ai_add_back r; ai_flags :=
     ai_flags r; ai12_startstop := ai12_startstop r; ai_divisor1 := ai_divisor1 r;
     ai_divisor2 := ai_divisor2 r; ao_data := ao_data r; dma_doublebuf :=
     dma_doublebuf r; dma_actbuf := dma_actbuf r; dmabuf_hw := dmabuf_hw r;
     dmabuf_size := dmabuf_size r; dmabuf_use_size := dmabuf_use_size r;
     exttrg_users := exttrg_users r; usedma := usedma r; softsshdelay :=
     softsshdelay r; softsshsample := softsshsample r; softsshhold := softsshhold
     r; ai_maskerr := ai_maskerr r; ai_maskharderr := ai_maskharderr r |}.
Definition set_ai_add_back (v : Z) (r : pci9118_private) : pci9118_private :=
  {| master := master r; usemux := usemux r; AdControlReg := AdControlReg r;
     IntControlReg := IntControlReg r; AdFunctionReg := AdFunctionReg r;
     ai_neverending := ai_neverending r; ai_do := ai_do r; ai_act_scan :=
     ai_act_scan r; ai_n_realscanlen := ai_n_realscanlen r; ai_act_dmapos :=
     ai_act_dmapos r; ai_add_front := ai_add_front r; ai_add_back := v; ai_flags :=
     ai_flags r; ai12_startstop := ai12_startstop r; ai_divisor1 := ai_divisor1 r;
     ai_divisor2 := ai_divisor2 r; ao_data := ao_data r; dma_doublebuf :=
     dma_doublebuf r; dma_actbuf := dma_actbuf r; dmabuf_hw := dmabuf_hw r;
     dmabuf_size := dmabuf_size r; dmabuf_use_size := dmabuf_use_size r;
     exttrg_users := exttrg_users r; usedma := usedma r; softsshdelay :=
     softsshdelay r; softsshsample := softsshsample r; softsshhold := softsshhold
     r; ai_maskerr := ai_maskerr r; ai_maskharderr := ai_maskharderr r |}.
Definition set_ai_flags (v : Z) (r : pci9118_private) : pci9118_private :=
  {| master := master r; usemux := usemux r; AdControlReg := AdControlReg r;
     IntControlReg := IntControlReg r; AdFunctionReg := AdFunctionReg r;
     ai_neverending := ai_neverending r; ai_do := ai_do r; ai_act_scan :=
     ai_act_scan r; ai_n_realscanlen := ai_n_realscanlen r; ai_act_dmapos :=
     ai_act_dmapos r; ai_add_front := ai_add_front r; ai_add_back := ai_add_back r;
     ai_flags := v; ai12_startstop := ai12_startstop r; ai_divisor1 := ai_divisor1
     r; ai_divisor2 := ai_divisor2 r; ao_data := ao_data r; dma_doublebuf :=
     dma_doublebuf r; dma_actbuf := dma_actbuf r; dmabuf_hw := dmabuf_hw r;
     dmabuf_size := dmabuf_size r; dmabuf_use_size := dmabuf_use_size r;
     exttrg_users := exttrg_users r; usedma := usedma r; softsshdelay :=
     softsshdelay r; softsshsample := softsshsample r; softsshhold := softsshhold
     r; ai_maskerr := ai_maskerr r; ai_maskharderr := ai_maskharderr r |}.
Definition set_ai12_startstop (v : Z) (r : pci9118_private) : pci9118_private :=
  {| master := master r; usemux := usemux r; AdControlReg := AdControlReg r;
     IntControlReg := IntControlReg r; AdFunctionReg := AdFunctionReg r;
     ai_neverending := ai_neverending r; ai_do := ai_do r; ai_act_scan :=
     ai_act_scan r; ai_n_realscanlen := ai_n_realscanlen r; ai_act_dmapos :=
     ai_act_dmapos r; ai_add_front := ai_add_front r; ai_add_back := ai_add_back r;
     ai_flags := ai_flags r; ai12_startstop := v; ai_divisor1 := ai_divisor1 r;
     ai_divisor2 := ai_divisor2 r; ao_data := ao_data r; dma_doublebuf :=
     dma_doublebuf r; dma_actbuf := dma_actbuf r; dmabuf_hw := dmabuf_hw r;
     dmabuf_size := dmabuf_size r; dmabuf_use_size := dmabuf_use_size r;
     exttrg_users := exttrg_users r; usedma := usedma r; softsshdelay :=
     softsshdelay r; softsshsample := softsshsample r; softsshhold := softsshhold
     r; ai_maskerr := ai_maskerr r; ai_maskharderr := ai_maskharderr r |}.
Definition set_ai_divisor1 (v : Z) (r : pci9118_private) : pci9118_private :=
  {| master := master r; usemux := usemux r; AdControlReg := AdControlReg r;
     IntControlReg := IntControlReg r; AdFunctionReg := AdFunctionReg r;
     ai_neverending := ai_neverending r; ai_do := ai_do r; ai_act_scan :=
     ai_act_scan r; ai_n_realscanlen := ai_n_realscanlen r; ai_act_dmapos :=
     ai_act_dmapos r; ai_add_front := ai_add_front r; ai_add_back := ai_add_back r;
     ai_flags := ai_flags r; ai12_startstop := ai12_startstop r; ai_divisor1 := v;
     ai_divisor2 := ai_divisor2 r; ao_data := ao_data r; dma_doublebuf :=
     dma_doublebuf r; dma_actbuf := dma_actbuf r; dmabuf_hw := dmabuf_hw r;
     dmabuf_size := dmabuf_size r; dmabuf_use_size := dmabuf_use_size r;
     exttrg_users := exttrg_users r; usedma := usedma r; softsshdelay :=
     softsshdelay r; softsshsample := softsshsample r; softsshhold := softsshhold
     r; ai_maskerr := ai_maskerr r; ai_maskharderr := ai_maskharderr r |}.
Definition set_ai_divisor2 (v : Z) (r : pci9118_private) : pci9118_private :=
  {| master := master r; usemux := usemux r; AdControlReg := AdControlReg r;
     IntControlReg := IntControlReg r; AdFunctionReg := AdFunctionReg r;
     ai_neverending := ai_neverending r; ai_do := ai_do r; ai_act_scan :=
     ai_act_scan r; ai_n_realscanlen := ai_n_realscanlen r; ai_act_dmapos :=
     ai_act_dmapos r; ai_add_front := ai_add_front r; ai_add_back := ai_add_back r;
     ai_flags := ai_flags r; ai12_startstop := ai12_startstop r; ai_divisor1 :=
     ai_divisor1 r; ai_divisor2 := v; ao_data := ao_data r; dma_doublebuf :=
     dma_doublebuf r; dma_actbuf := dma_actbuf r; dmabuf_hw := dmabuf_hw r;
     dmabuf_size := dmabuf_size r; dmabuf_use_size := dmabuf_use_size r;
     exttrg_users := exttrg_users r; usedma := usedma r; softsshdelay :=
     softsshdelay r; softsshsample := softsshsample r; softsshhold := softsshhold
     r; ai_maskerr := ai_maskerr r; ai_maskharderr := ai_maskharderr r |}.
Definition set_ao_data (v : Z * Z) (r : pci9118_private) : pci9118_private :=
  {| master := master r; usemux := usemux r; AdControlReg := AdControlReg r;
     IntControlReg := IntControlReg r; AdFunctionReg := AdFunctionReg r;
     ai_neverending := ai_neverending r; ai_do := ai_do r; ai_act_scan :=
     ai_act_scan r; ai_n_realscanlen := ai_n_realscanlen r; ai_act_dmapos :=
     ai_act_dmapos r; ai_add_front := ai_add_front r; ai_add_back := ai_add_back r;
     ai_flags := ai_flags r; ai12_startstop := ai12_startstop r; ai_divisor1 :=
     ai_divisor1 r; ai_divisor2 := ai_divisor2 r; ao_data := v; dma_doublebuf :=
     dma_doublebuf r; dma_actbuf := dma_actbuf r; dmabuf_hw := dmabuf_hw r;
     dmabuf_size := dmabuf_size r; dmabuf_use_size := dmabuf_use_size r;
     exttrg_users := exttrg_users r; usedma := usedma r; softsshdelay :=
     softsshdelay r; softsshsample := softsshsample r; softsshhold := softsshhold
     r; ai_maskerr := ai_maskerr r; ai_maskharderr := ai_maskharderr r |}.
Definition set_dma_doublebuf (v : Z) (r : pci9118_private) : pci9118_private :=
  {| master := master r; usemux := usemux r; AdControlReg := AdControlReg r;
     IntControlReg := IntControlReg r; AdFunctionReg := AdFunctionReg r;
     ai_neverending := ai_neverending r; ai_do := ai_do r; ai_act_scan :=
     ai_act_scan r; ai_n_realscanlen := ai_n_realscanlen r; ai_act_dmapos :=
     ai_act_dmapos r; ai_add_front := ai_add_front r; ai_add_back := ai_add_back r;
     ai_flags := ai_flags r; ai12_startstop := ai12_startstop r; ai_divisor1 :=
     ai_divisor1 r; ai_divisor2 := ai_divisor2 r; ao_data := ao_data r;
     dma_doublebuf := v; dma_actbuf := dma_actbuf r; dmabuf_hw := dmabuf_hw r;
     dmabuf_size := dmabuf_size r; dmabuf_use_size := dmabuf_use_size r;
     exttrg_users := exttrg_users r; usedma := usedma r; softsshdelay :=
     softsshdelay r; softsshsample := softsshsample r; softsshhold := softsshhold
     r; ai_maskerr := ai_maskerr r; ai_maskharderr := ai_maskharderr r |}.
Definition set_dma_actbuf (v : Z) (r : pci9118_private) : pci9118_private :=
  {| master := master r; usemux := usemux r; AdControlReg := AdControlReg r;
     IntControlReg := IntControlReg r; AdFunctionReg := AdFunctionReg r;
     ai_neverending := ai_neverending r; ai_do := ai_do r; ai_act_scan :=
     ai_act_scan r; ai_n_realscanlen := ai_n_realscanlen r; ai_act_dmapos :=
     ai_act_dmapos r; ai_add_front := ai_add_front r; ai_add_back := ai_add_back r;
     ai_flags := ai_flags r; ai12_startstop := ai12_startstop r; ai_divisor1 :=
     ai_divisor1 r; ai_divisor2 := ai_divisor2 r; ao_data := ao_data r;
     dma_doublebuf := dma_doublebuf r; dma_actbuf := v; dmabuf_hw := dmabuf_hw r;
     dmabuf_size := dmabuf_size r; dmabuf_use_size := dmabuf_use_size r;
     exttrg_users := exttrg_users r; usedma := usedma r; softsshdelay :=
     softsshdelay r; softsshsample := softsshsample r; softsshhold := softsshhold
     r; ai_maskerr := ai_maskerr r; ai_maskharderr := ai_maskharderr r |}.
Definition set_dmabuf_hw (v : Z * Z) (r : pci9118_private) : pci9118_private :=
  {| master := master r; usemux := usemux r; AdControlReg := AdControlReg r;
     IntControlReg := IntControlReg r; AdFunctionReg := AdFunctionReg r;
     ai_neverending := ai_neverending r; ai_do := ai_do r; ai_act_scan :=
     ai_act_scan r; ai_n_realscanlen := ai_n_realscanlen r; ai_act_dmapos :=
     ai_act_dmapos r; ai_add_front := ai_add_front r; ai_add_back := ai_add_back r;
     ai_flags := ai_flags r; ai12_startstop := ai12_startstop r; ai_divisor1 :=
     ai_divisor1 r; ai_divisor2 := ai_divisor2 r; ao_data := ao_data r;
     dma_doublebuf := dma_doublebuf r; dma_actbuf := dma_actbuf r; dmabuf_hw := v;
     dmabuf_size := dmabuf_size r; dmabuf_use_size := dmabuf_use_size r;
     exttrg_users := exttrg_users r; usedma := usedma r; softsshdelay :=
     softsshdelay r; softsshsample := softsshsample r; softsshhold := softsshhold
     r; ai_maskerr := ai_maskerr r; ai_maskharderr := ai_maskharderr r |}.
Definition set_dmabuf_size (v : Z * Z) (r : pci9118_private) : pci9118_private :=
  {| master := master r; usemux := usemux r; AdControlReg := AdControlReg r;
     IntControlReg := IntControlReg r; AdFunctionReg := AdFunctionReg r;
     ai_neverending := ai_neverending r; ai_do := ai_do r; ai_act_scan :=
     ai_act_scan r; ai_n_realscanlen := ai_n_realscanlen r; ai_act_dmapos :=
     ai_act_dmapos r; ai_add_front := ai_add_front r; ai_add_back := ai_add_back r;
     ai_flags := ai_flags r; ai12_startstop := ai12_startstop r; ai_divisor1 :=
     ai_divisor1 r; ai_divisor2 := ai_divisor2 r; ao_data := ao_data r;
     dma_doublebuf := dma_doublebuf r; dma_actbuf := dma_actbuf r; dmabuf_hw :=
     dmabuf_hw r; dmabuf_size := v; dmabuf_use_size := dmabuf_use_size r;
     exttrg_users := exttrg_users r; usedma := usedma r; softsshdelay :=
     softsshdelay r; softsshsample := softsshsample r; softsshhold := softsshhold
     r; ai_maskerr := ai_maskerr r; ai_maskharderr := ai_maskharderr r |}.
Definition set_dmabuf_use_size (v : Z * Z) (r : pci9118_private) : pci9118_private :=
  {| master := master r; usemux := usemux r; AdControlReg := AdControlReg r;
     IntControlReg := IntControlReg r; AdFunctionReg := AdFunctionReg r;
     ai_neverending := ai_neverending r; ai_do := ai_do r; ai_act_scan :=
     ai_act_scan r; ai_n_realscanlen := ai_n_realscanlen r; ai_act_dmapos :=
     ai_act_dmapos r; ai_add_front := ai_add_front r; ai_add_back := ai_add_back r;
     ai_flags := ai_flags r; ai12_startstop := ai12_startstop r; ai_divisor1 :=
     ai_divisor1 r; ai_divisor2 := ai_divisor2 r; ao_data := ao_data r;
     dma_doublebuf := dma_doublebuf r; dma_actbuf := dma_actbuf r; dmabuf_hw :=
     dmabuf_hw r; dmabuf_size := dmabuf_size r; dmabuf_use_size := v; exttrg_users
     := exttrg_users r; usedma := usedma r; softsshdelay := softsshdelay r;
     softsshsample := softsshsample r; softsshhold := softsshhold r; ai_maskerr :=
     ai_maskerr r; ai_maskharderr := ai_maskharderr r |}.
Definition set_exttrg_users (v : Z) (r : pci9118_private) : pci9118_private :=
  {| master := master r; usemux := usemux r; AdControlReg := AdControlReg r;
     IntControlReg := IntControlReg r; AdFunctionReg := AdFunctionReg r;
     ai_neverending := ai_neverending r; ai_do := ai_do r; ai_act_scan :=
     ai_act_scan r; ai_n_realscanlen := ai_n_realscanlen r; ai_act_dmapos :=
     ai_act_dmapos r; ai_add_front := ai_add_front r; ai_add_back := ai_add_back r;
     ai_flags := ai_flags r; ai12_startstop := ai12_startstop r; ai_divisor1 :=
     ai_divisor1 r; ai_divisor2 := ai_divisor2 r; ao_data := ao_data r;
     dma_doublebuf := dma_doublebuf r; dma_actbuf := dma_actbuf r; dmabuf_hw :=
     dmabuf_hw r; dmabuf_size := dmabuf_size r; dmabuf_use_size := dmabuf_use_size
     r; exttrg_users := v; usedma := usedma r; softsshdelay := softsshdelay r;
     softsshsample := softsshsample r; softsshhold := softsshhold r; ai_maskerr :=
     ai_maskerr r; ai_maskharderr := ai_maskharderr r |}.
Definition set_usedma (v : Z) (r : pci9118_private) : pci9118_private :=
  {| master := master r; usemux := usemux r; AdControlReg := AdControlReg r;
     IntControlReg := IntControlReg r; AdFunctionReg := AdFunctionReg r;
     ai_neverending := ai_neverending r; ai_do := ai_do r; ai_act_scan :=
     ai_act_scan r; ai_n_realscanlen := ai_n_realscanlen r; ai_act_dmapos :=
     ai_act_dmapos r; ai_add_front := ai_add_front r; ai_add_back := ai_add_back r;
     ai_flags := ai_flags r; ai12_startstop := ai12_startstop r; ai_divisor1 :=
     ai_divisor1 r; ai_divisor2 := ai_divisor2 r; ao_data := ao_data r;
     dma_doublebuf := dma_doublebuf r; dma_actbuf := dma_actbuf r; dmabuf_hw :=
     dmabuf_hw r; dmabuf_size := dmabuf_size r; dmabuf_use_size := dmabuf_use_size
     r; exttrg_users := exttrg_users r; usedma := v; softsshdelay := softsshdelay
     r; softsshsample := softsshsample r; softsshhold := softsshhold r; ai_maskerr
     := ai_maskerr r; ai_maskharderr := ai_maskharderr r |}.
Definition set_softsshdelay (v : Z) (r : pci9118_private) : pci9118_private :=
  {| master := master r; usemux := usemux r; AdControlReg := AdControlReg r;
     IntControlReg := IntControlReg r; AdFunctionReg := AdFunctionReg r;
     ai_neverending := ai_neverending r; ai_do := ai_do r; ai_act_scan :=
     ai_act_scan r; ai_n_realscanlen := ai_n_realscanlen r; ai_act_dmapos :=
     ai_act_dmapos r; ai_add_front := ai_add_front r; ai_add_back := ai_add_back r;
     ai_flags := ai_flags r; ai12_startstop := ai12_startstop r; ai_divisor1 :=
     ai_divisor1 r; ai_divisor2 := ai_divisor2 r; ao_data := ao_data r;
     dma_doublebuf := dma_doublebuf r; dma_actbuf := dma_actbuf r; dmabuf_hw :=
     dmabuf_hw r; dmabuf_size := dmabuf_size r; dmabuf_use_size := dmabuf_use_size
     r; exttrg_users := exttrg_users r; usedma := usedma r; softsshdelay := v;
     softsshsample := softsshsample r; softsshhold := softsshhold r; ai_maskerr :=
     ai_maskerr r; ai_maskharderr := ai_maskharderr r |}.
Definition set_softsshsample (v : Z) (r : pci9118_private) : pci9118_private :=
  {| master := master r; usemux := usemux r; AdControlReg := AdControlReg r;
     IntControlReg := IntControlReg r; AdFunctionReg := AdFunctionReg r;
     ai_neverending := ai_neverending r; ai_do := ai_do r; ai_act_scan :=
     ai_act_scan r; ai_n_realscanlen := ai_n_realscanlen r; ai_act_dmapos :=
     ai_act_dmapos r; ai_add_front := ai_add_front r; ai_add_back := ai_add_back r;
     ai_flags := ai_flags r; ai12_startstop := ai12_startstop r; ai_divisor1 :=
     ai_divisor1 r; ai_divisor2 := ai_divisor2 r; ao_data := ao_data r;
     dma_doublebuf := dma_doublebuf r; dma_actbuf := dma_actbuf r; dmabuf_hw :=
     dmabuf_hw r; dmabuf_size := dmabuf_size r; dmabuf_use_size := dmabuf_use_size
     r; exttrg_users := exttrg_users r; usedma := usedma r; softsshdelay :=
     softsshdelay r; softsshsample := v; softsshhold := softsshhold r; ai_maskerr
     := ai_maskerr r; ai_maskharderr := ai_maskharderr r |}.
Definition set_softsshhold (v : Z) (r : pci9118_private) : pci9118_private :=
  {| master := master r; usemux := usemux r; AdControlReg := AdControlReg r;
     IntControlReg := IntControlReg r; AdFunctionReg := AdFunctionReg r;
     ai_neverending := ai_neverending r; ai_do := ai_do r; ai_act_scan :=
     ai_act_scan r; ai_n_realscanlen := ai_n_realscanlen r; ai_act_dmapos :=
     ai_act_dmapos r; ai_add_front := ai_add_front r; ai_add_back := ai_add_back r;
     ai_flags := ai_flags r; ai12_startstop := ai12_startstop r; ai_divisor1 :=
     ai_divisor1 r; ai_divisor2 := ai_divisor2 r; ao_data := ao_data r;
     dma_doublebuf := dma_doublebuf r; dma_actbuf := dma_actbuf r; dmabuf_hw :=
     dmabuf_hw r; dmabuf_size := dmabuf_size r; dmabuf_use_size := dmabuf_use_size
     r; exttrg_users := exttrg_users r; usedma := usedma r; softsshdelay :=
     softsshdelay r; softsshsample := softsshsample r; softsshhold := v; ai_maskerr
     := ai_maskerr r; ai_maskharderr := ai_maskharderr r |}.
Definition set_ai_maskerr (v : Z) (r : pci9118_private) : pci9118_private :=
  {| master := master r; usemux := usemux r; AdControlReg := AdControlReg r;
     IntControlReg := IntControlReg r; AdFunctionReg := AdFunctionReg r;
     ai_neverending := ai_neverending r; ai_do := ai_do r; ai_act_scan :=
     ai_act_scan r; ai_n_realscanlen := ai_n_realscanlen r; ai_act_dmapos :=
     ai_act_dmapos r; ai_add_front := ai_add_front r; ai_add_back := ai_add_back r;
     ai_flags := ai_flags r; ai12_startstop := ai12_startstop r; ai_divisor1 :=
     ai_divisor1 r; ai_divisor2 := ai_divisor2 r; ao_data := ao_data r;
     dma_doublebuf := dma_doublebuf r; dma_actbuf := dma_actbuf r; dmabuf_hw :=
     dmabuf_hw r; dmabuf_size := dmabuf_size r; dmabuf_use_size := dmabuf_use_size
     r; exttrg_users := exttrg_users r; usedma := usedma r; softsshdelay :=
     softsshdelay r; softsshsample := softsshsample r; softsshhold := softsshhold
     r; ai_maskerr := v; ai_maskharderr := ai_maskharderr r |}.
Definition set_ai_maskharderr (v : Z) (r : pci9118_private) : pci9118_private :=
  {| master := master r; usemux := usemux r; AdControlReg := AdControlReg r;
     IntControlReg := IntControlReg r; AdFunctionReg := AdFunctionReg r;
     ai_neverending := ai_neverending r; ai_do := ai_do r; ai_act_scan :=
     ai_act_scan r; ai_n_realscanlen := ai_n_realscanlen r; ai_act_dmapos :=
     ai_act_dmapos r; ai_add_front := ai_add_front r; ai_add_back := ai_add_back r;
     ai_flags := ai_flags r; ai12_startstop := ai12_startstop r; ai_divisor1 :=
     ai_divisor1 r; ai_divisor2 := ai_divisor2 r; ao_data := ao_data r;
     dma_doublebuf := dma_doublebuf r; dma_actbuf := dma_actbuf r; dmabuf_hw :=
     dmabuf_hw r; dmabuf_size := dmabuf_size r; dmabuf_use_size := dmabuf_use_size
     r; exttrg_users := exttrg_users r; usedma := usedma r; softsshdelay :=
     softsshdelay r; softsshsample := softsshsample r; softsshhold := softsshhold
     r; ai_maskerr := ai_maskerr r; ai_maskharderr := v |}.

Definition set_start_src (v : Z) (r : comedi_cmd) : comedi_cmd :=
  {| start_src := v; start_arg := start_arg r; scan_begin_src := scan_begin_src r;
     scan_begin_arg := scan_begin_arg r; convert_src := convert_src r; convert_arg
     := convert_arg r; scan_end_src := scan_end_src r; scan_end_arg := scan_end_arg
     r; stop_src := stop_src r; stop_arg := stop_arg r; chanlist := chanlist r;
     chanlist_len := chanlist_len r; flags := flags r |}.
Definition set_start_arg (v : Z) (r : comedi_cmd) : comedi_cmd :=
  {| start_src := start_src r; start_arg := v; scan_begin_src := scan_begin_src r;
     scan_begin_arg := scan_begin_arg r; convert_src := convert_src r; convert_arg
     := convert_arg r; scan_end_src := scan_end_src r; scan_end_arg := scan_end_arg
     r; stop_src := stop_src r; stop_arg := stop_arg r; chanlist := chanlist r;
     chanlist_len := chanlist_len r; flags := flags r |}.
Definition set_scan_begin_src (v : Z) (r : comedi_cmd) : comedi_cmd :=
  {| start_src := start_src r; start_arg := start_arg r; scan_begin_src := v;
     scan_begin_arg := scan_begin_arg r; convert_src := convert_src r; convert_arg
     := convert_arg r; scan_end_src := scan_end_src r; scan_end_arg := scan_end_arg
     r; stop_src := stop_src r; stop_arg := stop_arg r; chanlist := chanlist r;
     chanlist_len := chanlist_len r; flags := flags r |}.
Definition set_scan_begin_arg (v : Z) (r : comedi_cmd) : comedi_cmd :=
  {| start_src := start_src r; start_arg := start_arg r; scan_begin_src :=
     scan_begin_src r; scan_begin_arg := v; convert_src := convert_src r;
     convert_arg := convert_arg r; scan_end_src := scan_end_src r; scan_end_arg :=
     scan_end_arg r; stop_src := stop_src r; stop_arg := stop_arg r; chanlist :=
     chanlist r; chanlist_len := chanlist_len r; flags := flags r |}.
Definition set_convert_src (v : Z) (r : comedi_cmd) : comedi_cmd :=
  {| start_src := start_src r; start_arg := start_arg r; scan_begin_src :=
     scan_begin_src r; scan_begin_arg := scan_begin_arg r; convert_src := v;
     convert_arg := convert_arg r; scan_end_src := scan_end_src r; scan_end_arg :=
     scan_end_arg r; stop_src := stop_src r; stop_arg := stop_arg r; chanlist :=
     chanlist r; chanlist_len := chanlist_len r; flags := flags r |}.
Definition set_convert_arg (v : Z) (r : comedi_cmd) : comedi_cmd :=
  {| start_src := start_src r; start_arg := start_arg r; scan_begin_src :=
     scan_begin_src r; scan_begin_arg := scan_begin_arg r; convert_src :=
     convert_src r; convert_arg := v; scan_end_src := scan_end_src r; scan_end_arg
     := scan_end_arg r; stop_src := stop_src r; stop_arg := stop_arg r; chanlist :=
     chanlist r; chanlist_len := chanlist_len r; flags := flags r |}.
Definition set_scan_end_src (v : Z) (r : comedi_cmd) : comedi_cmd :=
  {| start_src := start_src r; start_arg := start_arg r; scan_begin_src :=
     scan_begin_src r; scan_begin_arg := scan_begin_arg r; convert_src :=
     convert_src r; convert_arg := convert_arg r; scan_end_src := v; scan_end_arg
     := scan_end_arg r; stop_src := stop_src r; stop_arg := stop_arg r; chanlist :=
     chanlist r; chanlist_len := chanlist_len r; flags := flags r |}.
Definition set_scan_end_arg (v : Z) (r : comedi_cmd) : comedi_cmd :=
  {| start_src := start_src r; start_arg := start_arg r; scan_begin_src :=
     scan_begin_src r; scan_begin_arg := scan_begin_arg r; convert_src :=
     convert_src r; convert_arg := convert_arg r; scan_end_src := scan_end_src r;
     scan_end_arg := v; stop_src := stop_src r; stop_arg := stop_arg r; chanlist :=
     chanlist r; chanlist_len := chanlist_len r; flags := flags r |}.
Definition set_stop_src (v : Z) (r : comedi_cmd) : comedi_cmd :=
  {| start_src := start_src r; start_arg := start_arg r; scan_begin_src :=
     scan_begin_src r; scan_begin_arg := scan_begin_arg r; convert_src :=
     convert_src r; convert_arg := convert_arg r; scan_end_src := scan_end_src r;
     scan_end_arg := scan_end_arg r; stop_src := v; stop_arg := stop_arg r;
     chanlist := chanlist r; chanlist_len := chanlist_len r; flags := flags r |}.
Definition set_stop_arg (v : Z) (r : comedi_cmd) : comedi_cmd :=
  {| start_src := start_src r; start_arg := start_arg r; scan_begin_src :=
     scan_begin_src r; scan_begin_arg := scan_begin_arg r; convert_src :=
     convert_src r; convert_arg := convert_arg r; scan_end_src := scan_end_src r;
     scan_end_arg := scan_end_arg r; stop_src := stop_src r; stop_arg := v;
     chanlist := chanlist r; chanlist_len := chanlist_len r; flags := flags r |}.
Definition set_chanlist (v : option (list Z)) (r : comedi_cmd) : comedi_cmd :=
  {| start_src := start_src r; start_arg := start_arg r; scan_begin_src :=
     scan_begin_src r; scan_begin_arg := scan_begin_arg r; convert_src :=
     convert_src r; convert_arg := convert_arg r; scan_end_src := scan_end_src r;
     scan_end_arg := scan_end_arg r; stop_src := stop_src r; stop_arg := stop_arg
     r; chanlist := v; chanlist_len := chanlist_len r; flags := flags r |}.
Definition set_chanlist_len (v : Z) (r : comedi_cmd) : comedi_cmd :=
  {| start_src := start_src r; start_arg := start_arg r; scan_begin_src :=
     scan_begin_src r; scan_begin_arg := scan_begin_arg r; convert_src :=
     convert_src r; convert_arg := convert_arg r; scan_end_src := scan_end_src r;
     scan_end_arg := scan_end_arg r; stop_src := stop_src r; stop_arg := stop_arg
     r; chanlist := chanlist r; chanlist_len := v; flags := flags r |}.
Definition set_flags (v : Z) (r : comedi_cmd) : comedi_cmd :=
  {| start_src := start_src r; start_arg := start_arg r; scan_begin_src :=
     scan_begin_src r; scan_begin_arg := scan_begin_arg r; convert_src :=
     convert_src r; convert_arg := convert_arg r; scan_end_src := scan_end_src r;
     scan_end_arg := scan_end_arg r; stop_src := stop_src r; stop_arg := stop_arg
     r; chanlist := chanlist r; chanlist_len := chanlist_len r; flags := v |}.

Definition set_prealloc_bufsz (v : Z) (r : comedi_async) : comedi_async :=
  {| prealloc_bufsz := v; cur_chan := cur_chan r; events := events r; inttrig :=
     inttrig r; cmd := cmd r |}.
Definition set_cur_chan (v : Z) (r : comedi_async) : comedi_async :=
  {| prealloc_bufsz := prealloc_bufsz r; cur_chan := v; events := events r; inttrig
     := inttrig r; cmd := cmd r |}.
Definition set_events (v : Z) (r : comedi_async) : comedi_async :=
  {| prealloc_bufsz := prealloc_bufsz r; cur_chan := cur_chan r; events := v;
     inttrig := inttrig r; cmd := cmd r |}.
Definition set_inttrig (v : option inttrig_handler) (r : comedi_async) : comedi_async :=
  {| prealloc_bufsz := prealloc_bufsz r; cur_chan := cur_chan r; events := events
     r; inttrig := v; cmd := cmd r |}.
Definition set_cmd (v : comedi_cmd) (r : comedi_async) : comedi_async :=
  {| prealloc_bufsz := prealloc_bufsz r; cur_chan := cur_chan r; events := events
     r; inttrig := inttrig r; cmd := v |}.

Definition set_len_chanlist (v : Z) (r : comedi_subdevice) : comedi_subdevice :=
  {| len_chanlist := v; maxdata := maxdata r; async := async r |}.
Definition set_maxdata (v : Z) (r : comedi_subdevice) : comedi_subdevice :=
  {| len_chanlist := len_chanlist r; maxdata := v; async := async r |}.
Definition set_async (v : comedi_async) (r : comedi_subdevice) : comedi_subdevice :=
  {| len_chanlist := len_chanlist r; maxdata := maxdata r; async := v |}.

Definition set_board_ptr (v : boardtype) (r : comedi_device) : comedi_device :=
  {| board_ptr := v; private := private r; read_subdev := read_subdev r; io_in :=
     io_in r; io_log := io_log r; klog := klog r |}.
Definition set_private (v : pci9118_private) (r : comedi_device) : comedi_device :=
  {| board_ptr := board_ptr r; private := v; read_subdev := read_subdev r; io_in :=
     io_in r; io_log := io_log r; klog := klog r |}.
Definition set_read_subdev (v : comedi_subdevice) (r : comedi_device) : comedi_device :=
  {| board_ptr := board_ptr r; private := private r; read_subdev := v; io_in :=
     io_in r; io_log := io_log r; klog := klog r |}.
Definition set_io_in (v : ioport -> Z) (r : comedi_device) : comedi_device :=
  {| board_ptr := board_ptr r; private := private r; read_subdev := read_subdev r;
     io_in := v; io_log := io_log r; klog := klog r |}.
Definition set_io_log (v : list (ioport * Z)) (r : comedi_device) : comedi_device :=
  {| board_ptr := board_ptr r; private := private r; read_subdev := read_subdev r;
     io_in := io_in r; io_log := v; klog := klog r |}.
Definition set_klog (v : list string) (r : comedi_device) : comedi_device :=
  {| board_ptr := board_ptr r; private := private r; read_subdev := read_subdev r;
     io_in := io_in r; io_log := io_log r; klog := v |}.

(** Access paths used all over the driver: [devpriv = dev->private],
    [s = dev->read_subdev], [cmd = &s->async->cmd]. *)
Definition dev_async (dev : comedi_device) : comedi_async :=
  async (read_subdev dev).
Definition dev_cmd (dev : comedi_device) : comedi_cmd := cmd (dev_async dev).

Definition upd_priv (f : pci9118_private -> pci9118_private)
    (dev : comedi_device) : comedi_device :=
  set_private (f (private dev)) dev.
Definition upd_async (f : comedi_async -> comedi_async)
    (dev : comedi_device) : comedi_device :=
  set_read_subdev (set_async (f (dev_async dev)) (read_subdev dev)) dev.
Definition upd_cmd (f : comedi_cmd -> comedi_cmd)
    (dev : comedi_device) : comedi_device :=
  upd_async (fun a => set_cmd (f (cmd a)) a) dev.

(** Port and log primitives. *)
Definition outl (v : Z) (p : ioport) (dev : comedi_device) : comedi_device :=
  set_io_log ((p, v) :: io_log dev) dev.
Definition inl (p : ioport) (dev : comedi_device) : Z := io_in dev p.
Definition dev_err (msg : string) (dev : comedi_device) : comedi_device :=
  set_klog (msg :: klog dev) dev.
Definition dev_info (msg : string) (dev : comedi_device) : comedi_device :=
  set_klog (msg :: klog dev) dev.

(** ** Channel-list validation *)

Inductive chanlist_verdict : Type :=
| ChanlistOk
| ChanlistRejected (msg : string).

(** Body of the [for (i = 1; i < n_chan; i++)] loop of
    [check_channel_list], over the indices still to visit. *)
Fixpoint check_channel_list_loop (dev : comedi_device)
    (differencial bipolar : bool) (chanlist : list Z) (idx : list nat)
    : chanlist_verdict :=
  match idx with
  | [] => ChanlistOk
  | i :: rest =>
      let e := nth i chanlist 0 in
      if negb (Bool.eqb (CR_AREF e =? AREF_DIFF) differencial) then
        ChanlistRejected
          "Differential and single ended inputs can't be mixed!"
      else if negb (Bool.eqb (CR_RANGE e <? PCI9118_BIPOLAR_RANGES) bipolar)
      then ChanlistRejected "Bipolar and unipolar ranges can't be mixed!"
      else if negb (nz (usemux (private dev))) && differencial
                && (CR_CHAN e >=? u32 (n_aichand (board_ptr dev)))
      then ChanlistRejected
             "AREF_DIFF is only available for the first 8 channels!"
      else check_channel_list_loop dev differencial bipolar chanlist rest
  end.

Definition check_channel_list_verdict (dev : comedi_device) (n_chan : Z)
    (chanlist : list Z) (frontadd backadd : Z) : chanlist_verdict :=
  if n_chan <? 1 then ChanlistRejected "range/channel list is empty!"
  else if frontadd + n_chan + backadd >? len_chanlist (read_subdev dev) then
    ChanlistRejected
      "range/channel list is too long for actual configuration!"
  else
    let differencial := CR_AREF (nth 0 chanlist 0) =? AREF_DIFF in
    let bipolar := CR_RANGE (nth 0 chanlist 0) <? PCI9118_BIPOLAR_RANGES in
    if n_chan >? 1 then
      check_channel_list_loop dev differencial bipolar chanlist
        (seq 1 (Z.to_nat n_chan - 1))
    else ChanlistOk.

(** [check_channel_list]: 1 when the list can be served, 0 otherwise. *)
Definition check_channel_list (dev : comedi_device) (n_chan : Z)
    (chanlist : list Z) (frontadd backadd : Z) : Z :=
  match check_channel_list_verdict dev n_chan chanlist frontadd backadd with
  | ChanlistOk => 1
  | ChanlistRejected _ => 0
  end.

(** ** Removal of padding samples from a DMA block *)

(** One run of the [for (i = 0; i < num_samples; i++)] loop of
    [defragment_dma_buffer] with [n] iterations left.  The block is
    compacted in place: a kept sample moves from index [i] to index [j].
    [None] stands for the undefined cases of the C code: a read past the
    end of the block, or a zero [raw_scanlen] as modulus. *)
Fixpoint defragment_loop (n : nat) (start_pos stop_pos raw_scanlen : Z)
    (i j : nat) (dma_buffer : list Z) (ai_act_dmapos : Z)
    : option (nat * list Z * Z) :=
  match n with
  | O => Some (j, dma_buffer, ai_act_dmapos)
  | S n' =>
      let next := u32 (ai_act_dmapos + 1) in
      if (ai_act_dmapos >=? start_pos) && (ai_act_dmapos <? stop_pos) then
        match dma_buffer !! i with
        | None => None
        | Some x =>
            if raw_scanlen =? 0 then None
            else defragment_loop n' start_pos stop_pos raw_scanlen (S i) (S j)
                   (<[j := x]> dma_buffer) (next mod raw_scanlen)
        end
      else if raw_scanlen =? 0 then None
      else defragment_loop n' start_pos stop_pos raw_scanlen (S i) j
             dma_buffer (next mod raw_scanlen)
  end.

(** [defragment_dma_buffer]: returns the number of samples kept, the
    compacted block and the device with the advanced cursor. *)
Definition defragment_dma_buffer (dev : comedi_device) (dma_buffer : list Z)
    (num_samples : Z) : option (Z * list Z * comedi_device) :=
  let devpriv := private dev in
  let start_pos := ai_add_front devpriv in
  let stop_pos := u32 (ai_add_front devpriv + chanlist_len (dev_cmd dev)) in
  let raw_scanlen :=
    u32 (ai_add_front devpriv + chanlist_len (dev_cmd dev)
         + ai_add_back devpriv) in
  match defragment_loop (Z.to_nat num_samples) start_pos stop_pos raw_scanlen
          0 0 dma_buffer (ai_act_dmapos devpriv) with
  | None => None
  | Some (j, buf, pos) =>
      Some (Z.of_nat j, buf, upd_priv (set_ai_act_dmapos pos) dev)
  end.

(** ** Reference notions for padding removal

    Definitions the properties of [defragment_dma_buffer] are stated
    against; none of them is used by the driver model. *)

(** The cursor after one raw sample. *)
Definition cursor_step (raw_scanlen pos : Z) : Z :=
  u32 (pos + 1) mod raw_scanlen.

(** The cursor after [n] raw samples. *)
Fixpoint cursor_after (raw_scanlen pos : Z) (n : nat) : Z :=
  match n with
  | O => pos
  | S n' => cursor_after raw_scanlen (cursor_step raw_scanlen pos) n'
  end.

(** The samples [defragment_dma_buffer] keeps from a raw block, as a
    function of the block alone (no buffer, no indices). *)
Fixpoint kept_samples (start_pos stop_pos raw_scanlen pos : Z)
    (raw : list Z) : list Z :=
  match raw with
  | [] => []
  | x :: rest =>
      let tl :=
        kept_samples start_pos stop_pos raw_scanlen
          (cursor_step raw_scanlen pos) rest in
      if (pos >=? start_pos) && (pos <? stop_pos) then x :: tl else tl
  end.

(** Position [pos] of the padded scan [front + n + back] holds a
    requested channel. *)
Definition real_position (front n pos : Z) : bool :=
  (front <=? pos) && (pos <? front + n).

(** The real samples of a raw block whose first sample sits at position
    [pos] of the padded scan: the samples at real positions, in the
    order of the block. *)
Definition real_samples (front n back pos : Z) (raw : list Z) : list Z :=
  map snd
    (List.filter
       (fun ix : nat * Z =>
          real_position front n
            ((pos + Z.of_nat (fst ix)) mod (front + n + back)))
       (combine (seq 0 (length raw)) raw)).

(** A scan as the card delivers it: front padding, the requested
    channels, back padding. *)
Record padded_scan := {
  pad_front : list Z;
  scan_data : list Z;
  pad_back : list Z
}.

Definition well_padded (front n back : Z) (p : padded_scan) : Prop :=
  Z.of_nat (length (pad_front p)) = front
  /\ Z.of_nat (length (scan_data p)) = n
  /\ Z.of_nat (length (pad_back p)) = back.

Definition padded_stream (scans : list padded_scan) : list Z :=
  concat (map (fun p => pad_front p ++ scan_data p ++ pad_back p) scans).

(** ** Reference notions for channel lists

    The vocabulary the channel-list properties are stated in. *)

Definition is_diff (entry : Z) : bool := CR_AREF entry =? AREF_DIFF.
Definition is_bipolar (entry : Z) : bool :=
  CR_RANGE entry <? PCI9118_BIPOLAR_RANGES.

(** The list holds a differential and a non-differential entry. *)
Definition mixes_reference (l : list Z) : Prop :=
  exists a b, In a l /\ In b l /\ is_diff a <> is_diff b.

(** The list holds a bipolar and a unipolar entry. *)
Definition mixes_polarity (l : list Z) : Prop :=
  exists a b, In a l /\ In b l /\ is_bipolar a <> is_bipolar b.

(** A differential entry on a channel the board has no differential
    input for. *)
Definition diff_beyond_board (dev : comedi_device) (entry : Z) : Prop :=
  is_diff entry = true /\ CR_CHAN entry >= u32 (n_aichand (board_ptr dev)).

(** Without an external multiplexer, some entry of the list is
    differential beyond the board's differential inputs. *)
Definition diff_out_of_range (dev : comedi_device) (l : list Z) : Prop :=
  usemux (private dev) = 0 /\ exists e, In e l /\ diff_beyond_board dev e.

(** The same, for the entries after the first one only. *)
Definition diff_out_of_range_after_first (dev : comedi_device) (l : list Z)
    : Prop :=
  usemux (private dev) = 0 /\ exists e, In e (tail l) /\ diff_beyond_board dev e.

(** The padded list does not fit the scan queue. *)
Definition too_long (dev : comedi_device) (l : list Z) (frontadd backadd : Z)
    : Prop :=
  frontadd + Z.of_nat (length l) + backadd > len_chanlist (read_subdev dev).

(** What the loop of [check_channel_list] demands of an entry after the
    first, [d] and [b] being the reference and polarity of the first. *)
Definition entry_accepted (dev : comedi_device) (d b : bool) (e : Z) : Prop :=
  is_diff e = d /\ is_bipolar e = b
  /\ ~ (usemux (private dev) = 0 /\ d = true
        /\ CR_CHAN e >= u32 (n_aichand (board_ptr dev))).

(** ** Reference notions for the pacer

    The dual-timer rule as the design words it: the first divisor from
    the convert period, clamped to the board's fastest sample period and
    to its smallest pacer value; the second divisor from the scan period
    over clock base and first divisor, not below the channel count, nor
    below the channel count plus two for back-to-back conversions
    without front padding; the convert period realized as first divisor
    times clock base. *)
Definition dual_timer_divisor1 (b : boardtype) (convert_period : Z) : Z :=
  Z.max (Z.max convert_period (ai_ns_min b) / I8254_OSC_BASE_4MHZ)
        (ai_pacer_min b).

Definition dual_timer_divisor2_floor (convert_now : bool)
    (chans frontpad : Z) : Z :=
  if convert_now && (frontpad =? 0) then chans + 2 else chans.

Definition dual_timer_divisor2 (b : boardtype) (convert_now : bool)
    (scan_period convert_period chans frontpad : Z) : Z :=
  Z.max (scan_period / I8254_OSC_BASE_4MHZ
         / dual_timer_divisor1 b convert_period)
        (dual_timer_divisor2_floor convert_now chans frontpad).

Definition dual_timer_convert_period (b : boardtype) (convert_period : Z)
    : Z :=
  dual_timer_divisor1 b convert_period * I8254_OSC_BASE_4MHZ.

(** The periods [pci9118_calc_divisors] leaves in [*tim1] (scan) and
    [*tim2] (convert). *)
Definition realized_scan_period (r : Z * Z * Z * Z) : Z := fst (fst (fst r)).
Definition realized_convert_period (r : Z * Z * Z * Z) : Z :=
  snd (fst (fst r)).

(** ** Reference notions for sessions *)

(** The driver-owned state of a device: private data and the
    analog-input subdevice with its streaming state.  Port traffic and
    log lines are left out. *)
Definition session (dev : comedi_device) : pci9118_private * comedi_subdevice :=
  (private dev, read_subdev dev).

(** What decides the course of a run: the mode, the DMA flag, the
    padding cursor and the two trigger sources the mode is chosen from. *)
Definition run_view (dev : comedi_device) : Z * Z * Z * Z * Z :=
  (ai_do (private dev), usedma (private dev), ai_act_dmapos (private dev),
   scan_begin_src (dev_cmd dev), convert_src (dev_cmd dev)).

(** The decision table of the acquisition mode over the scan-begin and
    convert sources: follow or internal scans with timed conversions run
    in mode 1, externally triggered scans with timed conversions in mode
    4, timed scans with timed or back-to-back conversions in mode 2,
    follow scans with externally triggered conversions in mode 3. *)
Definition mode_of_triggers (scan_begin convert : Z) : option Z :=
  if (convert =? TRIG_TIMER)
     && ((scan_begin =? TRIG_FOLLOW) || (scan_begin =? TRIG_INT))
  then Some 1
  else if (convert =? TRIG_TIMER) && (scan_begin =? TRIG_EXT) then Some 4
  else if (scan_begin =? TRIG_TIMER)
          && ((convert =? TRIG_TIMER) || (convert =? TRIG_NOW))
  then Some 2
  else if (scan_begin =? TRIG_FOLLOW) && (convert =? TRIG_EXT) then Some 3
  else None.

(** What the mode is chosen from, and the mode itself. *)
Definition mode_view (dev : comedi_device) : Z * Z * Z :=
  (ai_do (private dev), scan_begin_src (dev_cmd dev),
   convert_src (dev_cmd dev)).

(** ** Reference notions for command negotiation *)

(** The scan-begin and convert sources a negotiated command can carry:
    follow scans with timed or externally triggered conversions, and,
    with bus mastering, timed or externally triggered scans with timed or
    back-to-back conversions. *)
Definition source_pair_ok (master_on : bool) (sbs cs : Z) : bool :=
  ((sbs =? TRIG_FOLLOW) && ((cs =? TRIG_TIMER) || (cs =? TRIG_EXT)))
  || (master_on
      && ((sbs =? TRIG_TIMER) || (sbs =? TRIG_EXT))
      && ((cs =? TRIG_TIMER) || (cs =? TRIG_NOW))).

(** The tests of phases 1 and 2 that bear on the scan-begin and convert
    sources alone. *)
Definition source_pair_tests (master_on : bool) (sbs cs : Z) : bool :=
  let fsb :=
    if master_on then Z.lor TRIG_FOLLOW (Z.lor TRIG_TIMER TRIG_EXT)
    else TRIG_FOLLOW in
  let fcv :=
    if master_on then Z.lor (Z.lor TRIG_TIMER TRIG_EXT) TRIG_NOW
    else Z.lor TRIG_TIMER TRIG_EXT in
  (Z.land sbs fsb =? sbs) && negb (sbs =? 0)
  && (Z.land cs fcv =? cs) && negb (cs =? 0)
  && (cfc_check_trigger_is_unique sbs =? 0)
  && (cfc_check_trigger_is_unique cs =? 0)
  && negb (nz (Z.land sbs (Z.lor TRIG_TIMER TRIG_EXT))
           && negb (nz (Z.land cs (Z.lor TRIG_TIMER TRIG_NOW))))
  && negb ((sbs =? TRIG_FOLLOW)
           && negb (nz (Z.land cs (Z.lor TRIG_TIMER TRIG_EXT)))).



(** [s] is one of the values of [l]. *)
Definition one_of (l : list Z) (s : Z) : bool := existsb (Z.eqb s) l.

(** The trigger sources the driver takes: a start now, by the external
    trigger or by software; scans that end by count; a stop by count,
    never, or by the external trigger; scan-begin and convert sources
    that fit together; and the external trigger not both as scan-begin
    source and as start or stop source. *)
Definition sources_accepted (master_on : bool) (c : comedi_cmd) : bool :=
  one_of [TRIG_NOW; TRIG_EXT; TRIG_INT] (start_src c)
  && (scan_end_src c =? TRIG_COUNT)
  && one_of [TRIG_COUNT; TRIG_NONE; TRIG_EXT] (stop_src c)
  && source_pair_ok master_on (scan_begin_src c) (convert_src c)
  && negb ((scan_begin_src c =? TRIG_EXT)
           && ((start_src c =? TRIG_EXT) || (stop_src c =? TRIG_EXT))).

(** The arguments of a command fit its sources: no start argument
    unless the start is by software, no scan period unless scans are
    timed, periods of at least [ns_min] nanoseconds, no convert period
    for externally triggered conversions, a scan count of at least one
    when the run stops by count and none otherwise, and scans of a whole,
    positive number of passes over a non-empty channel list. *)
Definition args_checked (ns_min : Z) (c : comedi_cmd) : Prop :=
  ((start_src c = TRIG_NOW \/ start_src c = TRIG_EXT) -> start_arg c = 0)
  /\ ((scan_begin_src c = TRIG_FOLLOW \/ scan_begin_src c = TRIG_EXT) ->
      scan_begin_arg c = 0)
  /\ (scan_begin_src c = TRIG_TIMER -> ns_min <= scan_begin_arg c)
  /\ ((convert_src c = TRIG_TIMER \/ convert_src c = TRIG_NOW) ->
      ns_min <= convert_arg c)
  /\ (convert_src c = TRIG_EXT -> convert_arg c = 0)
  /\ (stop_src c = TRIG_COUNT -> 1 <= stop_arg c)
  /\ (stop_src c <> TRIG_COUNT -> stop_arg c = 0)
  /\ 1 <= chanlist_len c <= scan_end_arg c
  /\ scan_end_arg c mod chanlist_len c = 0.

(** Closed facts are settled by running the definitions. *)
Ltac by_running :=
  vm_compute; repeat split; try reflexivity; discriminate.
(** ** The driver over its absent collaborators

    The bridge's register offsets and bits ([amcc_s5933.h]), the cascaded
    pacer search [i8253_cascade_ns_to_timer] ([8253.h]) and the event
    dispatcher [cfc_handle_events] ([comedi_fc.h]) are used by the driver
    but declared outside this file.  The driver is modelled over arbitrary
    values for them. *)

Section Driver.

Variables AMCC_OP_REG_MWAR AMCC_OP_REG_MWTC : Z.
Variables AMCC_OP_REG_INTCSR AMCC_OP_REG_MCSR : Z.
Variables EN_A2P_TRANSFERS RESET_A2P_FLAGS A2P_HI_PRIORITY : Z.
Variable AINT_WRITE_COMPL : Z.

(** [i8253_cascade_ns_to_timer osc_base d1 d2 nanosec round_mode] gives
    the values left in [*d1], [*d2] and [*nanosec]. *)
Variable i8253_cascade_ns_to_timer : Z -> Z -> Z -> Z -> Z -> Z * Z * Z.

(** Delivers [s->async->events] to the comedi core. *)
Variable cfc_handle_events : comedi_device -> comedi_device.

(** ** External-trigger arbitration *)

(** [source] is an [unsigned char] parameter: the routine works on the
    low eight bits of what the caller passes. *)
Definition pci9118_exttrg_add (dev : comedi_device) (source : Z)
    : Z * comedi_device :=
  let source := u8 source in
  if source >? 3 then (-1, dev)
  else
    let dev :=
      upd_priv (fun p =>
        set_exttrg_users (u8 (Z.lor (exttrg_users p) (Z.shiftl 1 source))) p)
        dev in
    let dev :=
      upd_priv (fun p =>
        set_IntControlReg (u8 (Z.lor (IntControlReg p) Int_DTrg)) p) dev in
    let dev :=
      outl (IntControlReg (private dev)) (CardReg PCI9118_INTCTRL) dev in
    let dev :=
      outl (Z.lor (inl (AmccReg AMCC_OP_REG_INTCSR) dev) 0x1f00)
           (AmccReg AMCC_OP_REG_INTCSR) dev in
    (0, dev).

Definition pci9118_exttrg_del (dev : comedi_device) (source : Z)
    : Z * comedi_device :=
  let source := u8 source in
  if source >? 3 then (-1, dev)
  else
    let dev :=
      upd_priv (fun p =>
        set_exttrg_users
          (u8 (clear_bits (exttrg_users p) (Z.shiftl 1 source))) p) dev in
    if negb (nz (exttrg_users (private dev))) then
      let dev :=
        upd_priv (fun p =>
          set_IntControlReg (u8 (clear_bits (IntControlReg p) Int_DTrg)) p)
          dev in
      let dev :=
        if negb (nz (IntControlReg (private dev))) then
          outl (Z.land (inl (AmccReg AMCC_OP_REG_INTCSR) dev)
                       (u32 (Z.lnot 0x00001f00)))
               (AmccReg AMCC_OP_REG_INTCSR) dev
        else dev in
      let dev :=
        outl (IntControlReg (private dev)) (CardReg PCI9118_INTCTRL) dev in
      (0, dev)
    else (0, dev).

(** ** Pacer divisors *)

(** [pci9118_calc_divisors]: the values left in [*tim1], [*tim2], [*div1]
    and [*div2].  [chans] is an [int] compared against unsigned
    divisors, hence read through [u32].  [mode] is a [char] parameter:
    the [switch] sees the low eight bits of what the caller passes, and
    its cases 1, 2 and 4 select the same whether [char] is signed or
    not. *)
Definition pci9118_calc_divisors (mode : Z) (dev : comedi_device)
    (tim1 tim2 flags chans div1 div2 chnsshfront : Z) : Z * Z * Z * Z :=
  let mode := u8 mode in
  let this_board := board_ptr dev in
  let cmd := dev_cmd dev in
  if (mode =? 1) || (mode =? 4) then
    let tim2 :=
      if tim2 <? ai_ns_min this_board then ai_ns_min this_board else tim2 in
    let '(div1, div2, tim2) :=
      i8253_cascade_ns_to_timer I8254_OSC_BASE_4MHZ div1 div2 tim2
        (Z.land flags TRIG_ROUND_NEAREST) in
    (tim1, tim2, div1, div2)
  else if mode =? 2 then
    let tim2 :=
      if tim2 <? ai_ns_min this_board then ai_ns_min this_board else tim2 in
    let div1 := tim2 / I8254_OSC_BASE_4MHZ in
    let div1 :=
      if div1 <? ai_pacer_min this_board then ai_pacer_min this_board
      else div1 in
    let div2 := tim1 / I8254_OSC_BASE_4MHZ in
    let div2 := div2 / div1 in
    let div2 := if div2 <? u32 chans then u32 chans else div2 in
    let tim2 := u32 (div1 * I8254_OSC_BASE_4MHZ) in
    let div2 :=
      if (convert_src cmd =? TRIG_NOW) && negb (nz chnsshfront) then
        if div2 <? u32 (chans + 2) then u32 (chans + 2) else div2
      else div2 in
    let tim1 := u32 (div1 * div2 * I8254_OSC_BASE_4MHZ) in
    (tim1, tim2, div1, div2)
  else (tim1, tim2, div1, div2).

Definition pci9118_start_pacer (dev : comedi_device) (mode : Z)
    : comedi_device :=
  let devpriv := private dev in
  let divisor1 := ai_divisor1 devpriv in
  let divisor2 := ai_divisor2 devpriv in
  let dev := outl 0x74 (CardReg PCI9118_CNTCTRL) dev in
  let dev := outl 0xb4 (CardReg PCI9118_CNTCTRL) dev in
  if (mode =? 1) || (mode =? 2) || (mode =? 4) then
    let dev := outl (Z.land divisor2 0xff) (CardReg PCI9118_CNT2) dev in
    let dev :=
      outl (Z.land (Z.shiftr divisor2 8) 0xff) (CardReg PCI9118_CNT2) dev in
    let dev := outl (Z.land divisor1 0xff) (CardReg PCI9118_CNT1) dev in
    outl (Z.land (Z.shiftr divisor1 8) 0xff) (CardReg PCI9118_CNT1) dev
  else dev.

(** ** Cancellation *)

Definition pci9118_ai_cancel (dev : comedi_device) : Z * comedi_device :=
  let dev :=
    if nz (usedma (private dev)) then
      outl (Z.land (inl (AmccReg AMCC_OP_REG_MCSR) dev)
                   (u32 (Z.lnot EN_A2P_TRANSFERS)))
           (AmccReg AMCC_OP_REG_MCSR) dev
    else dev in
  let dev := snd (pci9118_exttrg_del dev EXTTRG_AI) in
  let dev := pci9118_start_pacer dev 0 in
  let dev :=
    upd_priv (set_AdFunctionReg (Z.lor AdFunction_PDTrg AdFunction_PETrg))
      dev in
  let dev := outl (AdFunctionReg (private dev)) (CardReg PCI9118_ADFUNC) dev in
  let dev := upd_priv (set_AdControlReg 0x00) dev in
  let dev := outl (AdControlReg (private dev)) (CardReg PCI9118_ADCNTRL) dev in
  let dev := outl 0 (CardReg PCI9118_BURST) dev in
  let dev := outl 1 (CardReg PCI9118_SCANMOD) dev in
  let dev := outl 2 (CardReg PCI9118_SCANMOD) dev in
  let dev := outl 0 (CardReg PCI9118_DELFIFO) dev in
  let dev := upd_priv (set_ai_do 0) dev in
  let dev := upd_priv (set_usedma 0) dev in
  let dev := upd_priv (set_ai_act_scan 0) dev in
  let dev := upd_priv (set_ai_act_dmapos 0) dev in
  let dev := upd_async (set_cur_chan 0) dev in
  let dev := upd_async (set_inttrig None) dev in
  let dev := upd_priv (set_ai_neverending 0) dev in
  let dev := upd_priv (set_dma_actbuf 0) dev in
  let dev :=
    if negb (nz (IntControlReg (private dev))) then
      outl (Z.lor (inl (AmccReg AMCC_OP_REG_INTCSR) dev) 0x1f00)
           (AmccReg AMCC_OP_REG_INTCSR) dev
    else dev in
  (0, dev).

(** ** Error-status decoding *)

(** [pci9118_decode_error_status (dev, s, unsigned char m)]: the status
    word handed over by the caller is converted to the parameter's type
    on entry. *)
Definition pci9118_decode_error_status (dev : comedi_device) (status : Z)
    : Z * comedi_device :=
  let m := u8 status in
  let warned (bit : Z) (msg : string) (dev : comedi_device) :=
    if nz (Z.land m bit) then
      upd_priv (fun p =>
        set_ai_maskerr (u32 (clear_bits (ai_maskerr p) bit)) p)
        (dev_err msg dev)
    else dev in
  let dev := warned 0x100 "A/D FIFO Full status (Fatal Error!)"%string dev in
  let dev :=
    warned 0x008 "A/D Burst Mode Overrun Status (Fatal Error!)"%string dev in
  let dev := warned 0x004 "A/D Over Speed Status (Warning!)"%string dev in
  let dev := warned 0x002 "A/D Overrun Status (Fatal Error!)"%string dev in
  if nz (Z.land m (ai_maskharderr (private dev))) then
    let dev :=
      upd_async (fun a =>
        set_events
          (Z.lor (events a) (Z.lor COMEDI_CB_ERROR COMEDI_CB_EOA)) a) dev in
    let dev := cfc_handle_events dev in
    (1, dev)
  else (0, dev).

(** ** Programming the scan queue *)

(** The gain/channel word written for a channel-list entry. *)
Definition scanquad_of (entry : Z) : Z :=
  let scanquad := CR_CHAN entry in
  let gain := CR_RANGE entry in
  Z.lor scanquad (Z.shiftl (Z.land gain 0x03) 8).

Definition setup_channel_list (dev : comedi_device) (n_chan : Z)
    (chanlist : list Z) (rot frontadd backadd usedma : Z)
    : Z * comedi_device :=
  let differencial := CR_AREF (nth 0 chanlist 0) =? AREF_DIFF in
  let bipolar := CR_RANGE (nth 0 chanlist 0) <? PCI9118_BIPOLAR_RANGES in
  let ssh := 0x00 in
  let dev :=
    if negb bipolar then
      upd_priv (fun p =>
        set_AdControlReg (u8 (Z.lor (AdControlReg p) AdControl_UniP)) p) dev
    else
      upd_priv (fun p =>
        set_AdControlReg
          (u8 (Z.land (AdControlReg p)
                      (Z.land (Z.lnot AdControl_UniP) 0xff))) p) dev in
  let dev :=
    if differencial then
      upd_priv (fun p =>
        set_AdControlReg (u8 (Z.lor (AdControlReg p) AdControl_Diff)) p) dev
    else
      upd_priv (fun p =>
        set_AdControlReg
          (u8 (Z.land (AdControlReg p)
                      (Z.land (Z.lnot AdControl_Diff) 0xff))) p) dev in
  let dev := outl (AdControlReg (private dev)) (CardReg PCI9118_ADCNTRL) dev in
  let dev := outl 2 (CardReg PCI9118_SCANMOD) dev in
  let dev := outl 0 (CardReg PCI9118_SCANMOD) dev in
  let dev := outl 1 (CardReg PCI9118_SCANMOD) dev in
  let front :=
    if nz frontadd then
      fold_left
        (fun (st : comedi_device * Z) (_ : nat) =>
           (outl (Z.lor (scanquad_of (nth 0 chanlist 0)) (snd st))
                 (CardReg PCI9118_GAIN) (fst st),
            softsshhold (private dev)))
        (seq 0 (Z.to_nat (u32 frontadd)))
        (dev, softsshsample (private dev))
    else (dev, ssh) in
  let dev := fst front in
  let ssh := snd front in
  let dev :=
    fold_left
      (fun (dev : comedi_device) (i : nat) =>
         outl (Z.lor (scanquad_of (nth i chanlist 0)) ssh)
              (CardReg PCI9118_GAIN) dev)
      (seq 0 (Z.to_nat (u32 n_chan))) dev in
  let dev :=
    if nz backadd then
      fold_left
        (fun (dev : comedi_device) (_ : nat) =>
           outl (Z.lor (scanquad_of (nth 0 chanlist 0)) ssh)
                (CardReg PCI9118_GAIN) dev)
        (seq 0 (Z.to_nat (u32 backadd))) dev
    else dev in
  let dev := outl 0 (CardReg PCI9118_SCANMOD) dev in
  (1, dev).

(** ** Command negotiation *)

(** Step 1 : check if triggers are trivially valid. *)
Definition pci9118_ai_cmdtest_step1 (dev : comedi_device) (c : comedi_cmd)
    : Z * comedi_cmd :=
  let devpriv := private dev in
  let err := 0 in
  let r :=
    cfc_check_trigger_src (start_src c)
      (Z.lor (Z.lor TRIG_NOW TRIG_EXT) TRIG_INT) in
  let err := Z.lor err (fst r) in
  let c := set_start_src (snd r) c in
  let flags := TRIG_FOLLOW in
  let flags :=
    if nz (master devpriv) then Z.lor flags (Z.lor TRIG_TIMER TRIG_EXT)
    else flags in
  let r := cfc_check_trigger_src (scan_begin_src c) flags in
  let err := Z.lor err (fst r) in
  let c := set_scan_begin_src (snd r) c in
  let flags := Z.lor TRIG_TIMER TRIG_EXT in
  let flags := if nz (master devpriv) then Z.lor flags TRIG_NOW else flags in
  let r := cfc_check_trigger_src (convert_src c) flags in
  let err := Z.lor err (fst r) in
  let c := set_convert_src (snd r) c in
  let r := cfc_check_trigger_src (scan_end_src c) TRIG_COUNT in
  let err := Z.lor err (fst r) in
  let c := set_scan_end_src (snd r) c in
  let r :=
    cfc_check_trigger_src (stop_src c)
      (Z.lor (Z.lor TRIG_COUNT TRIG_NONE) TRIG_EXT) in
  let err := Z.lor err (fst r) in
  let c := set_stop_src (snd r) c in
  (err, c).

(** Step 2a : make sure trigger sources are unique;
    step 2b : and mutually compatible. *)
Definition pci9118_ai_cmdtest_step2 (c : comedi_cmd) : Z :=
  let err := 0 in
  let err := Z.lor err (cfc_check_trigger_is_unique (start_src c)) in
  let err := Z.lor err (cfc_check_trigger_is_unique (scan_begin_src c)) in
  let err := Z.lor err (cfc_check_trigger_is_unique (convert_src c)) in
  let err := Z.lor err (cfc_check_trigger_is_unique (stop_src c)) in
  let err :=
    if (start_src c =? TRIG_EXT) && (scan_begin_src c =? TRIG_EXT)
    then Z.lor err (- EINVAL) else err in
  let err :=
    if (start_src c =? TRIG_INT) && (scan_begin_src c =? TRIG_INT)
    then Z.lor err (- EINVAL) else err in
  let err :=
    if nz (Z.land (scan_begin_src c) (Z.lor TRIG_TIMER TRIG_EXT))
       && negb (nz (Z.land (convert_src c) (Z.lor TRIG_TIMER TRIG_NOW)))
    then Z.lor err (- EINVAL) else err in
  let err :=
    if (scan_begin_src c =? TRIG_FOLLOW)
       && negb (nz (Z.land (convert_src c) (Z.lor TRIG_TIMER TRIG_EXT)))
    then Z.lor err (- EINVAL) else err in
  let err :=
    if (stop_src c =? TRIG_EXT) && (scan_begin_src c =? TRIG_EXT)
    then Z.lor err (- EINVAL) else err in
  err.

(** The rewrite at the head of step 3: a timed scan of one conversion is
    turned into an untimed scan with a timed conversion. *)
Definition cmdtest_single_scan_rewrite (c : comedi_cmd) : comedi_cmd :=
  if (scan_begin_src c =? TRIG_TIMER) && (convert_src c =? TRIG_TIMER)
     && (scan_end_arg c =? 1)
  then
    let c := set_scan_begin_src TRIG_FOLLOW c in
    let c := set_convert_arg (scan_begin_arg c) c in
    set_scan_begin_arg 0 c
  else c.

(** Step 3: check if arguments are trivially valid. *)
Definition pci9118_ai_cmdtest_step3 (dev : comedi_device) (c : comedi_cmd)
    : Z * comedi_cmd :=
  let this_board := board_ptr dev in
  let err := 0 in
  let r :=
    if (start_src c =? TRIG_NOW) || (start_src c =? TRIG_EXT)
    then cfc_check_trigger_arg_is (start_arg c) 0
    else (0, start_arg c) in
  let err := Z.lor err (fst r) in
  let c := set_start_arg (snd r) c in
  let r :=
    if nz (Z.land (scan_begin_src c) (Z.lor TRIG_FOLLOW TRIG_EXT))
    then cfc_check_trigger_arg_is (scan_begin_arg c) 0
    else (0, scan_begin_arg c) in
  let err := Z.lor err (fst r) in
  let c := set_scan_begin_arg (snd r) c in
  let c := cmdtest_single_scan_rewrite c in
  let r :=
    if scan_begin_src c =? TRIG_TIMER
    then cfc_check_trigger_arg_min (scan_begin_arg c) (ai_ns_min this_board)
    else (0, scan_begin_arg c) in
  let err := Z.lor err (fst r) in
  let c := set_scan_begin_arg (snd r) c in
  let ec :=
    if (scan_begin_src c =? TRIG_EXT) && nz (scan_begin_arg c) then
      let c := set_scan_begin_arg 0 c in
      let err := Z.lor err (- EINVAL) in
      let r := cfc_check_trigger_arg_max (scan_end_arg c) 65535 in
      (Z.lor err (fst r), set_scan_end_arg (snd r) c)
    else (err, c) in
  let err := fst ec in
  let c := snd ec in
  let r :=
    if nz (Z.land (convert_src c) (Z.lor TRIG_TIMER TRIG_NOW))
    then cfc_check_trigger_arg_min (convert_arg c) (ai_ns_min this_board)
    else (0, convert_arg c) in
  let err := Z.lor err (fst r) in
  let c := set_convert_arg (snd r) c in
  let r :=
    if convert_src c =? TRIG_EXT
    then cfc_check_trigger_arg_is (convert_arg c) 0
    else (0, convert_arg c) in
  let err := Z.lor err (fst r) in
  let c := set_convert_arg (snd r) c in
  let r :=
    if stop_src c =? TRIG_COUNT
    then cfc_check_trigger_arg_min (stop_arg c) 1
    else cfc_check_trigger_arg_is (stop_arg c) 0 in
  let err := Z.lor err (fst r) in
  let c := set_stop_arg (snd r) c in
  let r := cfc_check_trigger_arg_min (chanlist_len c) 1 in
  let err := Z.lor err (fst r) in
  let c := set_chanlist_len (snd r) c in
  let r := cfc_check_trigger_arg_min (scan_end_arg c) (chanlist_len c) in
  let err := Z.lor err (fst r) in
  let c := set_scan_end_arg (snd r) c in
  if nz (scan_end_arg c mod chanlist_len c) then
    (Z.lor err (- EINVAL),
     set_scan_end_arg
       (u32 (chanlist_len c * (scan_end_arg c / chanlist_len c))) c)
  else (err, c).

(** Step 4: fix up any arguments. *)
Definition pci9118_ai_cmdtest_step4 (dev : comedi_device) (c : comedi_cmd)
    : Z * comedi_cmd :=
  let this_board := board_ptr dev in
  let err := 0 in
  let divisor1 := 0 in
  let divisor2 := 0 in
  let st :=
    if scan_begin_src c =? TRIG_TIMER then
      let arg := scan_begin_arg c in
      let '(divisor1, divisor2, arg) :=
        i8253_cascade_ns_to_timer I8254_OSC_BASE_4MHZ divisor1 divisor2 arg
          (flags c) in
      let r := cfc_check_trigger_arg_is (scan_begin_arg c) arg in
      (Z.lor err (fst r), set_scan_begin_arg (snd r) c, divisor1, divisor2)
    else (err, c, divisor1, divisor2) in
  let '(err, c, divisor1, divisor2) := st in
  if nz (Z.land (convert_src c) (Z.lor TRIG_TIMER TRIG_NOW)) then
    let arg := convert_arg c in
    let '(divisor1, divisor2, arg) :=
      i8253_cascade_ns_to_timer I8254_OSC_BASE_4MHZ divisor1 divisor2 arg
        (flags c) in
    let r := cfc_check_trigger_arg_is (convert_arg c) arg in
    let err := Z.lor err (fst r) in
    let c := set_convert_arg (snd r) c in
    if (scan_begin_src c =? TRIG_TIMER) && (convert_src c =? TRIG_NOW) then
      let arg :=
        if convert_arg c =? 0
        then u32 (ai_ns_min this_board * (scan_end_arg c + 2))
        else u32 (convert_arg c * chanlist_len c) in
      let r := cfc_check_trigger_arg_min (scan_begin_arg c) arg in
      (Z.lor err (fst r), set_scan_begin_arg (snd r) c)
    else (err, c)
  else (err, c).

(** [pci9118_ai_cmdtest]: the phase that failed (0 when the command is
    accepted) and the command as the checks left it. *)
Definition pci9118_ai_cmdtest (dev : comedi_device) (c : comedi_cmd)
    : Z * comedi_cmd :=
  let '(err, c) := pci9118_ai_cmdtest_step1 dev c in
  if nz err then (1, c)
  else
    let err := pci9118_ai_cmdtest_step2 c in
    if nz err then (2, c)
    else
      let '(err, c) := pci9118_ai_cmdtest_step3 dev c in
      if nz err then (3, c)
      else
        let '(err, c) := pci9118_ai_cmdtest_step4 dev c in
        if nz err then (4, c)
        else
          match chanlist c with
          | Some l =>
              if negb (nz (check_channel_list dev (s32 (chanlist_len c)) l
                             0 0))
              then (5, c) else (0, c)
          | None => (0, c)
          end.

(** ** DMA buffer sizing *)

(** The two [if (devpriv->ai_flags & TRIG_WAKE_EOS)] blocks of
    [Compute_and_setup_dma], for buffer [n]: shorten the buffer to one
    scan, or give up waking per scan when it is too short. *)
Definition dma_wake_eos_len (n : string) (dmalen : Z) (dev : comedi_device)
    : Z * comedi_device :=
  let devpriv := private dev in
  if nz (Z.land (ai_flags devpriv) TRIG_WAKE_EOS) then
    if dmalen <? u32 (Z.shiftl (ai_n_realscanlen devpriv) 1) then
      let dev :=
        upd_priv (fun p =>
          set_ai_flags (u32 (clear_bits (ai_flags p) TRIG_WAKE_EOS)) p) dev in
      (dmalen,
       dev_info ("WAR: DMA" ++ n
                 ++ " buf too short, can't support TRIG_WAKE_EOS")%string dev)
    else
      let dmalen := u32 (Z.shiftl (ai_n_realscanlen devpriv) 1) in
      if dmalen <? 4 then
        (4, dev_info ("ERR: DMA" ++ n ++ " buf len bug?")%string dev)
      else (dmalen, dev)
  else (dmalen, dev).

(** Alignment of a buffer to a whole number of scans (transfer without
    [TRIG_WAKE_EOS]).  The divisor is the scan length in bytes,
    [ai_n_realscanlen << 1] in 32 bits.  When it is 0 the C division is
    undefined (the kernel traps) while the quotient written here is Z's,
    which is 0: what is stated of a run through this function either
    assumes a divisor other than 0 or is about a value the code has
    returned. *)
Definition dma_align_to_scan (dmalen realscanlen : Z) : Z :=
  let i := dmalen in
  let dmalen :=
    u32 (dmalen / u32 (Z.shiftl realscanlen 1)
         * u32 (Z.shiftl realscanlen 1)) in
  let dmalen := u32 (clear_bits dmalen 3) in
  if negb (nz dmalen) then i else dmalen.

Definition Compute_and_setup_dma (dev : comedi_device) : Z * comedi_device :=
  let devpriv := private dev in
  let bufsz := prealloc_bufsz (dev_async dev) in
  let dmalen0 := fst (dmabuf_size devpriv) in
  let dmalen1 := snd (dmabuf_size devpriv) in
  let dmalen0 :=
    if dmalen0 >? bufsz then u32 (clear_bits bufsz 3) else dmalen0 in
  let dmalen1 :=
    if dmalen1 >? bufsz then u32 (clear_bits bufsz 3) else dmalen1 in
  let r := dma_wake_eos_len "0" dmalen0 dev in
  let dmalen0 := fst r in
  let dev := snd r in
  let r := dma_wake_eos_len "1" dmalen1 dev in
  let dmalen1 := fst r in
  let dev := snd r in
  let devpriv := private dev in
  let scanbytes := u32 (Z.shiftl (ai_n_realscanlen devpriv) 1) in
  let lens :=
    if negb (nz (Z.land (ai_flags devpriv) TRIG_WAKE_EOS)) then
      let dmalen0 := dma_align_to_scan dmalen0 (ai_n_realscanlen devpriv) in
      let dmalen1 := dma_align_to_scan dmalen1 (ai_n_realscanlen devpriv) in
      if negb (nz (ai_neverending devpriv)) then
        let total := u32 (scanbytes * stop_arg (dev_cmd dev)) in
        if dmalen0 >? total then (u32 (clear_bits total 3), dmalen1)
        else
          let dmalen1 :=
            if dmalen1 >? u32 (total - dmalen0) then u32 (total - dmalen0)
            else dmalen1 in
          (dmalen0, u32 (clear_bits dmalen1 3))
      else (dmalen0, dmalen1)
    else (dmalen0, dmalen1) in
  let dev := upd_priv (set_dma_actbuf 0) dev in
  let dev := upd_priv (set_dmabuf_use_size lens) dev in
  let devpriv := private dev in
  let dev :=
    outl (Z.land (inl (AmccReg AMCC_OP_REG_MCSR) dev)
                 (u32 (Z.lnot EN_A2P_TRANSFERS)))
         (AmccReg AMCC_OP_REG_MCSR) dev in
  let dev := outl (fst (dmabuf_hw devpriv)) (AmccReg AMCC_OP_REG_MWAR) dev in
  let dev :=
    outl (fst (dmabuf_use_size devpriv)) (AmccReg AMCC_OP_REG_MWTC) dev in
  let dev :=
    outl (Z.lor 0x00000000 AINT_WRITE_COMPL) (AmccReg AMCC_OP_REG_INTCSR)
      dev in
  let dev :=
    outl (Z.lor (Z.lor (Z.lor (inl (AmccReg AMCC_OP_REG_MCSR) dev)
                              RESET_A2P_FLAGS) A2P_HI_PRIORITY)
                EN_A2P_TRANSFERS)
         (AmccReg AMCC_OP_REG_MCSR) dev in
  let dev :=
    outl (Z.lor (inl (AmccReg AMCC_OP_REG_INTCSR) dev) EN_A2P_TRANSFERS)
         (AmccReg AMCC_OP_REG_INTCSR) dev in
  (0, dev).

(** ** Starting an acquisition *)

Definition or_AdControlReg (bits : Z) (dev : comedi_device) : comedi_device :=
  upd_priv (fun p => set_AdControlReg (u8 (Z.lor (AdControlReg p) bits)) p)
    dev.

(** Outcome of a block that either falls through to the code after it or
    logs a message and makes its function return an error. *)
Inductive block_result : Type :=
| Proceed (dev : comedi_device)
| Bail (msg : string).

(** The mode switch of [pci9118_ai_docmd_sampl]. *)
Definition docmd_sampl_mode_setup (dev : comedi_device) : block_result :=
  let mode := ai_do (private dev) in
  if mode =? 1 then Proceed (or_AdControlReg AdControl_TmrTr dev)
  else if mode =? 2 then Bail "pci9118_ai_docmd_sampl mode 2 bug!"
  else if mode =? 3 then Proceed (or_AdControlReg AdControl_ExtM dev)
  else if mode =? 4 then Bail "pci9118_ai_docmd_sampl mode 4 bug!"
  else Bail "pci9118_ai_docmd_sampl mode number bug!".

Definition pci9118_ai_docmd_sampl (dev : comedi_device) : Z * comedi_device :=
  match docmd_sampl_mode_setup dev with
  | Bail msg => (- EIO, dev_err msg dev)
  | Proceed dev =>
      let dev :=
        if nz (ai12_startstop (private dev))
        then snd (pci9118_exttrg_add dev EXTTRG_AI) else dev in
      let dev :=
        if (ai_do (private dev) =? 1) || (ai_do (private dev) =? 2) then
          upd_priv (fun p =>
            set_IntControlReg (u8 (Z.lor (IntControlReg p) Int_Timer)) p) dev
        else dev in
      let dev := or_AdControlReg AdControl_Int dev in
      let dev :=
        outl (Z.lor (inl (AmccReg AMCC_OP_REG_INTCSR) dev) 0x1f00)
             (AmccReg AMCC_OP_REG_INTCSR) dev in
      let dev :=
        if negb (nz (Z.land (ai12_startstop (private dev))
                            (Z.lor START_AI_EXT START_AI_INT))) then
          let dev :=
            outl (IntControlReg (private dev)) (CardReg PCI9118_INTCTRL)
              dev in
          let dev :=
            outl (AdFunctionReg (private dev)) (CardReg PCI9118_ADFUNC) dev in
          let dev :=
            if negb (ai_do (private dev) =? 3) then
              let dev := pci9118_start_pacer dev (ai_do (private dev)) in
              or_AdControlReg AdControl_SoftG dev
            else dev in
          outl (IntControlReg (private dev)) (CardReg PCI9118_INTCTRL) dev
        else dev in
      (0, dev)
  end.

(** The mode switch of [pci9118_ai_docmd_dma]. *)
Definition docmd_dma_mode_setup (dev : comedi_device) : block_result :=
  let mode := ai_do (private dev) in
  let trig := Z.lor AdFunction_PDTrg AdFunction_PETrg in
  if mode =? 1 then
    Proceed (or_AdControlReg (Z.land (Z.lor AdControl_TmrTr AdControl_Dma) 0xff)
            dev)
  else if mode =? 2 then
    let dev :=
      or_AdControlReg (Z.land (Z.lor AdControl_TmrTr AdControl_Dma) 0xff)
        dev in
    let dev :=
      upd_priv (set_AdFunctionReg
                  (Z.lor (Z.lor trig AdFunction_BM) AdFunction_BS)) dev in
    let dev :=
      if (convert_src (dev_cmd dev) =? TRIG_NOW)
         && negb (nz (softsshdelay (private dev)))
      then
        upd_priv (fun p =>
          set_AdFunctionReg (u8 (Z.lor (AdFunctionReg p) AdFunction_BSSH)) p)
          dev
      else dev in
    Proceed (outl (ai_n_realscanlen (private dev)) (CardReg PCI9118_BURST) dev)
  else if mode =? 3 then
    let dev :=
      or_AdControlReg (Z.land (Z.lor AdControl_ExtM AdControl_Dma) 0xff)
        dev in
    Proceed (upd_priv (set_AdFunctionReg trig) dev)
  else if mode =? 4 then
    let dev :=
      or_AdControlReg (Z.land (Z.lor AdControl_TmrTr AdControl_Dma) 0xff)
        dev in
    let dev := upd_priv (set_AdFunctionReg (Z.lor trig AdFunction_AM)) dev in
    let dev :=
      outl (AdFunctionReg (private dev)) (CardReg PCI9118_ADFUNC) dev in
    let dev := outl 0x30 (CardReg PCI9118_CNTCTRL) dev in
    let dev :=
      outl (Z.land (Z.shiftr (fst (dmabuf_hw (private dev))) 1) 0xff)
           (CardReg PCI9118_CNT0) dev in
    let dev :=
      outl (Z.land (Z.shiftr (fst (dmabuf_hw (private dev))) 9) 0xff)
           (CardReg PCI9118_CNT0) dev in
    Proceed (upd_priv (fun p =>
            set_AdFunctionReg (u8 (Z.lor (AdFunctionReg p) AdFunction_Start))
              p) dev)
  else Bail "pci9118_ai_docmd_dma mode number bug!".

Definition pci9118_ai_docmd_dma (dev : comedi_device) : Z * comedi_device :=
  let dev := snd (Compute_and_setup_dma dev) in
  match docmd_dma_mode_setup dev with
  | Bail msg => (- EIO, dev_err msg dev)
  | Proceed dev =>
      let dev :=
        if nz (ai12_startstop (private dev))
        then snd (pci9118_exttrg_add dev EXTTRG_AI) else dev in
      let dev :=
        outl (Z.lor 0x02000000 AINT_WRITE_COMPL) (AmccReg AMCC_OP_REG_INTCSR)
          dev in
      let dev :=
        if negb (nz (Z.land (ai12_startstop (private dev))
                            (Z.lor START_AI_EXT START_AI_INT))) then
          let dev :=
            outl (AdFunctionReg (private dev)) (CardReg PCI9118_ADFUNC) dev in
          let dev :=
            outl (IntControlReg (private dev)) (CardReg PCI9118_INTCTRL)
              dev in
          let dev :=
            if negb (ai_do (private dev) =? 3) then
              let dev := pci9118_start_pacer dev (ai_do (private dev)) in
              or_AdControlReg AdControl_SoftG dev
            else dev in
          outl (AdControlReg (private dev)) (CardReg PCI9118_ADCNTRL) dev
        else dev in
      (0, dev)
  end.

(** Prepare for start/stop conditions (head of [pci9118_ai_cmd]). *)
Definition pci9118_ai_cmd_startstop (dev : comedi_device) : comedi_device :=
  let or_startstop (bits : Z) :=
    upd_priv (fun p =>
      set_ai12_startstop (Z.lor (ai12_startstop p) bits) p) in
  let dev := upd_priv (set_ai12_startstop 0) dev in
  let dev := upd_priv (set_ai_flags (flags (dev_cmd dev))) dev in
  let dev := upd_priv (set_ai_add_front 0) dev in
  let dev := upd_priv (set_ai_add_back 0) dev in
  let dev := upd_priv (set_ai_maskerr 0x10e) dev in
  let dev :=
    if start_src (dev_cmd dev) =? TRIG_EXT
    then or_startstop START_AI_EXT dev else dev in
  let dev :=
    if stop_src (dev_cmd dev) =? TRIG_EXT then
      let dev := upd_priv (set_ai_neverending 1) dev in
      or_startstop STOP_AI_EXT dev
    else dev in
  let dev :=
    if start_src (dev_cmd dev) =? TRIG_INT then
      let dev := or_startstop START_AI_INT dev in
      upd_async (set_inttrig (Some pci9118_ai_inttrig)) dev
    else dev in
  let dev :=
    if stop_src (dev_cmd dev) =? TRIG_NONE
    then upd_priv (set_ai_neverending 1) dev else dev in
  if stop_src (dev_cmd dev) =? TRIG_COUNT
  then upd_priv (set_ai_neverending 0) dev else dev.

(** Use an additional sample at the end of every scan to satisfy the
    32-bit DMA transfer?  Chooses between DMA and interrupt transfer. *)
Definition pci9118_ai_cmd_dma_padding (dev : comedi_device) : comedi_device :=
  let c := dev_cmd dev in
  let dev := upd_priv (set_ai_add_front 0) dev in
  let dev := upd_priv (set_ai_add_back 0) dev in
  if nz (master (private dev)) then
    let dev := upd_priv (set_usedma 1) dev in
    let dev :=
      if nz (Z.land (flags c) TRIG_WAKE_EOS) && (scan_end_arg c =? 1) then
        let dev :=
          if convert_src c =? TRIG_NOW
          then upd_priv (set_ai_add_back 1) dev else dev in
        if convert_src c =? TRIG_TIMER
        then upd_priv (set_usedma 0) dev else dev
      else dev in
    if nz (Z.land (flags c) TRIG_WAKE_EOS) && nz (Z.land (scan_end_arg c) 1)
       && (scan_end_arg c >? 1)
    then
      if scan_begin_src c =? TRIG_FOLLOW
      then upd_priv (set_usedma 0) dev
      else upd_priv (set_ai_add_back 1) dev
    else dev
  else upd_priv (set_usedma 0) dev.

(** We need the software S&H signal?  It adds two samples before every
    scan as minimum. *)
Definition pci9118_ai_cmd_ssh_padding (dev : comedi_device) : comedi_device :=
  let this_board := board_ptr dev in
  if (convert_src (dev_cmd dev) =? TRIG_NOW)
     && nz (softsshdelay (private dev))
  then
    let dev := upd_priv (set_ai_add_front 2) dev in
    let dev :=
      if (usedma (private dev) =? 1) && (ai_add_back (private dev) =? 1) then
        let dev :=
          upd_priv (fun p => set_ai_add_front (u32 (ai_add_front p + 1)) p)
            dev in
        upd_priv (set_ai_add_back 0) dev
      else dev in
    let dev :=
      if convert_arg (dev_cmd dev) <? ai_ns_min this_board
      then upd_cmd (set_convert_arg (ai_ns_min this_board)) dev else dev in
    let delay := u32 (softsshdelay (private dev)) in
    let addchans := delay / convert_arg (dev_cmd dev) in
    let addchans :=
      if nz (delay mod convert_arg (dev_cmd dev)) then u32 (addchans + 1)
      else addchans in
    if addchans >? u32 (ai_add_front (private dev) - 1) then
      let dev := upd_priv (set_ai_add_front (u32 (addchans + 1))) dev in
      if usedma (private dev) =? 1 then
        if nz (Z.land (u32 (ai_add_front (private dev)
                            + chanlist_len (dev_cmd dev)
                            + ai_add_back (private dev))) 1)
        then
          upd_priv (fun p => set_ai_add_front (u32 (ai_add_front p + 1)) p)
            dev
        else dev
      else dev
    else dev
  else dev.

(** One call of [pci9118_calc_divisors] from [pci9118_ai_cmd], with the
    results stored through the pointers handed over. *)
Definition pci9118_ai_cmd_calc_divisors (dev : comedi_device)
    : comedi_device :=
  let devpriv := private dev in
  let c := dev_cmd dev in
  let '(tim1, tim2, div1, div2) :=
    pci9118_calc_divisors (ai_do devpriv) dev (scan_begin_arg c)
      (convert_arg c) (ai_flags devpriv) (s32 (ai_n_realscanlen devpriv))
      (ai_divisor1 devpriv) (ai_divisor2 devpriv) (ai_add_front devpriv) in
  let dev := upd_cmd (set_scan_begin_arg tim1) dev in
  let dev := upd_cmd (set_convert_arg tim2) dev in
  let dev := upd_priv (set_ai_divisor1 div1) dev in
  upd_priv (set_ai_divisor2 div2) dev.

(** The tail of [pci9118_ai_cmd]: stop the pacer, put the control
    registers in their idle setting, clear the run counters and hand over
    to the DMA or the per-sample start routine. *)
Definition pci9118_ai_cmd_start (dev : comedi_device) : Z * comedi_device :=
  let dev := pci9118_start_pacer dev (-1) in
  let dev := upd_priv (set_AdControlReg 0) dev in
  let dev := outl (AdControlReg (private dev)) (CardReg PCI9118_ADCNTRL) dev in
  let dev :=
    upd_priv (set_AdFunctionReg (Z.lor AdFunction_PDTrg AdFunction_PETrg))
      dev in
  let dev := outl (AdFunctionReg (private dev)) (CardReg PCI9118_ADFUNC) dev in
  let dev := outl 0 (CardReg PCI9118_DELFIFO) dev in
  let dev := upd_priv (set_ai_act_scan 0) dev in
  let dev := upd_priv (set_ai_act_dmapos 0) dev in
  let dev := upd_async (set_cur_chan 0) dev in
  if nz (usedma (private dev)) then pci9118_ai_docmd_dma dev
  else pci9118_ai_docmd_sampl dev.

(** Compute timers settings: the acquisition mode is chosen here. *)
Definition pci9118_ai_cmd_timers (dev : comedi_device) : Z * comedi_device :=
  let c := dev_cmd dev in
  let dev :=
    if ((scan_begin_src c =? TRIG_FOLLOW) || (scan_begin_src c =? TRIG_EXT)
        || (scan_begin_src c =? TRIG_INT))
       && (convert_src c =? TRIG_TIMER)
    then
      let dev :=
        if scan_begin_src c =? TRIG_EXT then upd_priv (set_ai_do 4) dev
        else upd_priv (set_ai_do 1) dev in
      pci9118_ai_cmd_calc_divisors dev
    else dev in
  let c := dev_cmd dev in
  let double_timed :=
    if (scan_begin_src c =? TRIG_TIMER)
       && ((convert_src c =? TRIG_TIMER) || (convert_src c =? TRIG_NOW))
    then
      if negb (nz (usedma (private dev))) then
        Bail "cmd->scan_begin_src=TRIG_TIMER works only with bus mastering!"
      else
        let dev := upd_priv (set_ai_do 2) dev in
        Proceed (pci9118_ai_cmd_calc_divisors dev)
    else Proceed dev in
  match double_timed with
  | Bail msg => (- EIO, dev_err msg dev)
  | Proceed dev =>
      let c := dev_cmd dev in
      let dev :=
        if (scan_begin_src c =? TRIG_FOLLOW) && (convert_src c =? TRIG_EXT)
        then upd_priv (set_ai_do 3) dev else dev in
      pci9118_ai_cmd_start dev
  end.

(** The channel list [cmd->chanlist] points to; the comedi core hands
    [do_cmd] a list of [chanlist_len] entries, a null pointer is read as
    the empty list. *)
Definition chanlist_entries (c : comedi_cmd) : list Z :=
  match chanlist c with Some l => l | None => [] end.

(** [pci9118_ai_cmd]: the command is [s->async->cmd].  The routine
    divides the requested scan length by the channel-list length, and
    the routines it calls divide by the convert period (software S&H
    padding), by the first divisor (dual timer) and by the scan length
    in bytes (DMA set-up).  With a divisor 0 the C division is undefined
    (the kernel traps) and the routine returns nothing, while the
    quotients written here are Z's, total: what is stated of this
    function either assumes divisors other than 0 or is about a value
    the code has returned. *)
Definition pci9118_ai_cmd (dev : comedi_device) : Z * comedi_device :=
  let dev := pci9118_ai_cmd_startstop dev in
  let dev := pci9118_ai_cmd_dma_padding dev in
  let dev := pci9118_ai_cmd_ssh_padding dev in
  let dev :=
    upd_priv (fun p =>
      set_ai_n_realscanlen
        (u32 (u32 (ai_add_front p + chanlist_len (dev_cmd dev)
                   + ai_add_back p)
              * (scan_end_arg (dev_cmd dev) / chanlist_len (dev_cmd dev))))
        p) dev in
  let c := dev_cmd dev in
  let devpriv := private dev in
  match check_channel_list_verdict dev (s32 (chanlist_len c))
          (chanlist_entries c) (s32 (ai_add_front devpriv))
          (s32 (ai_add_back devpriv)) with
  | ChanlistRejected msg => (- EINVAL, dev_err msg dev)
  | ChanlistOk =>
      let r :=
        setup_channel_list dev (s32 (chanlist_len c)) (chanlist_entries c) 0
          (s32 (ai_add_front devpriv)) (s32 (ai_add_back devpriv))
          (usedma devpriv) in
      if negb (nz (fst r)) then (- EINVAL, snd r)
      else pci9118_ai_cmd_timers (snd r)
  end.

(** ** Reset and attach *)

Definition pci9118_reset (dev : comedi_device) : Z * comedi_device :=
  let dev := upd_priv (set_IntControlReg 0) dev in
  let dev := upd_priv (set_exttrg_users 0) dev in
  let dev := outl (IntControlReg (private dev)) (CardReg PCI9118_INTCTRL) dev in
  let dev := outl 0x30 (CardReg PCI9118_CNTCTRL) dev in
  let dev := pci9118_start_pacer dev 0 in
  let dev := upd_priv (set_AdControlReg 0) dev in
  let dev := outl (AdControlReg (private dev)) (CardReg PCI9118_ADCNTRL) dev in
  let dev := outl 0 (CardReg PCI9118_BURST) dev in
  let dev := outl 1 (CardReg PCI9118_SCANMOD) dev in
  let dev := outl 2 (CardReg PCI9118_SCANMOD) dev in
  let dev :=
    upd_priv (set_AdFunctionReg (Z.lor AdFunction_PDTrg AdFunction_PETrg))
      dev in
  let dev := outl (AdFunctionReg (private dev)) (CardReg PCI9118_ADFUNC) dev in
  let dev := upd_priv (set_ao_data (2047, 2047)) dev in
  let dev := outl (fst (ao_data (private dev))) (CardReg PCI9118_DA1) dev in
  let dev := outl (snd (ao_data (private dev))) (CardReg PCI9118_DA2) dev in
  let dev := outl 0 (CardReg PCI9118_DO) dev in
  let dev := outl 0 (CardReg PCI9118_DELFIFO) dev in
  let dev := outl 0 (CardReg PCI9118_INTSRC) dev in
  let dev := upd_priv (set_AdControlReg 0) dev in
  let dev := outl (AdControlReg (private dev)) (CardReg PCI9118_ADCNTRL) dev in
  let dev := upd_priv (set_exttrg_users 0) dev in
  (0, dev).

(** The hard-error mask [pci9118_common_attach] installs: the default
    measure crash condition, less the bits the configuration asks to
    ignore. *)
Definition attach_maskharderr (hw_err_mask : Z) : Z :=
  let ai_maskharderr := 0x10a in
  if nz hw_err_mask then u32 (clear_bits ai_maskharderr hw_err_mask)
  else ai_maskharderr.

(** Session state left by [pci9118_common_attach].  What the bus layer
    decides is taken as given: [dmabuf0] and [dmabuf1] are the size and
    bus address of each DMA buffer that could be allocated, [irq] the
    interrupt line obtained (0 for none). *)
Definition pci9118_common_attach (dev : comedi_device)
    (master ext_mux softsshdelay hw_err_mask : Z)
    (dmabuf0 dmabuf1 : option (Z * Z)) (irq : Z) : Z * comedi_device :=
  let this_board := board_ptr dev in
  let dev := snd (pci9118_reset dev) in
  let alloc (i : Z) (buf : option (Z * Z)) (dev : comedi_device) :=
    match buf with
    | Some (size, hw) =>
        upd_priv (fun p =>
          set_dmabuf_hw (arr2_set (dmabuf_hw p) i hw)
            (set_dmabuf_size (arr2_set (dmabuf_size p) i size) p)) dev
    | None => dev
    end in
  let st :=
    if nz master then
      let dev := upd_priv (set_dma_doublebuf 0) dev in
      let dev := alloc 0 dmabuf0 dev in
      let dev := alloc 1 dmabuf1 dev in
      let md :=
        match dmabuf0 with
        | None =>
            (0, dev_err "Can't allocate DMA buffer, DMA disabled!" dev)
        | Some _ => (master, dev)
        end in
      match dmabuf1 with
      | Some _ => (fst md, upd_priv (set_dma_doublebuf 1) (snd md))
      | None => md
      end
    else (master, dev) in
  let master := fst st in
  let dev := snd st in
  let dev := upd_priv (set_master master) dev in
  let ext_mux :=
    if ext_mux >? 0 then
      let ext_mux := if ext_mux >? 256 then 256 else ext_mux in
      if (softsshdelay >? 0) && (ext_mux >? 128) then 128 else ext_mux
    else 0 in
  let dev := upd_priv (set_usemux ext_mux) dev in
  let dev :=
    if softsshdelay <? 0 then
      upd_priv (fun p =>
        set_softsshhold 0x00
          (set_softsshsample 0x80 (set_softsshdelay (- softsshdelay) p))) dev
    else
      upd_priv (fun p =>
        set_softsshhold 0x80
          (set_softsshsample 0x00 (set_softsshdelay softsshdelay p))) dev in
  let dev :=
    if nz irq then
      set_read_subdev
        (set_len_chanlist (n_aichanlist this_board) (read_subdev dev)) dev
    else dev in
  let dev :=
    set_read_subdev (set_maxdata (ai_maxdata this_board) (read_subdev dev))
      dev in
  let dev := upd_priv (set_ai_maskharderr (attach_maskharderr hw_err_mask))
               dev in
  (0, dev).


(** ** Sample sessions

    Concrete devices and commands on which the properties below are
    exercised. *)

(** [comedi_alloc_devpriv]: the private data starts zeroed. *)
Definition devpriv_zero : pci9118_private :=
  {| master := 0; usemux := 0; AdControlReg := 0; IntControlReg := 0;
     AdFunctionReg := 0; ai_neverending := 0; ai_do := 0; ai_act_scan := 0;
     ai_n_realscanlen := 0; ai_act_dmapos := 0; ai_add_front := 0;
     ai_add_back := 0; ai_flags := 0; ai12_startstop := 0; ai_divisor1 := 0;
     ai_divisor2 := 0; ao_data := (0, 0); dma_doublebuf := 0;
     dma_actbuf := 0; dmabuf_hw := (0, 0); dmabuf_size := (0, 0);
     dmabuf_use_size := (0, 0); exttrg_users := 0; usedma := 0;
     softsshdelay := 0; softsshsample := 0; softsshhold := 0;
     ai_maskerr := 0; ai_maskharderr := 0 |}.

Definition comedi_cmd_zero : comedi_cmd :=
  {| start_src := 0; start_arg := 0; scan_begin_src := 0;
     scan_begin_arg := 0; convert_src := 0; convert_arg := 0;
     scan_end_src := 0; scan_end_arg := 0; stop_src := 0; stop_arg := 0;
     chanlist := None; chanlist_len := 0; flags := 0 |}.

(** A device as the comedi core hands it to the attach routine: board
    selected, everything else zero, a 64 KiB streaming buffer, a card
    whose ports read as zero. *)
Definition comedi_device_alloc (b : boardtype) : comedi_device :=
  {| board_ptr := b;
     private := devpriv_zero;
     read_subdev :=
       {| len_chanlist := 0; maxdata := 0;
          async := {| prealloc_bufsz := 65536; cur_chan := 0; events := 0;
                      inttrig := None; cmd := comedi_cmd_zero |} |};
     io_in := fun _ => 0;
     io_log := [];
     klog := [] |}.

(** [pci9118_auto_attach]: no external multiplexer, no software
    sample-and-hold, no ignored error bits; bus mastering with both DMA
    buffers granted (16 KiB each) and an interrupt line. *)
Definition session_dma (b : boardtype) : comedi_device :=
  snd (pci9118_common_attach (comedi_device_alloc b) 1 0 0 0
         (Some (16384, 0x100000)) (Some (16384, 0x200000)) 5).

(** Manual attach with DMA disabled (option [3] = 1): interrupt per
    sample. *)
Definition session_irq (b : boardtype) : comedi_device :=
  snd (pci9118_common_attach (comedi_device_alloc b) 0 0 0 0 None None 5).

(** Installs a command as [s->async->cmd]. *)
Definition with_cmd (c : comedi_cmd) (dev : comedi_device) : comedi_device :=
  upd_cmd (fun _ => c) dev.

(** Scenario A of the design notes: start now, scans follow, conversions
    every 10 us, stop after 100 scans, two bipolar single-ended
    channels. *)
Definition cmd_follow_timer : comedi_cmd :=
  {| start_src := TRIG_NOW; start_arg := 0; scan_begin_src := TRIG_FOLLOW;
     scan_begin_arg := 0; convert_src := TRIG_TIMER; convert_arg := 10000;
     scan_end_src := TRIG_COUNT; scan_end_arg := 2; stop_src := TRIG_COUNT;
     stop_arg := 100;
     chanlist := Some [CR_PACK 0 0 AREF_GROUND; CR_PACK 1 0 AREF_GROUND];
     chanlist_len := 2; flags := 0 |}.

(** The same acquisition, started by the external trigger. *)
Definition cmd_ext_start : comedi_cmd := set_start_src TRIG_EXT cmd_follow_timer.

(** Scans started by the external trigger, conversions back to back. *)
Definition cmd_ext_now : comedi_cmd :=
  {| start_src := TRIG_NOW; start_arg := 0; scan_begin_src := TRIG_EXT;
     scan_begin_arg := 0; convert_src := TRIG_NOW; convert_arg := 3000;
     scan_end_src := TRIG_COUNT; scan_end_arg := 2; stop_src := TRIG_COUNT;
     stop_arg := 100;
     chanlist := Some [CR_PACK 0 0 AREF_GROUND; CR_PACK 1 0 AREF_GROUND];
     chanlist_len := 2; flags := 0 |}.


(** Stand-ins for the absent collaborators, for running the driver on
    the sample sessions: a pacer search that keeps the first divisor at 2
    and rounds the period down to what the second divisor then reaches,
    and an event dispatcher that does nothing. *)
Definition pacer_stand_in (osc_base d1 d2 nanosec round_mode : Z)
    : Z * Z * Z :=
  let d2 := nanosec / osc_base / 2 in (2, d2, 2 * d2 * osc_base).

Definition events_stand_in (dev : comedi_device) : comedi_device := dev.

(** A DMA session in the middle of a run with three requested channels,
    one front and two back padding samples, the cursor on the last
    requested channel. *)
Definition session_padded : comedi_device :=
  upd_priv
    (fun p => set_ai_act_dmapos 3 (set_ai_add_back 2 (set_ai_add_front 1 p)))
    (with_cmd (set_chanlist_len 3 comedi_cmd_zero) (session_dma pci9118dg)).

Definition raw_block_12 : list Z :=
  [100; 101; 102; 103; 104; 105; 106; 107; 108; 109; 110; 111].


(** ** Reference notions for the scan queue *)

(** The words written to the scan queue, oldest first. *)
Definition gain_words (log : list (ioport * Z)) : list Z :=
  rev (map snd
         (List.filter
            (fun pv : ioport * Z =>
               match fst pv with
               | CardReg o => o =? PCI9118_GAIN
               | AmccReg _ => false
               end) log)).

(** The queue of a padded scan: [frontadd] copies of the first entry
    (the first with the sample polarity of the software sample-and-hold,
    the others with its hold polarity), the entries of the list, and
    [backadd] more copies of the first entry; with front padding, the
    hold polarity is kept on for the rest of the queue. *)
Definition padded_queue (dev : comedi_device) (chanlist : list Z)
    (frontadd backadd : nat) : list Z :=
  let e0 := scanquad_of (nth 0 chanlist 0) in
  let hold := softsshhold (private dev) in
  let ssh := match frontadd with O => 0 | S _ => hold end in
  match frontadd with
  | O => []
  | S k => Z.lor e0 (softsshsample (private dev)) :: repeat (Z.lor e0 hold) k
  end
  ++ map (fun e => Z.lor (scanquad_of e) ssh) chanlist
  ++ repeat (Z.lor e0 ssh) backadd.

(** ** Further collaborators

    Used by the data path and declared outside this file: the byte-order
    conversion [be16_to_cpu] ([byteorder.h]), the buffer writers
    [cfc_write_to_buffer] and [cfc_write_array_to_buffer]
    ([comedi_fc.h]; the second gives the number of bytes it took), the
    polling helper [comedi_timeout] (comedi core; it gives 0 or an error
    code), the error code [EBUSY] and three interrupt bits of the bridge
    ([amcc_s5933.h]). *)
Variable be16_to_cpu : Z -> Z.
Variable cfc_write_to_buffer : comedi_device -> Z -> comedi_device.
Variable cfc_write_array_to_buffer :
  comedi_device -> list Z -> Z -> Z * comedi_device.
Variable comedi_timeout : (comedi_device -> Z) -> comedi_device -> Z.
Variable EBUSY : Z.
Variables ANY_S593X_INT MASTER_ABORT_INT TARGET_ABORT_INT : Z.

(** ** Conversion of raw samples *)

(** The body of the loop of [pci9118_ai_munge] on one [unsigned short]:
    byte order first when the sample came by DMA, then offset binary to
    unsigned on a 16-bit board, or the twelve data bits above the
    channel tag on the others. *)
Definition munge_sample (dev : comedi_device) (x : Z) : Z :=
  let x := if nz (usedma (private dev)) then u16 (be16_to_cpu x) else x in
  if maxdata (read_subdev dev) =? 0xffff then u16 (Z.lxor x 0x8000)
  else u16 (Z.land (Z.shiftr x 4) 0x0fff).

(** The loop of [pci9118_ai_munge] with [n] iterations left, at index
    [i]; [None] for an access past the end of the array. *)
Fixpoint munge_loop (dev : comedi_device) (n i : nat) (array : list Z)
    : option (list Z) :=
  match n with
  | O => Some array
  | S n' =>
      match array !! i with
      | None => None
      | Some x => munge_loop dev n' (S i) (<[i := munge_sample dev x]> array)
      end
  end.

Definition pci9118_ai_munge (dev : comedi_device) (data : list Z)
    (num_bytes start_chan_index : Z) : option (list Z) :=
  let num_samples := u32 num_bytes / 2 in
  munge_loop dev (Z.to_nat num_samples) 0 data.

(** ** Single conversions and the analog outputs *)

Definition pci9118_ai_eoc (dev : comedi_device) : Z :=
  let status := inl (CardReg PCI9118_ADSTAT) dev in
  if nz (Z.land status AdStatus_ADrdy) then 0 else - EBUSY.

(** The loop of [pci9118_insn_read_ai] with [n] conversions left: the
    return value ([None] when the loop runs to its end), the samples
    stored in [data] so far (oldest first) and the device.  The 16-bit
    write [outw] that starts a conversion is logged as [outl] writes
    are; [udelay] leaves no trace. *)
Fixpoint insn_read_ai_loop (n : nat) (dev : comedi_device) (data : list Z)
    : option Z * list Z * comedi_device :=
  match n with
  | O => (None, data, dev)
  | S n' =>
      let dev := outl 0 (CardReg PCI9118_SOFTTRG) dev in
      let ret := comedi_timeout pci9118_ai_eoc dev in
      if nz ret then
        let dev := outl 0 (CardReg PCI9118_DELFIFO) dev in
        (Some ret, data, dev)
      else
        let sample :=
          if maxdata (read_subdev dev) =? 0xffff then
            Z.lxor (Z.land (u32 (inl (CardReg PCI9118_AD_DATA) dev)) 0xffff)
                   0x8000
          else
            Z.land (Z.shiftr (u16 (inl (CardReg PCI9118_AD_DATA) dev)) 4)
                   0xfff in
        insn_read_ai_loop n' dev (data ++ [sample])
  end.

(** [pci9118_insn_read_ai (dev, s, insn, data)]: the return value, the
    samples stored in [data[0..]] and the device. *)
Definition pci9118_insn_read_ai (dev : comedi_device) (chanspec insn_n : Z)
    : Z * list Z * comedi_device :=
  let dev := upd_priv (set_AdControlReg (Z.land AdControl_Int 0xff)) dev in
  let dev :=
    upd_priv (set_AdFunctionReg (Z.lor AdFunction_PDTrg AdFunction_PETrg))
      dev in
  let dev := outl (AdFunctionReg (private dev)) (CardReg PCI9118_ADFUNC) dev in
  let r := setup_channel_list dev 1 [chanspec] 0 0 0 0 in
  if negb (nz (fst r)) then (- EINVAL, [], snd r)
  else
    let dev := snd r in
    let dev := outl 0 (CardReg PCI9118_DELFIFO) dev in
    match insn_read_ai_loop (Z.to_nat (u32 insn_n)) dev [] with
    | (Some ret, data, dev) => (ret, data, dev)
    | (None, data, dev) =>
        let dev := outl 0 (CardReg PCI9118_DELFIFO) dev in
        (s32 insn_n, data, dev)
    end.

(** [pci9118_insn_write_ao] for the data words of the instruction:
    [None] when the channel is outside [ao_data[2]]. *)
Definition pci9118_insn_write_ao (dev : comedi_device) (chanspec : Z)
    (data : list Z) : option (Z * comedi_device) :=
  let ch := CR_CHAN chanspec in
  let chanreg := if nz ch then PCI9118_DA2 else PCI9118_DA1 in
  if (ch =? 0) || (ch =? 1) then
    Some
      (Z.of_nat (length data),
       fold_left
         (fun (dev : comedi_device) (v : Z) =>
            let dev := outl v (CardReg chanreg) dev in
            upd_priv (fun p =>
              set_ao_data (arr2_set (ao_data p) ch (u16 v)) p) dev)
         data dev)
  else
    match data with
    | [] => Some (0, dev)
    | _ :: _ => None
    end.

(** [pci9118_insn_read_ao]: the return value and the [insn_n] words
    stored in [data]. *)
Definition pci9118_insn_read_ao (dev : comedi_device) (chanspec insn_n : Z)
    : option (Z * list Z) :=
  let chan := CR_CHAN chanspec in
  if (chan =? 0) || (chan =? 1) then
    Some (u32 insn_n,
          repeat (arr2_get (ao_data (private dev)) chan)
                 (Z.to_nat (u32 insn_n)))
  else if u32 insn_n =? 0 then Some (0, [])
  else None.

(** [pci9118_insn_bits_di]: the value left in [data[1]]. *)
Definition pci9118_insn_bits_di (dev : comedi_device) : Z :=
  Z.land (inl (CardReg PCI9118_DI) dev) 0xf.

(** ** Start by internal trigger *)

(** [pci9118_ai_inttrig], the callback installed in [async->inttrig]
    (the constructor of [inttrig_handler] stands for its address).
    [ai12_startstop] is a [char] used as a bit set; it is carried by its
    eight-bit pattern. *)
Definition pci9118_ai_inttrig_call (dev : comedi_device) (trig_num : Z)
    : Z * comedi_device :=
  if negb (trig_num =? start_arg (dev_cmd dev)) then (- EINVAL, dev)
  else
    let dev :=
      upd_priv (fun p =>
        set_ai12_startstop (u8 (clear_bits (ai12_startstop p) START_AI_INT))
          p) dev in
    let dev := upd_async (set_inttrig None) dev in
    let dev :=
      outl (IntControlReg (private dev)) (CardReg PCI9118_INTCTRL) dev in
    let dev :=
      outl (AdFunctionReg (private dev)) (CardReg PCI9118_ADFUNC) dev in
    let dev :=
      if negb (ai_do (private dev) =? 3) then
        let dev := pci9118_start_pacer dev (ai_do (private dev)) in
        upd_priv (fun p =>
          set_AdControlReg (u8 (Z.lor (AdControlReg p) AdControl_SoftG)) p)
          dev
      else dev in
    let dev :=
      outl (AdControlReg (private dev)) (CardReg PCI9118_ADCNTRL) dev in
    (1, dev).

(** ** The data path of a run *)

(** [move_block_from_dma]: the return value, the compacted block and the
    device; [None] when the padding removal is undefined or
    [scan_end_arg] is zero (a division by zero).  The byte counts are
    compared as the 64-bit [size_t] products they are. *)
Definition move_block_from_dma (dev : comedi_device) (dma_buffer : list Z)
    (num_samples : Z) : option (Z * list Z * comedi_device) :=
  match defragment_dma_buffer dev dma_buffer num_samples with
  | None => None
  | Some (num_samples, dma_buffer, dev) =>
      let scan_end := scan_end_arg (dev_cmd dev) in
      if scan_end =? 0 then None
      else
        let dev :=
          upd_priv (fun p =>
            set_ai_act_scan
              (u32 (ai_act_scan p
                    + u32 (cur_chan (dev_async dev) + num_samples)
                      / scan_end)) p) dev in
        let dev :=
          upd_async (fun a => set_cur_chan (u32 (cur_chan a + num_samples)) a)
            dev in
        let dev :=
          upd_async (fun a => set_cur_chan (cur_chan a mod scan_end) a) dev in
        let r := cfc_write_array_to_buffer dev dma_buffer
                   (u32 (num_samples * 2)) in
        if fst r <? num_samples * 2 then Some (-1, dma_buffer, snd r)
        else Some (0, dma_buffer, snd r)
  end.

(** The end-of-acquisition test both interrupt paths share. *)
Definition all_data_sampled (dev : comedi_device) : comedi_device :=
  if negb (nz (ai_neverending (private dev))) then
    if ai_act_scan (private dev) >=? stop_arg (dev_cmd dev) then
      upd_async (fun a => set_events (Z.lor (events a) COMEDI_CB_EOA) a) dev
    else dev
  else dev.

(** [interrupt_pci9118_ai_onesample]; [None] for a zero [scan_end_arg]
    (a division by zero). *)
Definition interrupt_pci9118_ai_onesample (dev : comedi_device)
    (int_adstat int_amcc int_daq : Z) : option comedi_device :=
  let int_adstat := u16 int_adstat in
  let r :=
    if nz (Z.land int_adstat (ai_maskerr (private dev)))
    then pci9118_decode_error_status dev int_adstat
    else (0, dev) in
  if nz (fst r) then Some (snd r)
  else
    let dev := snd r in
    let sampl := u16 (inl (CardReg PCI9118_AD_DATA) dev) in
    let dev := cfc_write_to_buffer dev sampl in
    let dev := upd_async (fun a => set_cur_chan (u32 (cur_chan a + 1)) a) dev in
    let scan_end := scan_end_arg (dev_cmd dev) in
    if cur_chan (dev_async dev) >=? scan_end then
      if scan_end =? 0 then None
      else
        let dev :=
          upd_async (fun a => set_cur_chan (cur_chan a mod scan_end) a) dev in
        let dev :=
          upd_priv (fun p => set_ai_act_scan (u32 (ai_act_scan p + 1)) p)
            dev in
        Some (cfc_handle_events (all_data_sampled dev))
    else Some (cfc_handle_events dev).

(** [interrupt_pci9118_ai_mode4_switch]. *)
Definition interrupt_pci9118_ai_mode4_switch (dev : comedi_device)
    : comedi_device :=
  let dev :=
    upd_priv
      (set_AdFunctionReg
         (Z.lor (Z.lor AdFunction_PDTrg AdFunction_PETrg) AdFunction_AM))
      dev in
  let dev := outl (AdFunctionReg (private dev)) (CardReg PCI9118_ADFUNC) dev in
  let dev := outl 0x30 (CardReg PCI9118_CNTCTRL) dev in
  let next :=
    arr2_get (dmabuf_hw (private dev)) (u32 (1 - dma_actbuf (private dev))) in
  let dev :=
    outl (Z.land (Z.shiftr next 1) 0xff) (CardReg PCI9118_CNT0) dev in
  let dev :=
    outl (Z.land (Z.shiftr next 9) 0xff) (CardReg PCI9118_CNT0) dev in
  let dev :=
    upd_priv (fun p =>
      set_AdFunctionReg (u8 (Z.lor (AdFunctionReg p) AdFunction_Start)) p)
      dev in
  outl (AdFunctionReg (private dev)) (CardReg PCI9118_ADFUNC) dev.

(** Both DMA abort branches of [interrupt_pci9118_ai_dma]. *)
Definition dma_abort (msg : string) (dev : comedi_device) : comedi_device :=
  let dev := dev_err msg dev in
  let dev :=
    upd_async (fun a =>
      set_events (Z.lor (events a) (Z.lor COMEDI_CB_ERROR COMEDI_CB_EOA)) a)
      dev in
  cfc_handle_events dev.

(** Re-arming of the bridge for DMA buffer [i]. *)
Definition dma_rearm (i : Z) (dev : comedi_device) : comedi_device :=
  let dev :=
    outl (arr2_get (dmabuf_hw (private dev)) i) (AmccReg AMCC_OP_REG_MWAR)
      dev in
  let dev :=
    outl (arr2_get (dmabuf_use_size (private dev)) i)
      (AmccReg AMCC_OP_REG_MWTC) dev in
  dev.

(** [interrupt_pci9118_ai_dma].  [dma_buffer] is the content of the
    buffer the card has just filled ([dmabuf_virt[dma_actbuf]]);
    [dmabuf_used_size], which the driver writes and never reads, is left
    out.  [None] when moving the block is undefined. *)
Definition interrupt_pci9118_ai_dma (dev : comedi_device)
    (dma_buffer : list Z) (int_adstat int_amcc int_daq : Z)
    : option comedi_device :=
  let int_adstat := u16 int_adstat in
  if nz (Z.land int_amcc MASTER_ABORT_INT) then
    Some (dma_abort "AMCC IRQ - MASTER DMA ABORT!" dev)
  else if nz (Z.land int_amcc TARGET_ABORT_INT) then
    Some (dma_abort "AMCC IRQ - TARGET DMA ABORT!" dev)
  else
    let r :=
      if nz (Z.land int_adstat (ai_maskerr (private dev)))
      then pci9118_decode_error_status dev int_adstat
      else (0, dev) in
    if nz (fst r) then Some (snd r)
    else
      let dev := snd r in
      let devpriv := private dev in
      let samplesinbuf :=
        Z.shiftr (arr2_get (dmabuf_use_size devpriv) (dma_actbuf devpriv)) 1 in
      let dev :=
        if nz (dma_doublebuf devpriv) then
          let next_dma_buf := u32 (1 - dma_actbuf devpriv) in
          let dev := dma_rearm next_dma_buf dev in
          if ai_do (private dev) =? 4
          then interrupt_pci9118_ai_mode4_switch dev else dev
        else dev in
      let moved :=
        if nz samplesinbuf then
          match move_block_from_dma dev dma_buffer samplesinbuf with
          | None => None
          | Some (_, _, dev) => Some dev
          end
        else Some dev in
      match moved with
      | None => None
      | Some dev =>
          let dev := all_data_sampled dev in
          let dev :=
            if nz (dma_doublebuf (private dev)) then
              upd_priv (fun p => set_dma_actbuf (u32 (1 - dma_actbuf p)) p)
                dev
            else
              let dev := dma_rearm 0 dev in
              if ai_do (private dev) =? 4
              then interrupt_pci9118_ai_mode4_switch dev else dev in
          Some (cfc_handle_events dev)
      end.

(** ** The interrupt service routine *)

Inductive irqreturn_t : Type := IRQ_NONE | IRQ_HANDLED.

(** The start/stop block of [pci9118_interrupt]: the external trigger
    starts the run, or tells it to stop at the next interrupt. *)
Definition interrupt_startstop (dev : comedi_device) (adstat intsrc : Z)
    : comedi_device :=
  let devpriv := private dev in
  if nz (ai12_startstop devpriv) then
    if nz (Z.land adstat AdStatus_DTH) && nz (Z.land intsrc Int_DTrg) then
      if nz (Z.land (ai12_startstop devpriv) START_AI_EXT) then
        let dev :=
          upd_priv (fun p =>
            set_ai12_startstop
              (u8 (clear_bits (ai12_startstop p) START_AI_EXT)) p) dev in
        let dev :=
          if negb (nz (Z.land (ai12_startstop (private dev)) STOP_AI_EXT))
          then snd (pci9118_exttrg_del dev EXTTRG_AI) else dev in
        let dev := pci9118_start_pacer dev (ai_do (private dev)) in
        outl (AdControlReg (private dev)) (CardReg PCI9118_ADCNTRL) dev
      else if nz (Z.land (ai12_startstop devpriv) STOP_AI_EXT) then
        let dev :=
          upd_priv (fun p =>
            set_ai12_startstop
              (u8 (clear_bits (ai12_startstop p) STOP_AI_EXT)) p) dev in
        let dev := snd (pci9118_exttrg_del dev EXTTRG_AI) in
        upd_priv (set_ai_neverending 0) dev
      else dev
    else dev
  else dev.

(** [pci9118_interrupt]; [attached] is [dev->attached], [dma_buffer] the
    content of the DMA buffer in use. *)
Definition pci9118_interrupt (attached : bool) (dma_buffer : list Z)
    (dev : comedi_device) : option (irqreturn_t * comedi_device) :=
  if negb attached then Some (IRQ_NONE, dev)
  else
    let intsrc := Z.land (u32 (inl (CardReg PCI9118_INTSRC) dev)) 0xf in
    let intcsr := u32 (inl (AmccReg AMCC_OP_REG_INTCSR) dev) in
    if negb (nz intsrc) && negb (nz (Z.land intcsr ANY_S593X_INT)) then
      Some (IRQ_NONE, dev)
    else
      let dev :=
        outl (Z.lor intcsr 0x00ff0000) (AmccReg AMCC_OP_REG_INTCSR) dev in
      let adstat := Z.land (u16 (inl (CardReg PCI9118_ADSTAT) dev)) 0x1ff in
      if negb (nz (ai_do (private dev))) then Some (IRQ_HANDLED, dev)
      else
        let dev := interrupt_startstop dev adstat intsrc in
        let served :=
          if nz (usedma (private dev))
          then interrupt_pci9118_ai_dma dev dma_buffer adstat intcsr intsrc
          else interrupt_pci9118_ai_onesample dev adstat intcsr intsrc in
        match served with
        | None => None
        | Some dev => Some (IRQ_HANDLED, dev)
        end.

(** ** Reference notions for single conversions *)

(** What a routine that only programs the card leaves alone: the values
    the ports read as, and the subdevice. *)
Definition ports_and_subdev (dev : comedi_device)
    : (ioport -> Z) * comedi_subdevice :=
  (io_in dev, read_subdev dev).

(** The word a single conversion stores, as read from the data port. *)
Definition read_sample (dev : comedi_device) : Z :=
  if maxdata (read_subdev dev) =? 0xffff then
    Z.lxor (Z.land (u32 (inl (CardReg PCI9118_AD_DATA) dev)) 0xffff) 0x8000
  else
    Z.land (Z.shiftr (u16 (inl (CardReg PCI9118_AD_DATA) dev)) 4) 0xfff.

(** The largest sample of a board with the given [maxdata]. *)
Definition sample_bound (s : comedi_subdevice) : Z :=
  if maxdata s =? 0xffff then 0xffff else 0xfff.

(** ** Reference notions for the start of a run *)

(** The words written to the card register at offset [reg], oldest
    first. *)
Definition card_words (reg : Z) (log : list (ioport * Z)) : list Z :=
  rev (map snd
         (List.filter
            (fun pv : ioport * Z =>
               match fst pv with
               | CardReg o => o =? reg
               | AmccReg _ => false
               end) log)).

(** ** Further stand-ins and sample sessions

    Stand-ins for the collaborators of the data path, for running it on
    the sample sessions: a byte swap of a 16-bit word, buffer writers
    that take everything and keep nothing, and a poll that asks once. *)
Definition be16_stand_in (x : Z) : Z :=
  Z.lor (Z.shiftl (Z.land x 0xff) 8) (Z.land (Z.shiftr x 8) 0xff).

Definition buffer_write_stand_in (dev : comedi_device) (x : Z)
    : comedi_device := dev.

Definition buffer_write_array_stand_in (dev : comedi_device) (l : list Z)
    (num_bytes : Z) : Z * comedi_device := (num_bytes, dev).

Definition timeout_stand_in (cb : comedi_device -> Z) (dev : comedi_device)
    : Z := cb dev.

(** The padded DMA session with scans of three samples. *)
Definition session_padded_scan3 : comedi_device :=
  with_cmd (set_scan_end_arg 3 (set_chanlist_len 3 comedi_cmd_zero))
    session_padded.

(** The interrupt session with a card whose status port reports every
    conversion as ready and whose data port holds the word [0x8010]. *)
Definition session_irq_ready : comedi_device :=
  set_io_in
    (fun p =>
       match p with
       | CardReg o =>
           if o =? PCI9118_ADSTAT then AdStatus_ADrdy
           else if o =? PCI9118_AD_DATA then 0x8010 else 0
       | AmccReg _ => 0
       end)
    (session_irq pci9118dg).

(** A DMA session with three requested channels and no padding. *)
Definition session_unpadded : comedi_device :=
  with_cmd (set_chanlist_len 3 comedi_cmd_zero) (session_dma pci9118dg).
(** * Properties

    A statement depends only on the collaborators it names. *)
Set Default Proof Using "Type".

(** Drops the collaborators the goal does not mention, so that a
    decision procedure cannot pick them up. *)
Ltac clear_unused :=
  try clear TARGET_ABORT_INT; try clear MASTER_ABORT_INT;
  try clear ANY_S593X_INT; try clear EBUSY; try clear comedi_timeout;
  try clear cfc_write_array_to_buffer; try clear cfc_write_to_buffer;
  try clear be16_to_cpu;
  try clear cfc_handle_events; try clear i8253_cascade_ns_to_timer;
  try clear AINT_WRITE_COMPL; try clear A2P_HI_PRIORITY;
  try clear RESET_A2P_FLAGS; try clear EN_A2P_TRANSFERS;
  try clear AMCC_OP_REG_MCSR; try clear AMCC_OP_REG_INTCSR;
  try clear AMCC_OP_REG_MWTC; try clear AMCC_OP_REG_MWAR.

(** Splits every device, subdevice and command in the context into its
    fields. *)
Ltac destruct_records :=
  repeat match goal with
         | d : comedi_device |- _ => destruct d
         | s : comedi_subdevice |- _ => destruct s
         | a : comedi_async |- _ => destruct a
         | c : comedi_cmd |- _ => destruct c
         | p : pci9118_private |- _ => destruct p
         end.

(** Reduction of field reads through field updates, with nothing else
    unfolded; meant for records already split into their fields. *)
Ltac record_simpl :=
  cbv beta iota zeta delta
    [master set_master usemux set_usemux AdControlReg set_AdControlReg
     IntControlReg set_IntControlReg AdFunctionReg set_AdFunctionReg
     ai_neverending set_ai_neverending ai_do set_ai_do ai_act_scan
     set_ai_act_scan ai_n_realscanlen set_ai_n_realscanlen ai_act_dmapos
     set_ai_act_dmapos ai_add_front set_ai_add_front ai_add_back
     set_ai_add_back ai_flags set_ai_flags ai12_startstop set_ai12_startstop
     ai_divisor1 set_ai_divisor1 ai_divisor2 set_ai_divisor2 ao_data
     set_ao_data dma_doublebuf set_dma_doublebuf dma_actbuf set_dma_actbuf
     dmabuf_hw set_dmabuf_hw dmabuf_size set_dmabuf_size dmabuf_use_size
     set_dmabuf_use_size exttrg_users set_exttrg_users usedma set_usedma
     softsshdelay set_softsshdelay softsshsample set_softsshsample
     softsshhold set_softsshhold ai_maskerr set_ai_maskerr ai_maskharderr
     set_ai_maskharderr start_src set_start_src start_arg set_start_arg
     scan_begin_src set_scan_begin_src scan_begin_arg set_scan_begin_arg
     convert_src set_convert_src convert_arg set_convert_arg scan_end_src
     set_scan_end_src scan_end_arg set_scan_end_arg stop_src set_stop_src
     stop_arg set_stop_arg chanlist set_chanlist chanlist_len
     set_chanlist_len flags set_flags prealloc_bufsz set_prealloc_bufsz
     cur_chan set_cur_chan events set_events inttrig set_inttrig cmd set_cmd
     len_chanlist set_len_chanlist maxdata set_maxdata async set_async
     board_ptr set_board_ptr private set_private read_subdev set_read_subdev
     io_in set_io_in io_log set_io_log klog set_klog upd_priv upd_async
     upd_cmd dev_async dev_cmd outl dev_err dev_info].
Ltac record_simpl_in H :=
  cbv beta iota zeta delta
    [master set_master usemux set_usemux AdControlReg set_AdControlReg
     IntControlReg set_IntControlReg AdFunctionReg set_AdFunctionReg
     ai_neverending set_ai_neverending ai_do set_ai_do ai_act_scan
     set_ai_act_scan ai_n_realscanlen set_ai_n_realscanlen ai_act_dmapos
     set_ai_act_dmapos ai_add_front set_ai_add_front ai_add_back
     set_ai_add_back ai_flags set_ai_flags ai12_startstop set_ai12_startstop
     ai_divisor1 set_ai_divisor1 ai_divisor2 set_ai_divisor2 ao_data
     set_ao_data dma_doublebuf set_dma_doublebuf dma_actbuf set_dma_actbuf
     dmabuf_hw set_dmabuf_hw dmabuf_size set_dmabuf_size dmabuf_use_size
     set_dmabuf_use_size exttrg_users set_exttrg_users usedma set_usedma
     softsshdelay set_softsshdelay softsshsample set_softsshsample
     softsshhold set_softsshhold ai_maskerr set_ai_maskerr ai_maskharderr
     set_ai_maskharderr start_src set_start_src start_arg set_start_arg
     scan_begin_src set_scan_begin_src scan_begin_arg set_scan_begin_arg
     convert_src set_convert_src convert_arg set_convert_arg scan_end_src
     set_scan_end_src scan_end_arg set_scan_end_arg stop_src set_stop_src
     stop_arg set_stop_arg chanlist set_chanlist chanlist_len
     set_chanlist_len flags set_flags prealloc_bufsz set_prealloc_bufsz
     cur_chan set_cur_chan events set_events inttrig set_inttrig cmd set_cmd
     len_chanlist set_len_chanlist maxdata set_maxdata async set_async
     board_ptr set_board_ptr private set_private read_subdev set_read_subdev
     io_in set_io_in io_log set_io_log klog set_klog upd_priv upd_async
     upd_cmd dev_async dev_cmd outl dev_err dev_info] in H.



(** Tests on literal trigger sources are decided on the spot. *)
Ltac is_num a :=
  let a' := eval hnf in a in
  lazymatch a' with
  | Z0 => idtac
  | Zpos _ => idtac
  | Zneg _ => idtac
  end.

Ltac decide_consts :=
  repeat match goal with
         | |- context [?a =? ?b] =>
             is_num a; is_num b;
             let v := eval vm_compute in (a =? b) in
             change (a =? b) with v
         | |- context [nz ?a] =>
             is_num a;
             let v := eval vm_compute in (nz a) in
             change (nz a) with v
         end;
  lazy beta iota delta [andb orb negb].

Ltac decide_consts_in H :=
  repeat match type of H with
         | context [?a =? ?b] =>
             is_num a; is_num b;
             let v := eval vm_compute in (a =? b) in
             change (a =? b) with v in H
         | context [nz ?a] =>
             is_num a;
             let v := eval vm_compute in (nz a) in
             change (nz a) with v in H
         end;
  lazy beta iota delta [andb orb negb] in H.

Ltac pair_step :=
  repeat match goal with
         | |- context [fst (?a, ?b)] => change (fst (a, b)) with a
         | |- context [snd (?a, ?b)] => change (snd (a, b)) with b
         end.

Ltac pair_step_in H :=
  repeat match type of H with
         | context [fst (?a, ?b)] => change (fst (a, b)) with a in H
         | context [snd (?a, ?b)] => change (snd (a, b)) with b in H
         end.

(** Runs a phase of the negotiation on a command given by its fields,
    leaving the argument checks and the error word as they are
    written. *)
Ltac run_phase_in H :=
  lazy -[Z.lor Z.land nz fst snd cfc_check_trigger_arg_min
         cfc_check_trigger_arg_max cfc_check_trigger_arg_is
         Z.modulo Z.div Z.mul Z.add Z.opp u32 Z.ltb Z.gtb ai_ns_min
         board_ptr EINVAL] in H;
  pair_step_in H; decide_consts_in H; pair_step_in H.

(** An error word that is zero has all its parts zero. *)
Ltac lor_zero H :=
  repeat match type of H with
         | Z.lor _ _ = 0 =>
             let H' := fresh H in
             apply Z.lor_eq_0_iff in H; destruct H as [H H']
         end.
(** * Properties *)

(** ** Padding removal *)

Section Defragment.

Variables start_pos stop_pos raw_scanlen : Z.

Lemma cursor_after_app pos (a b : nat) :
  cursor_after raw_scanlen pos (a + b)
  = cursor_after raw_scanlen (cursor_after raw_scanlen pos a) b.
Proof.
  revert pos. induction a as [|a IH]; intros pos; simpl; [reflexivity|].
  apply IH.
Qed.

Lemma kept_samples_app pos (a b : list Z) :
  kept_samples start_pos stop_pos raw_scanlen pos (a ++ b)
  = kept_samples start_pos stop_pos raw_scanlen pos a
    ++ kept_samples start_pos stop_pos raw_scanlen
         (cursor_after raw_scanlen pos (length a)) b.
Proof.
  revert pos. induction a as [|x a IH]; intros pos; simpl; [reflexivity|].
  rewrite IH. destruct ((pos >=? start_pos) && (pos <? stop_pos)); reflexivity.
Qed.

Lemma take_S_insert (buf : list Z) (j : nat) (x : Z) :
  (j < length buf)%nat -> take (S j) (<[j:=x]> buf) = take j buf ++ [x].
Proof.
  intros Hj. rewrite insert_take_drop by exact Hj.
  rewrite take_app_ge by (rewrite length_take; lia).
  rewrite length_take. replace (S j - j `min` length buf)%nat with 1%nat by lia.
  reflexivity.
Qed.

(** The in-place loop computes [kept_samples]: the kept samples are moved
    in front of index [j], the block keeps its length, the part not yet
    visited is untouched. *)
Lemma defragment_loop_spec (n : nat) :
  forall (i j : nat) (buf : list Z) (pos : Z),
    raw_scanlen <> 0 ->
    (i + n <= length buf)%nat ->
    (j <= i)%nat ->
    exists buf',
      let ks :=
        kept_samples start_pos stop_pos raw_scanlen pos
          (take n (drop i buf)) in
      defragment_loop n start_pos stop_pos raw_scanlen i j buf pos
      = Some ((j + length ks)%nat, buf', cursor_after raw_scanlen pos n)
      /\ take (j + length ks) buf' = take j buf ++ ks
      /\ length buf' = length buf
      /\ drop (i + n) buf' = drop (i + n) buf.
Proof.
  induction n as [|n IH]; intros i j buf pos HL Hlen Hji.
  - exists buf. simpl. rewrite !Nat.add_0_r, app_nil_r. auto.
  - assert (Hi : (i < length buf)%nat) by lia.
    destruct (lookup_lt_is_Some_2 buf i Hi) as [x Hx].
    assert (Hd : take (S n) (drop i buf) = x :: take n (drop (S i) buf)).
    { rewrite (drop_S _ _ _ Hx). reflexivity. }
    assert (HLb : (raw_scanlen =? 0) = false) by (apply Z.eqb_neq; exact HL).
    simpl defragment_loop. rewrite Hd. simpl kept_samples.
    fold (cursor_step raw_scanlen pos).
    destruct ((pos >=? start_pos) && (pos <? stop_pos)) eqn:Hw.
    + rewrite Hx, HLb.
      destruct (IH (S i) (S j) (<[j:=x]> buf) (cursor_step raw_scanlen pos) HL)
        as [buf' (He & Ht & Hl & Hdr)].
      { rewrite length_insert. lia. }
      { lia. }
      rewrite drop_insert_lt in He, Ht by lia.
      exists buf'. cbn zeta. simpl length.
      replace (j + S _)%nat with (S j + length
        (kept_samples start_pos stop_pos raw_scanlen
           (cursor_step raw_scanlen pos) (take n (drop (S i) buf))))%nat by lia.
      split; [exact He|]. split.
      * rewrite Ht, take_S_insert by lia.
        rewrite <- app_assoc. reflexivity.
      * rewrite Hl, length_insert. split; [reflexivity|].
        replace (i + S n)%nat with (S i + n)%nat by lia.
        rewrite Hdr. apply drop_insert_lt. lia.
    + rewrite HLb.
      destruct (IH (S i) j buf (cursor_step raw_scanlen pos) HL)
        as [buf' (He & Ht & Hl & Hdr)]; [lia|lia|].
      exists buf'. cbn zeta.
      replace (i + S n)%nat with (S i + n)%nat by lia. auto.
Qed.

End Defragment.
Section PaddedScan.

(** Geometry of one padded scan: [front] padding samples, [n] requested
    channels, [back] padding samples, with no 32-bit overflow. *)
Variables front n back : Z.
Hypothesis front_nonneg : 0 <= front.
Hypothesis n_nonneg : 0 <= n.
Hypothesis back_nonneg : 0 <= back.
Hypothesis scan_fits : front + n + back < 2 ^ 32.

Let L := front + n + back.

Lemma cursor_step_in_range pos :
  0 <= pos < L -> cursor_step L pos = (pos + 1) mod L /\ 0 <= cursor_step L pos < L.
Proof using front_nonneg n_nonneg back_nonneg scan_fits.
  intros Hp. unfold cursor_step, u32.
  rewrite (Z.mod_small (pos + 1)) by (subst L; lia).
  split; [reflexivity|]. apply Z.mod_pos_bound. lia.
Qed.

Lemma cursor_after_in_range (m : nat) pos :
  0 <= pos < L ->
  cursor_after L pos m = (pos + Z.of_nat m) mod L
  /\ 0 <= cursor_after L pos m < L.
Proof using front_nonneg n_nonneg back_nonneg scan_fits.
  revert pos. induction m as [|m IH]; intros pos Hp.
  - simpl. rewrite Z.add_0_r, Z.mod_small by lia. auto.
  - simpl cursor_after.
    destruct (cursor_step_in_range pos Hp) as [Hs Hr].
    destruct (IH _ Hr) as [He Hb]. split; [|exact Hb].
    rewrite He, Hs, Zplus_mod_idemp_l. f_equal. lia.
Qed.

(** Whatever the cursor held before, one processed sample brings it into
    the padded scan. *)
Lemma cursor_step_bound pos : 0 < L -> 0 <= cursor_step L pos < L.
Proof. intros HL. unfold cursor_step. apply Z.mod_pos_bound. exact HL. Qed.

Lemma cursor_after_bound (m : nat) pos :
  0 < L -> (0 < m)%nat -> 0 <= cursor_after L pos m < L.
Proof.
  intros HL. revert pos. induction m as [|m IH]; intros pos Hm; [lia|].
  simpl. destruct m as [|m].
  - simpl. apply cursor_step_bound. exact HL.
  - apply IH. lia.
Qed.

(** [kept_samples] picks exactly the samples at real positions. *)
Lemma kept_samples_filter (raw : list Z) :
  forall (pos0 : Z) (s : nat) (pos : Z),
    0 <= pos0 ->
    pos = (pos0 + Z.of_nat s) mod L ->
    0 < L ->
    kept_samples front (front + n) L pos raw
    = map snd
        (List.filter
           (fun ix : nat * Z =>
              real_position front n ((pos0 + Z.of_nat (fst ix)) mod L))
           (combine (seq s (length raw)) raw)).
Proof using front_nonneg n_nonneg back_nonneg scan_fits.
  induction raw as [|x raw IH]; intros pos0 s pos Hp0 Hpos HL;
    [reflexivity|].
  assert (Hr : 0 <= pos < L) by (subst pos; apply Z.mod_pos_bound; lia).
  simpl. rewrite <- Hpos.
  rewrite (IH pos0 (S s) (cursor_step L pos) Hp0); [|  |exact HL].
  - unfold real_position.
    replace (pos >=? front) with (front <=? pos) by (rewrite Z.geb_leb; reflexivity).
    destruct ((front <=? pos) && (pos <? front + n)); reflexivity.
  - destruct (cursor_step_in_range pos Hr) as [-> _].
    rewrite Hpos, Zplus_mod_idemp_l. f_equal. lia.
Qed.

Lemma kept_samples_real pos (raw : list Z) :
  0 <= pos < L ->
  kept_samples front (front + n) L pos raw = real_samples front n back pos raw.
Proof using front_nonneg n_nonneg back_nonneg scan_fits.
  intros Hp. unfold real_samples. fold L.
  apply (kept_samples_filter raw pos 0%nat pos); [lia| |lia].
  rewrite Z.add_0_r, Z.mod_small by lia. reflexivity.
Qed.

(** Number of real positions met by a run of raw samples that stays
    inside one padded scan. *)
Lemma kept_samples_run (raw : list Z) :
  forall pos,
    0 <= pos ->
    pos + Z.of_nat (length raw) <= L ->
    Z.of_nat (length (kept_samples front (front + n) L pos raw))
    = Z.max 0 (Z.min (pos + Z.of_nat (length raw)) (front + n)
               - Z.max pos front).
Proof using front_nonneg n_nonneg back_nonneg scan_fits.
  induction raw as [|x raw IH]; intros pos Hp Hlen.
  - simpl. lia.
  - simpl length in *. simpl kept_samples.
    destruct raw as [|y raw'].
    + simpl. destruct (pos >=? front) eqn:E1, (pos <? front + n) eqn:E2;
        simpl; lia.
    + assert (Hr : 0 <= pos < L) by (simpl length in Hlen; lia).
      destruct (cursor_step_in_range pos Hr) as [Hs _].
      rewrite Z.mod_small in Hs by (simpl length in Hlen; lia).
      rewrite Hs.
      specialize (IH (pos + 1) ltac:(lia) ltac:(simpl length in *; lia)).
      destruct (pos >=? front) eqn:E1, (pos <? front + n) eqn:E2;
        simpl andb; cbv iota; simpl length in *; lia.
Qed.

(** A whole padded scan contributes [n] samples and returns the cursor
    to where it was, wherever in the scan the block starts. *)
Lemma kept_samples_cycle pos (raw : list Z) :
  0 <= pos < L ->
  Z.of_nat (length raw) = L ->
  Z.of_nat (length (kept_samples front (front + n) L pos raw)) = n.
Proof using front_nonneg n_nonneg back_nonneg scan_fits.
  intros Hp Hlen.
  rewrite <- (take_drop (Z.to_nat (L - pos)) raw).
  rewrite kept_samples_app, length_app, Nat2Z.inj_add.
  assert (Ht : Z.of_nat (length (take (Z.to_nat (L - pos)) raw)) = L - pos)
    by (rewrite length_take; lia).
  assert (Hd : Z.of_nat (length (drop (Z.to_nat (L - pos)) raw)) = pos)
    by (rewrite length_drop; lia).
  destruct (cursor_after_in_range (length (take (Z.to_nat (L - pos)) raw))
              pos Hp) as [Hc _].
  rewrite Ht in Hc. replace (pos + (L - pos)) with (0 + 1 * L) in Hc by lia.
  rewrite Z.mod_add, Z.mod_0_l in Hc by lia.
  rewrite Hc.
  rewrite !kept_samples_run by lia.
  rewrite Ht, Hd. subst L. lia.
Qed.

Lemma kept_samples_scans (k : nat) :
  forall pos (raw : list Z),
    0 <= pos < L ->
    Z.of_nat (length raw) = Z.of_nat k * L ->
    Z.of_nat (length (kept_samples front (front + n) L pos raw))
    = Z.of_nat k * n.
Proof using front_nonneg n_nonneg back_nonneg scan_fits.
  induction k as [|k IH]; intros pos raw Hp Hlen.
  - destruct raw; [simpl; lia|simpl length in Hlen; lia].
  - rewrite <- (take_drop (Z.to_nat L) raw).
    rewrite kept_samples_app, length_app, Nat2Z.inj_add.
    assert (Ht : Z.of_nat (length (take (Z.to_nat L) raw)) = L)
      by (rewrite length_take; nia).
    assert (Hd : Z.of_nat (length (drop (Z.to_nat L) raw)) = Z.of_nat k * L)
      by (rewrite length_drop; nia).
    destruct (cursor_after_in_range (length (take (Z.to_nat L) raw)) pos Hp)
      as [Hc _].
    rewrite Ht in Hc. replace (pos + L) with (pos + 1 * L) in Hc by lia.
    rewrite Z.mod_add, Z.mod_small in Hc by lia.
    rewrite Hc, (kept_samples_cycle pos) by assumption.
    rewrite (IH pos) by assumption. lia.
Qed.

Lemma kept_samples_outside (raw : list Z) pos :
  0 <= pos ->
  pos + Z.of_nat (length raw) <= L ->
  pos + Z.of_nat (length raw) <= front \/ front + n <= pos ->
  kept_samples front (front + n) L pos raw = [].
Proof using front_nonneg n_nonneg back_nonneg scan_fits.
  intros Hp Hlen Hout. apply length_zero_iff_nil.
  pose proof (kept_samples_run raw pos Hp Hlen). lia.
Qed.

Lemma kept_samples_inside (raw : list Z) :
  forall pos,
    front <= pos ->
    pos + Z.of_nat (length raw) <= front + n ->
    kept_samples front (front + n) L pos raw = raw.
Proof using front_nonneg n_nonneg back_nonneg scan_fits.
  induction raw as [|x raw IH]; intros pos Hp Hlen; [reflexivity|].
  simpl length in Hlen. simpl kept_samples.
  replace ((pos >=? front) && (pos <? front + n)) with true
    by (symmetry; apply andb_true_iff; split;
        [apply Z.geb_le|apply Z.ltb_lt]; lia).
  f_equal. destruct raw as [|y raw']; [reflexivity|].
  simpl length in Hlen.
  assert (Hr : 0 <= pos < L) by (subst L; lia).
  destruct (cursor_step_in_range pos Hr) as [-> _].
  rewrite Z.mod_small by (subst L; lia).
  apply IH; simpl length; lia.
Qed.

(** From the start of a scan, the kept samples of a stream of padded
    scans are the scans' data, and the cursor is back at the start. *)
Lemma kept_samples_padded_stream (scans : list padded_scan) :
  0 < n ->
  Forall (well_padded front n back) scans ->
  kept_samples front (front + n) L 0 (padded_stream scans)
  = concat (map scan_data scans)
  /\ cursor_after L 0 (length (padded_stream scans)) = 0.
Proof using front_nonneg n_nonneg back_nonneg scan_fits.
  intros Hn Hall. induction Hall as [|p scans Hp _ IH]; [split; reflexivity|].
  destruct Hp as (Hf & Hd & Hb). destruct IH as [IHk IHc].
  unfold padded_stream in *. simpl concat. simpl map.
  assert (H0 : 0 <= 0 < L) by (subst L; lia).
  assert (Hc1 : cursor_after L 0 (length (pad_front p)) = front).
  { destruct (cursor_after_in_range (length (pad_front p)) 0 H0) as [-> _].
    rewrite Hf, Z.add_0_l. apply Z.mod_small. subst L; lia. }
  assert (Hfr : 0 <= front < L) by (subst L; lia).
  assert (Hc2 : cursor_after L front (length (scan_data p))
                = (front + n) mod L).
  { destruct (cursor_after_in_range (length (scan_data p)) front Hfr)
      as [-> _]. rewrite Hd. reflexivity. }
  assert (Hc3 : cursor_after L ((front + n) mod L) (length (pad_back p)) = 0).
  { assert (Hm : 0 <= (front + n) mod L < L) by (apply Z.mod_pos_bound; lia).
    destruct (cursor_after_in_range (length (pad_back p)) _ Hm) as [-> _].
    rewrite Hb, Zplus_mod_idemp_l. fold L. apply Z_mod_same_full. }
  split.
  - rewrite <- !app_assoc, !kept_samples_app.
    rewrite Hc1, Hc2, Hc3, IHk.
    rewrite (kept_samples_outside (pad_front p) 0) by (subst L; lia).
    rewrite (kept_samples_inside (scan_data p) front) by lia.
    destruct (Z.eq_dec back 0) as [Hz|Hnz].
    + destruct (pad_back p); [reflexivity|simpl length in Hb; lia].
    + rewrite Z.mod_small by (subst L; lia).
      rewrite (kept_samples_outside (pad_back p)) by (subst L; lia).
      reflexivity.
  - rewrite !length_app, !cursor_after_app.
    rewrite Hc1, Hc2, Hc3. exact IHc.
Qed.

End PaddedScan.
(** [defragment_dma_buffer] on a whole block: it succeeds, keeps
    [kept_samples] at the front of the block and leaves the cursor
    [length raw] steps further. *)
Lemma defragment_dma_buffer_spec (dev : comedi_device) (raw : list Z) :
  let front := ai_add_front (private dev) in
  let n := chanlist_len (dev_cmd dev) in
  let back := ai_add_back (private dev) in
  0 <= front -> 0 <= n -> 0 <= back ->
  0 < front + n + back < 2 ^ 32 ->
  exists buf,
    let ks :=
      kept_samples front (front + n) (front + n + back)
        (ai_act_dmapos (private dev)) raw in
    defragment_dma_buffer dev raw (Z.of_nat (length raw))
    = Some (Z.of_nat (length ks), buf,
            upd_priv
              (set_ai_act_dmapos
                 (cursor_after (front + n + back)
                    (ai_act_dmapos (private dev)) (length raw))) dev)
    /\ take (length ks) buf = ks
    /\ length buf = length raw.
Proof.
  intros front n back Hf Hn Hb HL.
  unfold defragment_dma_buffer. fold front n back.
  unfold u32. rewrite !Z.mod_small by lia. rewrite Nat2Z.id.
  destruct (defragment_loop_spec front (front + n) (front + n + back)
              (length raw) 0 0 raw (ai_act_dmapos (private dev)))
    as [buf (He & Ht & Hl & _)]; [lia|simpl; lia|lia|].
  rewrite drop_0, firstn_all in He, Ht. simpl in He, Ht.
  exists buf. cbn zeta. rewrite He. auto.
Qed.

(** C1. With the cursor anywhere in the padded scan, a raw block of [k]
    padded scans (front + n + back samples each) is compacted to exactly
    [k * n] samples: the samples at real positions, in their original
    order.  Compaction does not depend on where the block is cut: two
    consecutive calls over the two parts of the block, the cursor carried
    from the first to the second, produce the same samples and leave the
    same device state as one call over the whole block. *)
Theorem defragment_dma_buffer_position_independent
    (dev : comedi_device) (raw : list Z) (k : nat) :
  let front := ai_add_front (private dev) in
  let n := chanlist_len (dev_cmd dev) in
  let back := ai_add_back (private dev) in
  let pos := ai_act_dmapos (private dev) in
  0 <= front -> 0 <= n -> 0 <= back ->
  front + n + back < 2 ^ 32 ->
  0 <= pos < front + n + back ->
  Z.of_nat (length raw) = Z.of_nat k * (front + n + back) ->
  Z.of_nat (length raw) < 2 ^ 32 ->
  exists j buf dev',
    defragment_dma_buffer dev raw (Z.of_nat (length raw))
    = Some (j, buf, dev')
    /\ j = Z.of_nat k * n
    /\ take (Z.to_nat j) buf = real_samples front n back pos raw
    /\ ai_act_dmapos (private dev') = pos
    /\ forall raw1 raw2 : list Z,
         raw = raw1 ++ raw2 ->
         exists j1 buf1 dev1 j2 buf2 dev2,
           defragment_dma_buffer dev raw1 (Z.of_nat (length raw1))
           = Some (j1, buf1, dev1)
           /\ defragment_dma_buffer dev1 raw2 (Z.of_nat (length raw2))
              = Some (j2, buf2, dev2)
           /\ take (Z.to_nat j1) buf1 ++ take (Z.to_nat j2) buf2
              = take (Z.to_nat j) buf
           /\ dev2 = dev'.
Proof.
  intros front n back pos Hf Hn Hb Hfit Hpos Hlen Hu.
  assert (HL : 0 < front + n + back < 2 ^ 32) by lia.
  destruct (defragment_dma_buffer_spec dev raw Hf Hn Hb HL)
    as [buf (He & Ht & Hl)].
  fold front n back pos in He, Ht.
  set (ks := kept_samples front (front + n) (front + n + back) pos raw) in *.
  eexists _, buf, _. split; [exact He|].
  assert (Hcnt : Z.of_nat (length ks) = Z.of_nat k * n)
    by (apply kept_samples_scans; assumption).
  split; [exact Hcnt|].
  rewrite Nat2Z.id. split.
  { rewrite Ht. apply kept_samples_real; assumption. }
  split.
  { simpl.
    destruct (cursor_after_in_range front n back Hf Hn Hb Hfit
                (length raw) pos Hpos) as [-> _].
    rewrite Hlen, Z.mod_add, Z.mod_small by lia. reflexivity. }
  intros raw1 raw2 Hsplit.
  destruct (defragment_dma_buffer_spec dev raw1 Hf Hn Hb HL)
    as [buf1 (He1 & Ht1 & Hl1)].
  fold front n back pos in He1, Ht1.
  set (dev1 := upd_priv
                 (set_ai_act_dmapos
                    (cursor_after (front + n + back) pos (length raw1)))
                 dev) in *.
  destruct (defragment_dma_buffer_spec dev1 raw2 Hf Hn Hb HL)
    as [buf2 (He2 & Ht2 & Hl2)].
  change (ai_add_front (private dev1)) with front in He2, Ht2.
  change (chanlist_len (dev_cmd dev1)) with n in He2, Ht2.
  change (ai_add_back (private dev1)) with back in He2, Ht2.
  change (ai_act_dmapos (private dev1))
    with (cursor_after (front + n + back) pos (length raw1)) in He2, Ht2.
  eexists _, buf1, dev1, _, buf2, _.
  split; [exact He1|]. split; [exact He2|].
  rewrite !Nat2Z.id. split.
  - rewrite Ht1, Ht2, Ht. subst ks raw. symmetry. apply kept_samples_app.
  - subst raw. rewrite length_app, cursor_after_app. reflexivity.
Qed.

(** ** Channel-list validation *)

Section CheckChannelList.

Variable dev : comedi_device.

Lemma check_channel_list_loop_ok (d b : bool) (l : list Z) (idx : list nat) :
  check_channel_list_loop dev d b l idx = ChanlistOk
  <-> Forall (fun i => entry_accepted dev d b (nth i l 0)) idx.
Proof.
  clear_unused.
  induction idx as [|i idx IH]; cbn [check_channel_list_loop].
  - split; [constructor|reflexivity].
  - fold (is_diff (nth i l 0)). fold (is_bipolar (nth i l 0)).
    rewrite Forall_cons. unfold entry_accepted at 1. unfold nz.
    destruct (Bool.eqb (is_diff (nth i l 0)) d) eqn:E1; cbn [negb].
    2:{ apply eqb_false_iff in E1. split; [discriminate|tauto]. }
    apply eqb_prop in E1.
    destruct (Bool.eqb (is_bipolar (nth i l 0)) b) eqn:E2; cbn [negb].
    2:{ apply eqb_false_iff in E2. split; [discriminate|tauto]. }
    apply eqb_prop in E2.
    destruct (usemux (private dev) =? 0) eqn:E3; cbn [negb andb].
    + apply Z.eqb_eq in E3. destruct d; cbn [negb andb].
      * destruct (CR_CHAN (nth i l 0) >=? u32 (n_aichand (board_ptr dev)))
          eqn:E4.
        -- rewrite Z.geb_le in E4. split; [discriminate|]. intros [H _].
           exfalso. apply H. repeat split; [assumption|lia].
        -- assert (~ CR_CHAN (nth i l 0) >= u32 (n_aichand (board_ptr dev))).
           { intros H. apply Z.ge_le in H. apply Z.geb_le in H. congruence. }
           rewrite IH. tauto.
      * rewrite IH. intuition congruence.
    + apply Z.eqb_neq in E3. rewrite IH. tauto.
Qed.

Lemma check_channel_list_verdict_ok (n_chan : Z) (l : list Z)
    (frontadd backadd : Z) :
  check_channel_list_verdict dev n_chan l frontadd backadd = ChanlistOk
  <-> 1 <= n_chan
      /\ frontadd + n_chan + backadd <= len_chanlist (read_subdev dev)
      /\ forall i : nat,
           (1 <= i)%nat -> Z.of_nat i < n_chan ->
           entry_accepted dev (is_diff (nth 0 l 0)) (is_bipolar (nth 0 l 0))
             (nth i l 0).
Proof.
  unfold check_channel_list_verdict.
  destruct (n_chan <? 1) eqn:E1.
  { apply Z.ltb_lt in E1. split; [discriminate|lia]. }
  apply Z.ltb_ge in E1.
  destruct (frontadd + n_chan + backadd >? len_chanlist (read_subdev dev))
    eqn:E2.
  { apply Z.gtb_lt in E2. split; [discriminate|lia]. }
  assert (E2' : frontadd + n_chan + backadd <= len_chanlist (read_subdev dev)).
  { destruct (Z.gtb_spec (frontadd + n_chan + backadd)
                (len_chanlist (read_subdev dev))); [discriminate|lia]. }
  fold (is_diff (nth 0 l 0)). fold (is_bipolar (nth 0 l 0)).
  destruct (n_chan >? 1) eqn:E3.
  - rewrite check_channel_list_loop_ok, List.Forall_forall.
    split.
    + intros H. repeat split; [lia|lia|..]; apply H, in_seq; lia.
    + intros (_ & _ & H) i Hi. apply in_seq in Hi. apply H; lia.
  - assert (n_chan <= 1)
      by (destruct (Z.gtb_spec n_chan 1); [discriminate|lia]).
    split; [|reflexivity]. intros _. repeat split; [lia|lia|..]; lia.
Qed.

End CheckChannelList.
Section CheckChannelListLists.

Variable dev : comedi_device.

(** On a list whose length is the [n_chan] handed over, the loop demands
    [entry_accepted] of every entry of the tail. *)
Lemma check_channel_list_verdict_tail (e0 : Z) (rest : list Z)
    (frontadd backadd : Z) :
  check_channel_list_verdict dev (Z.of_nat (length (e0 :: rest)))
    (e0 :: rest) frontadd backadd = ChanlistOk
  <-> ~ too_long dev (e0 :: rest) frontadd backadd
      /\ Forall (entry_accepted dev (is_diff e0) (is_bipolar e0)) rest.
Proof.
  rewrite check_channel_list_verdict_ok. unfold too_long.
  change (nth 0 (e0 :: rest) 0) with e0.
  rewrite (List.Forall_nth _ rest). simpl length.
  split.
  - intros (_ & Hfit & Hall). split; [lia|].
    intros i d Hi. rewrite (nth_indep rest d 0 Hi).
    apply (Hall (S i)); lia.
  - intros (Hfit & Hall). split; [lia|]. split; [lia|].
    intros i Hi Hlt. destruct i as [|i]; [lia|].
    apply (Hall i 0%Z). lia.
Qed.

Lemma entry_accepted_or_not (d b : bool) (rest : list Z) :
  Forall (entry_accepted dev d b) rest
  \/ exists e, In e rest
       /\ (is_diff e <> d \/ is_bipolar e <> b
           \/ (usemux (private dev) = 0 /\ diff_beyond_board dev e)).
Proof.
  clear_unused.
  induction rest as [|e rest [IH|(x & Hx & Hbad)]].
  - left. constructor.
  - destruct (bool_dec (is_diff e) d) as [Hd|Hd];
      [|right; exists e; split; [left; reflexivity|tauto]].
    destruct (bool_dec (is_bipolar e) b) as [Hb|Hb];
      [|right; exists e; split; [left; reflexivity|tauto]].
    destruct (Z.eq_dec (usemux (private dev)) 0) as [Hm|Hm];
      [|left; constructor; [unfold entry_accepted; tauto|exact IH]].
    destruct (bool_dec d true) as [Ht|Ht];
      [|left; constructor; [unfold entry_accepted; tauto|exact IH]].
    destruct (Z_ge_dec (CR_CHAN e) (u32 (n_aichand (board_ptr dev))))
      as [Hc|Hc].
    + right. exists e. split; [left; reflexivity|].
      right. right. split; [exact Hm|]. split; [congruence|exact Hc].
    + left. constructor; [unfold entry_accepted; tauto|exact IH].
  - right. exists x. split; [right; exact Hx|exact Hbad].
Qed.

(** What [check_channel_list] rejects, in terms of the list: the entries
    after the first are compared with the first, and only they are
    tested against the board's differential inputs. *)
Lemma check_channel_list_rejects_iff (l : list Z) (frontadd backadd : Z) :
  check_channel_list dev (Z.of_nat (length l)) l frontadd backadd = 0
  <-> l = [] \/ too_long dev l frontadd backadd
      \/ mixes_reference l \/ mixes_polarity l
      \/ diff_out_of_range_after_first dev l.
Proof.
  clear_unused.
  unfold check_channel_list.
  destruct l as [|e0 rest].
  { cbn. tauto. }
  pose proof (check_channel_list_verdict_tail e0 rest frontadd backadd) as Hok.
  destruct (check_channel_list_verdict dev (Z.of_nat (length (e0 :: rest)))
              (e0 :: rest) frontadd backadd) as [|msg] eqn:Hv.
  - split; [discriminate|]. intros Hrej. exfalso.
    destruct Hok as [Hok _]. destruct (Hok eq_refl) as [Hfit Hall].
    rewrite List.Forall_forall in Hall.
    assert (Hsame : forall x, In x (e0 :: rest) ->
              is_diff x = is_diff e0 /\ is_bipolar x = is_bipolar e0).
    { intros x [<-|Hx]; [tauto|]. destruct (Hall x Hx) as (? & ? & _). tauto. }
    destruct Hrej as [H|[H|[H|[H|H]]]].
    + discriminate.
    + exact (Hfit H).
    + destruct H as (a & b & Ha & Hb & Hne).
      apply Hne. destruct (Hsame a Ha), (Hsame b Hb). congruence.
    + destruct H as (a & b & Ha & Hb & Hne).
      apply Hne. destruct (Hsame a Ha), (Hsame b Hb). congruence.
    + destruct H as (Hm & e & He & Hd & Hc). simpl in He.
      destruct (Hall e He) as (Hde & _ & Hn). apply Hn.
      split; [exact Hm|]. split; [congruence|exact Hc].
  - split; [|reflexivity]. intros _. right.
    destruct (Z_gt_dec (frontadd + Z.of_nat (length (e0 :: rest)) + backadd)
                (len_chanlist (read_subdev dev))) as [Hl|Hfit];
      [left; exact Hl|].
    right.
    destruct (entry_accepted_or_not (is_diff e0) (is_bipolar e0) rest)
      as [Hall|(e & He & Hbad)].
    { destruct Hok as [_ Hok]. discriminate (Hok (conj Hfit Hall)). }
    destruct Hbad as [Hd|[Hb|(Hm & Hbeyond)]].
    + left. exists e, e0. simpl. tauto.
    + right. left. exists e, e0. simpl. tauto.
    + right. right. split; [exact Hm|]. exists e. simpl. tauto.
Qed.

End CheckChannelListLists.
(** C9. The differential-input bound is tested on the entries after the
    first only.  A list whose first entry is differential on a channel
    the board has no differential input for is accepted when, without an
    external multiplexer, the padded list fits the scan queue and the
    later entries are differential, of the first entry's polarity and
    within the board's differential inputs.  A single-entry list is
    accepted whenever it fits, whatever its reference and channel. *)
Theorem check_channel_list_first_entry_unchecked
    (dev : comedi_device) (frontadd backadd : Z) :
  (forall (e0 : Z) (rest : list Z),
     usemux (private dev) = 0 ->
     diff_beyond_board dev e0 ->
     ~ too_long dev (e0 :: rest) frontadd backadd ->
     Forall (fun e => is_diff e = true /\ is_bipolar e = is_bipolar e0
                      /\ CR_CHAN e < u32 (n_aichand (board_ptr dev))) rest ->
     check_channel_list dev (Z.of_nat (length (e0 :: rest))) (e0 :: rest)
       frontadd backadd = 1)
  /\ (forall e0 : Z,
        ~ too_long dev [e0] frontadd backadd ->
        check_channel_list dev 1 [e0] frontadd backadd = 1).
Proof.
  split.
  - intros e0 rest Hmux [Hd0 Hc0] Hfit Hrest.
    unfold check_channel_list.
    replace (check_channel_list_verdict dev (Z.of_nat (length (e0 :: rest)))
               (e0 :: rest) frontadd backadd) with ChanlistOk; [reflexivity|].
    symmetry. apply check_channel_list_verdict_tail. split; [exact Hfit|].
    eapply Forall_impl; [exact Hrest|].
    intros e (Hd & Hb & Hc). unfold entry_accepted.
    split; [congruence|]. split; [exact Hb|]. intros (_ & _ & Hge). lia.
  - intros e0 Hfit. unfold check_channel_list.
    replace (check_channel_list_verdict dev 1 [e0] frontadd backadd)
      with ChanlistOk; [reflexivity|].
    symmetry. apply (check_channel_list_verdict_tail dev e0 []).
    split; [exact Hfit|constructor].
Qed.

(** C2, at the input where the driver departs from it: without an
    external multiplexer, a list that consists of a differential entry
    on channel 9 of a board with 8 differential inputs is accepted. *)
Theorem check_channel_list_accepts_diff_beyond_board :
  check_channel_list (session_dma pci9118dg) 1 [CR_PACK 9 0 AREF_DIFF] 0 0 = 1
  /\ diff_out_of_range (session_dma pci9118dg) [CR_PACK 9 0 AREF_DIFF].
Proof.
  split; [reflexivity|]. split; [reflexivity|].
  exists (CR_PACK 9 0 AREF_DIFF). split; [left; reflexivity|].
  split; [reflexivity|]. vm_compute. discriminate.
Qed.

(** ** Pacer divisors *)

Section CalcDivisors.

Variable dev : comedi_device.
Let b := board_ptr dev.

(** A board whose timing constants are usable: a pacer minimum of at
    least one tick that fits 32 bits when turned into a period. *)
Hypothesis ns_min_range : 0 <= ai_ns_min b < 2 ^ 32.
Hypothesis pacer_min_pos : 0 < ai_pacer_min b.
Hypothesis pacer_min_fits : ai_pacer_min b * I8254_OSC_BASE_4MHZ < 2 ^ 32.

Lemma dual_timer_divisor1_bounds tim2 :
  0 <= tim2 < 2 ^ 32 ->
  0 < dual_timer_divisor1 b tim2
  /\ ai_pacer_min b <= dual_timer_divisor1 b tim2
  /\ dual_timer_divisor1 b tim2 * I8254_OSC_BASE_4MHZ < 2 ^ 32.
Proof using ns_min_range pacer_min_pos pacer_min_fits.
  intros Ht. unfold dual_timer_divisor1, I8254_OSC_BASE_4MHZ in *.
  assert (Hq : Z.max tim2 (ai_ns_min b) / 250 * 250 <= Z.max tim2 (ai_ns_min b)).
  { pose proof (Z.mul_div_le (Z.max tim2 (ai_ns_min b)) 250). lia. }
  lia.
Qed.

(** C4. In mode 2, for every request a 32-bit command can carry, the
    driver's sequence of assignments computes the dual-timer rule: the
    first divisor is the convert period clamped to the board's fastest
    sample period, over the clock base, clamped to the pacer minimum; the
    second divisor is the scan period over clock base and first divisor,
    raised to the channel count (to the channel count plus two when
    conversions are back to back and there is no front padding); the
    convert period is realized as first divisor times clock base.  The
    scan period handed back is the product of both divisors and the clock
    base, in 32 bits. *)
Theorem calc_divisors_mode2 tim1 tim2 flags chans div1 div2 chnsshfront :
  0 <= tim1 < 2 ^ 32 ->
  0 <= tim2 < 2 ^ 32 ->
  0 <= chans -> chans + 2 < 2 ^ 31 ->
  let d1 := dual_timer_divisor1 b tim2 in
  let d2 :=
    dual_timer_divisor2 b (convert_src (dev_cmd dev) =? TRIG_NOW)
      tim1 tim2 chans chnsshfront in
  pci9118_calc_divisors 2 dev tim1 tim2 flags chans div1 div2 chnsshfront
  = (u32 (d1 * d2 * I8254_OSC_BASE_4MHZ), dual_timer_convert_period b tim2,
     d1, d2).
Proof using ns_min_range pacer_min_pos pacer_min_fits.
  intros H1 H2 Hc Hc2 d1 d2.
  destruct (dual_timer_divisor1_bounds tim2 H2) as (Hd1 & _ & Hfit).
  unfold pci9118_calc_divisors. fold b. change (u8 2) with 2. cbv zeta.
  change ((2 =? 1) || (2 =? 4)) with false. change (2 =? 2) with true.
  cbv iota.
  assert (E1 : (if tim2 <? ai_ns_min b then ai_ns_min b else tim2)
               = Z.max tim2 (ai_ns_min b)).
  { destruct (Z.ltb_spec tim2 (ai_ns_min b)); lia. }
  rewrite E1.
  assert (E2 : (if Z.max tim2 (ai_ns_min b) / I8254_OSC_BASE_4MHZ
                     <? ai_pacer_min b
                then ai_pacer_min b
                else Z.max tim2 (ai_ns_min b) / I8254_OSC_BASE_4MHZ) = d1).
  { subst d1. unfold dual_timer_divisor1.
    destruct (Z.ltb_spec (Z.max tim2 (ai_ns_min b) / I8254_OSC_BASE_4MHZ)
                (ai_pacer_min b)); lia. }
  rewrite E2.
  assert (U1 : u32 chans = chans) by (apply Z.mod_small; lia).
  assert (U2 : u32 (chans + 2) = chans + 2) by (apply Z.mod_small; lia).
  assert (U3 : u32 (d1 * I8254_OSC_BASE_4MHZ) = dual_timer_convert_period b tim2).
  { unfold dual_timer_convert_period. fold d1. apply Z.mod_small.
    subst d1. unfold I8254_OSC_BASE_4MHZ in *. lia. }
  rewrite U1, U2, U3.
  assert (E3 : (let q := tim1 / I8254_OSC_BASE_4MHZ / d1 in
                let c := if q <? chans then chans else q in
                if (convert_src (dev_cmd dev) =? TRIG_NOW)
                   && negb (nz chnsshfront)
                then if c <? chans + 2 then chans + 2 else c
                else c) = d2).
  { subst d2. unfold dual_timer_divisor2, dual_timer_divisor2_floor. fold d1.
    unfold nz. rewrite negb_involutive. cbv zeta.
    destruct ((convert_src (dev_cmd dev) =? TRIG_NOW) && (chnsshfront =? 0));
      destruct (Z.ltb_spec (tim1 / I8254_OSC_BASE_4MHZ / d1) chans);
      try destruct (Z.ltb_spec chans (chans + 2));
      try destruct (Z.ltb_spec (tim1 / I8254_OSC_BASE_4MHZ / d1) (chans + 2));
      lia. }
  cbv zeta in E3. rewrite E3. reflexivity.
Qed.

Lemma scan_quotient_le tim1 d1 :
  0 <= tim1 -> 0 < d1 ->
  0 <= tim1 / I8254_OSC_BASE_4MHZ / d1
  /\ d1 * (tim1 / I8254_OSC_BASE_4MHZ / d1) * I8254_OSC_BASE_4MHZ <= tim1.
Proof.
  intros Ht Hd. unfold I8254_OSC_BASE_4MHZ.
  pose proof (Z.mul_div_le tim1 250 ltac:(lia)).
  pose proof (Z.mul_div_le (tim1 / 250) d1 Hd).
  assert (0 <= tim1 / 250) by (apply Z.div_pos; lia).
  assert (0 <= tim1 / 250 / d1) by (apply Z.div_pos; lia).
  split; [assumption|nia].
Qed.

(** C5, as the code has it.  In mode 2, on a board whose pacer minimum
    is no shorter than its fastest sample period: the realized convert
    period never decreases when the requested convert period grows, and
    is at least the board's fastest sample period; the realized scan
    period never decreases when the requested scan period grows, and is
    at least the board's fastest sample period as long as the product of
    the divisors and the clock base fits 32 bits.  In modes 1 and 4 the
    scan period is handed back as it was asked for, and the realized
    convert period is what the cascaded pacer search, called with
    rounding mode 0, makes of the request raised to the board's fastest
    sample period; so it never decreases when the request grows if the
    search never does, and it is at least the board's fastest sample
    period if the search answers at least that when asked for at least
    that.  In every other mode (the mode is a [char]: its low eight bits
    decide) nothing is changed. *)
Theorem calc_divisors_realized_periods
    tim1 tim1' tim2 tim2' flags chans div1 div2 chnsshfront :
  0 <= tim1 < 2 ^ 32 -> 0 <= tim1' < 2 ^ 32 ->
  0 <= tim2 < 2 ^ 32 -> 0 <= tim2' < 2 ^ 32 ->
  1 <= chans -> chans + 2 < 2 ^ 31 ->
  ai_ns_min b <= ai_pacer_min b * I8254_OSC_BASE_4MHZ ->
  let calc m t1 t2 :=
    pci9118_calc_divisors m dev t1 t2 flags chans div1 div2 chnsshfront in
  let search t :=
    snd (i8253_cascade_ns_to_timer I8254_OSC_BASE_4MHZ div1 div2 t 0) in
  (tim2 <= tim2' ->
   realized_convert_period (calc 2 tim1 tim2)
   <= realized_convert_period (calc 2 tim1' tim2'))
  /\ ai_ns_min b <= realized_convert_period (calc 2 tim1 tim2)
  /\ (tim1 <= tim1' ->
      realized_scan_period (calc 2 tim1 tim2)
      <= realized_scan_period (calc 2 tim1' tim2))
  /\ (dual_timer_divisor1 b tim2
      * dual_timer_divisor2 b (convert_src (dev_cmd dev) =? TRIG_NOW)
          tim1 tim2 chans chnsshfront
      * I8254_OSC_BASE_4MHZ < 2 ^ 32 ->
      ai_ns_min b <= realized_scan_period (calc 2 tim1 tim2))
  /\ (forall m, u8 m = 1 \/ u8 m = 4 ->
      realized_scan_period (calc m tim1 tim2) = tim1
      /\ realized_convert_period (calc m tim1 tim2)
         = search (Z.max tim2 (ai_ns_min b))
      /\ ((forall t t', t <= t' -> search t <= search t') ->
          tim2 <= tim2' ->
          realized_convert_period (calc m tim1 tim2)
          <= realized_convert_period (calc m tim1' tim2'))
      /\ ((forall t, ai_ns_min b <= t -> ai_ns_min b <= search t) ->
          ai_ns_min b <= realized_convert_period (calc m tim1 tim2)))
  /\ (forall m, u8 m <> 1 -> u8 m <> 2 -> u8 m <> 4 ->
      calc m tim1 tim2 = (tim1, tim2, div1, div2)).
Proof using ns_min_range pacer_min_pos pacer_min_fits.
  intros H1 H1' H2 H2' Hc Hc2 Hmin calc search.
  assert (M14 : forall m t1 t2, u8 m = 1 \/ u8 m = 4 ->
            realized_scan_period (calc m t1 t2) = t1
            /\ realized_convert_period (calc m t1 t2)
               = search (Z.max t2 (ai_ns_min b))).
  { intros m t1 t2 Hm. subst calc search. cbv beta.
    unfold pci9118_calc_divisors. cbv zeta. fold b.
    replace ((u8 m =? 1) || (u8 m =? 4)) with true
      by (destruct Hm as [-> | ->]; reflexivity).
    cbv iota.
    replace (if t2 <? ai_ns_min b then ai_ns_min b else t2)
      with (Z.max t2 (ai_ns_min b))
      by (destruct (Z.ltb_spec t2 (ai_ns_min b)); lia).
    unfold TRIG_ROUND_NEAREST. rewrite Z.land_0_r.
    destruct (i8253_cascade_ns_to_timer _ _ _ _ _) as [[d1 d2] t].
    split; reflexivity. }
  assert (Other : forall m, u8 m <> 1 -> u8 m <> 2 -> u8 m <> 4 ->
            calc m tim1 tim2 = (tim1, tim2, div1, div2)).
  { intros m N1 N2 N4. subst calc. cbv beta.
    unfold pci9118_calc_divisors. cbv zeta.
    apply Z.eqb_neq in N1, N2, N4. rewrite N1, N2, N4. reflexivity. }
  subst calc. cbv beta in M14, Other |- *.
  rewrite !calc_divisors_mode2 by lia.
  unfold realized_convert_period at 1 2 3, realized_scan_period at 1 2 3.
  cbn [fst snd].
  destruct (dual_timer_divisor1_bounds tim2 H2) as (Hd1 & Hp1 & Hf1).
  destruct (dual_timer_divisor1_bounds tim2' H2') as (Hd1' & Hp1' & Hf1').
  set (now := convert_src (dev_cmd dev) =? TRIG_NOW).
  assert (Hfl : 1 <= dual_timer_divisor2_floor now chans chnsshfront)
    by (unfold dual_timer_divisor2_floor;
        destruct (now && (chnsshfront =? 0)); lia).
  split; [|split; [|split; [|split; [|split]]]].
  - intros Hle. unfold dual_timer_convert_period, dual_timer_divisor1.
    assert (Z.max tim2 (ai_ns_min b) / I8254_OSC_BASE_4MHZ
            <= Z.max tim2' (ai_ns_min b) / I8254_OSC_BASE_4MHZ)
      by (apply Z.div_le_mono; [reflexivity|lia]).
    unfold I8254_OSC_BASE_4MHZ in *. lia.
  - unfold dual_timer_convert_period. unfold I8254_OSC_BASE_4MHZ in *. lia.
  - intros Hle. unfold dual_timer_divisor2.
    set (d1 := dual_timer_divisor1 b tim2) in *.
    set (f := dual_timer_divisor2_floor now chans chnsshfront) in *.
    destruct (scan_quotient_le tim1 d1 ltac:(lia) Hd1) as [Hq0 Hq].
    destruct (scan_quotient_le tim1' d1 ltac:(lia) Hd1) as [Hq0' Hq'].
    assert (Hqq : tim1 / I8254_OSC_BASE_4MHZ / d1
                  <= tim1' / I8254_OSC_BASE_4MHZ / d1).
    { apply Z.div_le_mono; [lia|]. apply Z.div_le_mono; [reflexivity|lia]. }
    set (q := tim1 / I8254_OSC_BASE_4MHZ / d1) in *.
    set (q' := tim1' / I8254_OSC_BASE_4MHZ / d1) in *.
    unfold I8254_OSC_BASE_4MHZ in *.
    destruct (Z_lt_dec (d1 * f * 250) (2 ^ 32)) as [Hfit|Hover].
    + unfold u32. rewrite !Z.mod_small; nia.
    + assert (q' < f) by nia. assert (q < f) by lia.
      rewrite !Z.max_r by lia. reflexivity.
  - intros Hfit. unfold u32. rewrite Z.mod_small.
    + unfold dual_timer_divisor2 in *.
      set (d1 := dual_timer_divisor1 b tim2) in *.
      set (f := dual_timer_divisor2_floor now chans chnsshfront) in *.
      unfold I8254_OSC_BASE_4MHZ in *. nia.
    + split; [|exact Hfit].
      unfold dual_timer_divisor2.
      set (d1 := dual_timer_divisor1 b tim2) in *.
      unfold I8254_OSC_BASE_4MHZ in *. nia.
  - intros m Hm.
    destruct (M14 m tim1 tim2 Hm) as [S1 C1].
    destruct (M14 m tim1' tim2' Hm) as [_ C1'].
    split; [exact S1|]. split; [exact C1|]. split.
    + intros Hmono Hle. rewrite C1, C1'. apply Hmono. lia.
    + intros Hkeep. rewrite C1. apply Hkeep. lia.
  - exact Other.
Qed.

End CalcDivisors.
(** ** Error-status decoding *)

(** C6, at the input where the driver departs from it.  The status word
    is handed to [pci9118_decode_error_status] through an eight-bit
    parameter, so the FIFO-full bit (0x100) never arrives: a status with
    that bit alone decodes nothing, leaves the warned mask as it was and
    does not end the run, although the bit belongs to the default
    hard-error mask. *)
Theorem decode_error_status_fifo_full_unseen (dev : comedi_device) :
  pci9118_decode_error_status dev AdStatus_nFull = (0, dev)
  /\ Z.land AdStatus_nFull (attach_maskharderr 0) = AdStatus_nFull.
Proof.
  split; [|reflexivity].
  unfold pci9118_decode_error_status.
  change (u8 AdStatus_nFull) with 0. cbn [Z.land nz Z.eqb negb].
  reflexivity.
Qed.
(** ** Cancellation *)

Lemma start_pacer_frame (dev : comedi_device) (mode : Z) :
  private (pci9118_start_pacer dev mode) = private dev
  /\ read_subdev (pci9118_start_pacer dev mode) = read_subdev dev
  /\ board_ptr (pci9118_start_pacer dev mode) = board_ptr dev.
Proof.
  unfold pci9118_start_pacer.
  destruct ((mode =? 1) || (mode =? 2) || (mode =? 4)); repeat split.
Qed.

Lemma exttrg_del_AI (dev : comedi_device) :
  let users := u8 (clear_bits (exttrg_users (private dev)) 1) in
  private (snd (pci9118_exttrg_del dev EXTTRG_AI))
  = set_IntControlReg
      (if users =? 0 then u8 (clear_bits (IntControlReg (private dev)) Int_DTrg)
       else IntControlReg (private dev))
      (set_exttrg_users users (private dev))
  /\ read_subdev (snd (pci9118_exttrg_del dev EXTTRG_AI)) = read_subdev dev.
Proof.
  unfold pci9118_exttrg_del, EXTTRG_AI. change (u8 0) with 0.
  cbn [Z.gtb Z.compare Z.shiftl].
  change (Z.shiftl 1 0) with 1. cbn beta iota zeta.
  unfold nz. cbn [private upd_priv set_private set_exttrg_users exttrg_users].
  destruct (u8 (clear_bits (exttrg_users (private dev)) 1) =? 0) eqn:E;
    cbn [negb].
  - cbn [private upd_priv set_private set_exttrg_users set_IntControlReg
         IntControlReg].
    destruct (u8 (clear_bits (IntControlReg (private dev)) Int_DTrg) =? 0);
      split; reflexivity.
  - split; reflexivity.
Qed.

(** The session state [pci9118_ai_cancel] leaves. *)
Lemma ai_cancel_state (dev : comedi_device) :
  let users := u8 (clear_bits (exttrg_users (private dev)) 1) in
  let intctrl :=
    if users =? 0 then u8 (clear_bits (IntControlReg (private dev)) Int_DTrg)
    else IntControlReg (private dev) in
  private (snd (pci9118_ai_cancel dev))
  = set_dma_actbuf 0
      (set_ai_neverending 0
         (set_ai_act_dmapos 0
            (set_ai_act_scan 0
               (set_usedma 0
                  (set_ai_do 0
                     (set_AdControlReg 0
                        (set_AdFunctionReg 0xc0
                           (set_IntControlReg intctrl
                              (set_exttrg_users users (private dev))))))))))
  /\ read_subdev (snd (pci9118_ai_cancel dev))
     = set_async (set_inttrig None (set_cur_chan 0 (dev_async dev)))
         (read_subdev dev).
Proof.
  cbv zeta. unfold pci9118_ai_cancel.
  set (dev0 := if nz (usedma (private dev)) then _ else dev).
  assert (H0p : private dev0 = private dev)
    by (subst dev0; destruct (nz (usedma (private dev))); reflexivity).
  assert (H0s : read_subdev dev0 = read_subdev dev)
    by (subst dev0; destruct (nz (usedma (private dev))); reflexivity).
  destruct (exttrg_del_AI dev0) as [H1p H1s].
  set (dev1 := snd (pci9118_exttrg_del dev0 EXTTRG_AI)) in *.
  destruct (start_pacer_frame dev1 0) as (H2p & H2s & _).
  set (dev2 := pci9118_start_pacer dev1 0) in *.
  rewrite H0p in H1p. rewrite H0s in H1s.
  rewrite H1p in H2p. rewrite H1s in H2s.
  match goal with
  | |- private (snd (0, ?d)) = _ /\ _ => set (dfin := d)
  end.
  cbn [snd]. split.
  - transitivity
      (set_dma_actbuf 0
         (set_ai_neverending 0
            (set_ai_act_dmapos 0
               (set_ai_act_scan 0
                  (set_usedma 0
                     (set_ai_do 0
                        (set_AdControlReg 0
                           (set_AdFunctionReg 0xc0 (private dev2))))))))).
    + subst dfin.
      match goal with
      | |- private (if ?c then _ else _) = _ => destruct c
      end; reflexivity.
    + rewrite H2p. reflexivity.
  - transitivity
      (set_async (set_inttrig None (set_cur_chan 0 (dev_async dev2)))
         (read_subdev dev2)).
    + subst dfin.
      match goal with
      | |- read_subdev (if ?c then _ else _) = _ => destruct c
      end; reflexivity.
    + unfold dev_async. rewrite H2s. reflexivity.
Qed.

Lemma u8_clear_bit0 (x : Z) : u8 (clear_bits x 1) = Z.land x 254.
Proof.
  unfold u8, clear_bits. rewrite <- Z.land_ones by lia.
  rewrite <- Z.land_assoc. reflexivity.
Qed.

Lemma u8_clear_bit0_idem (x : Z) :
  u8 (clear_bits (u8 (clear_bits x 1)) 1) = u8 (clear_bits x 1).
Proof.
  rewrite !u8_clear_bit0, <- Z.land_assoc. reflexivity.
Qed.

(** C7, as the code has it.  [pci9118_ai_cancel] always returns 0; a
    second call in a row changes nothing in the session state; whatever
    the state before, it leaves the control and function shadows at
    their idle values, mode, DMA flag, scan and position counters, buffer
    index and never-ending flag at zero, no trigger callback installed
    and the analog input's claim on the external trigger released.  The
    interrupt-control shadow is not reset: it loses the digital-trigger
    bit when no other claim on the external trigger remains and is
    otherwise kept; the pending start/stop flags are kept as well. *)
Theorem ai_cancel_idempotent (dev : comedi_device) :
  let dev' := snd (pci9118_ai_cancel dev) in
  let p := private dev' in
  let a := dev_async dev' in
  fst (pci9118_ai_cancel dev) = 0
  /\ session (snd (pci9118_ai_cancel dev')) = session dev'
  /\ (AdControlReg p = 0 /\ AdFunctionReg p = 0xc0 /\ ai_do p = 0
      /\ usedma p = 0 /\ ai_act_scan p = 0 /\ ai_act_dmapos p = 0
      /\ ai_neverending p = 0 /\ dma_actbuf p = 0 /\ cur_chan a = 0
      /\ inttrig a = None /\ Z.land (exttrg_users p) 1 = 0)
  /\ IntControlReg p
     = (if exttrg_users p =? 0
        then u8 (clear_bits (IntControlReg (private dev)) Int_DTrg)
        else IntControlReg (private dev))
  /\ ai12_startstop p = ai12_startstop (private dev).
Proof.
  cbv zeta. split; [reflexivity|].
  destruct (ai_cancel_state dev) as [Hp Hs].
  destruct (ai_cancel_state (snd (pci9118_ai_cancel dev))) as [Hp2 Hs2].
  cbv zeta in Hp, Hp2. unfold dev_async in *.
  rewrite Hp in Hp2. rewrite Hs in Hs2.
  split.
  - unfold session. rewrite Hp2, Hs2, Hp, Hs. clear.
    destruct_records. record_simpl. unfold Int_DTrg.
    match goal with
    | |- context [u8 (clear_bits (u8 (clear_bits ?x 1)) 1)] =>
        rewrite (u8_clear_bit0_idem x)
    end.
    match goal with
    | |- context [if ?c
                  then u8 (clear_bits
                             (if ?c then u8 (clear_bits ?ic 1) else ?ic) 1)
                  else _] =>
        replace (if c
                 then u8 (clear_bits
                            (if c then u8 (clear_bits ic 1) else ic) 1)
                 else (if c then u8 (clear_bits ic 1) else ic))
          with (if c then u8 (clear_bits ic 1) else ic)
          by (destruct c; [rewrite (u8_clear_bit0_idem ic)|]; reflexivity)
    end.
    reflexivity.
  - rewrite Hs, Hp. clear.
    destruct_records. record_simpl.
    split; [|split; reflexivity].
    do 10 (split; [reflexivity|]).
    match goal with
    | |- Z.land (u8 (clear_bits ?x 1)) 1 = 0 => rewrite (u8_clear_bit0 x)
    end.
    rewrite <- Z.land_assoc. change (Z.land 254 1) with 0. apply Z.land_0_r.
Qed.
(** ** Starting an acquisition *)

(** Steps that leave [run_view] alone. *)
Lemma view_outl v p dev : run_view (outl v p dev) = run_view dev.
Proof. reflexivity. Qed.

Lemma view_dev_err msg dev : run_view (dev_err msg dev) = run_view dev.
Proof. reflexivity. Qed.

Lemma view_dev_info msg dev : run_view (dev_info msg dev) = run_view dev.
Proof. reflexivity. Qed.

Lemma view_upd_priv f dev :
  (forall p, ai_do (f p) = ai_do p /\ usedma (f p) = usedma p
             /\ ai_act_dmapos (f p) = ai_act_dmapos p) ->
  run_view (upd_priv f dev) = run_view dev.
Proof.
  intros H. destruct (H (private dev)) as (H1 & H2 & H3).
  unfold run_view.
  change (private (upd_priv f dev)) with (f (private dev)).
  change (dev_cmd (upd_priv f dev)) with (dev_cmd dev).
  rewrite H1, H2, H3. reflexivity.
Qed.

Lemma view_upd_cmd f dev :
  (forall c, scan_begin_src (f c) = scan_begin_src c
             /\ convert_src (f c) = convert_src c) ->
  run_view (upd_cmd f dev) = run_view dev.
Proof.
  intros H. destruct (H (dev_cmd dev)) as (H1 & H2).
  unfold run_view.
  change (private (upd_cmd f dev)) with (private dev).
  change (dev_cmd (upd_cmd f dev)) with (f (dev_cmd dev)).
  rewrite H1, H2. reflexivity.
Qed.

Lemma view_upd_async_keep_cmd f dev :
  (forall a, cmd (f a) = cmd a) ->
  run_view (upd_async f dev) = run_view dev.
Proof.
  intros H. unfold run_view.
  change (private (upd_async f dev)) with (private dev).
  change (dev_cmd (upd_async f dev)) with (cmd (f (dev_async dev))).
  rewrite H. reflexivity.
Qed.

Lemma view_if (c : bool) (a b : comedi_device) R :
  run_view a = R -> run_view b = R -> run_view (if c then a else b) = R.
Proof. destruct c; auto. Qed.

Lemma view_or_AdControlReg bits dev :
  run_view (or_AdControlReg bits dev) = run_view dev.
Proof. apply view_upd_priv. intros p. repeat split. Qed.

Lemma view_start_pacer dev mode :
  run_view (pci9118_start_pacer dev mode) = run_view dev.
Proof.
  unfold pci9118_start_pacer. cbv zeta.
  apply view_if; repeat (etransitivity; [apply view_outl|]); reflexivity.
Qed.

Lemma view_exttrg_add dev source :
  run_view (snd (pci9118_exttrg_add dev source)) = run_view dev.
Proof.
  unfold pci9118_exttrg_add. cbv zeta.
  destruct (u8 source >? 3); [reflexivity|].
  cbn [snd].
  repeat (etransitivity; [apply view_outl|]).
  etransitivity; [apply view_upd_priv; intros p; repeat split|].
  apply view_upd_priv; intros p; repeat split.
Qed.

(** Head-directed proof of [run_view t = run_view dev] for a term [t]
    built from the steps above. *)
Ltac view_step :=
  lazymatch goal with
  | |- run_view ?d = run_view ?d => reflexivity
  | |- run_view (outl _ _ _) = _ => etransitivity; [apply view_outl|]
  | |- run_view (dev_err _ _) = _ => etransitivity; [apply view_dev_err|]
  | |- run_view (dev_info _ _) = _ => etransitivity; [apply view_dev_info|]
  | |- run_view (or_AdControlReg _ _) = _ =>
      etransitivity; [apply view_or_AdControlReg|]
  | |- run_view (pci9118_start_pacer _ _) = _ =>
      etransitivity; [apply view_start_pacer|]
  | |- run_view (snd (pci9118_exttrg_add _ _)) = _ =>
      etransitivity; [apply view_exttrg_add|]
  | |- run_view (upd_priv _ _) = _ =>
      etransitivity; [apply view_upd_priv; intros ?; repeat split|]
  | |- run_view (upd_cmd _ _) = _ =>
      etransitivity; [apply view_upd_cmd; intros ?; repeat split|]
  | |- run_view (upd_async _ _) = _ =>
      etransitivity; [apply view_upd_async_keep_cmd; intros ?; reflexivity|]
  | |- run_view (if _ then _ else _) = _ => apply view_if
  | |- run_view (snd (_, _)) = _ => cbn [snd]
  | |- run_view (fst (_, _)) = _ => cbn [fst]
  end.
Ltac view_chain := repeat view_step.

Lemma view_dma_wake_eos_len n dmalen dev :
  run_view (snd (dma_wake_eos_len n dmalen dev)) = run_view dev.
Proof.
  unfold dma_wake_eos_len. cbv zeta.
  destruct (nz (Z.land (ai_flags (private dev)) TRIG_WAKE_EOS));
    [|reflexivity].
  destruct (dmalen <? u32 (Z.shiftl (ai_n_realscanlen (private dev)) 1)).
  - view_chain.
  - destruct (u32 (Z.shiftl (ai_n_realscanlen (private dev)) 1) <? 4);
      view_chain.
Qed.

Lemma view_Compute_and_setup_dma dev :
  run_view (snd (Compute_and_setup_dma dev)) = run_view dev.
Proof.
  unfold Compute_and_setup_dma. cbv zeta. cbn [snd].
  view_chain.
  etransitivity; [apply view_dma_wake_eos_len|].
  apply view_dma_wake_eos_len.
Qed.

(** The mode switches hand the run on for the modes they serve and bail
    out for the others; they do not touch [run_view]. *)
Lemma docmd_dma_mode_setup_cases dev :
  let m := ai_do (private dev) in
  if (m =? 1) || (m =? 2) || (m =? 3) || (m =? 4)
  then exists dev', docmd_dma_mode_setup dev = Proceed dev'
                    /\ run_view dev' = run_view dev
  else exists msg, docmd_dma_mode_setup dev = Bail msg.
Proof.
  cbv zeta. unfold docmd_dma_mode_setup. cbv zeta.
  destruct (ai_do (private dev) =? 1); cbn [orb].
  { eexists. split; [reflexivity|]. view_chain. }
  destruct (ai_do (private dev) =? 2); cbn [orb].
  { eexists. split; [reflexivity|]. view_chain. }
  destruct (ai_do (private dev) =? 3); cbn [orb].
  { eexists. split; [reflexivity|]. view_chain. }
  destruct (ai_do (private dev) =? 4); cbn [orb].
  { eexists. split; [reflexivity|]. view_chain. }
  eexists. reflexivity.
Qed.

Lemma docmd_sampl_mode_setup_cases dev :
  let m := ai_do (private dev) in
  if (m =? 1) || (m =? 3)
  then exists dev', docmd_sampl_mode_setup dev = Proceed dev'
                    /\ run_view dev' = run_view dev
  else exists msg, docmd_sampl_mode_setup dev = Bail msg.
Proof.
  cbv zeta. unfold docmd_sampl_mode_setup. cbv zeta.
  destruct (ai_do (private dev) =? 1); cbn [orb].
  { eexists. split; [reflexivity|]. view_chain. }
  destruct (Z.eqb_spec (ai_do (private dev)) 2) as [E2|E2].
  { rewrite E2. eexists. reflexivity. }
  destruct (ai_do (private dev) =? 3); cbn [orb].
  { eexists. split; [reflexivity|]. view_chain. }
  destruct (ai_do (private dev) =? 4); eexists; reflexivity.
Qed.

Lemma view_ai_do dev dev' :
  run_view dev' = run_view dev -> ai_do (private dev') = ai_do (private dev).
Proof. unfold run_view. congruence. Qed.

(** [pci9118_ai_docmd_dma] starts the run in modes 1 to 4 and returns
    [-EIO] otherwise; either way [run_view] is kept. *)
Lemma docmd_dma_result (dev : comedi_device) :
  let m := ai_do (private dev) in
  run_view (snd (pci9118_ai_docmd_dma dev)) = run_view dev
  /\ fst (pci9118_ai_docmd_dma dev)
     = if (m =? 1) || (m =? 2) || (m =? 3) || (m =? 4) then 0 else - EIO.
Proof.
  cbv zeta. unfold pci9118_ai_docmd_dma. cbv zeta.
  pose proof (view_Compute_and_setup_dma dev) as V.
  pose proof (docmd_dma_mode_setup_cases (snd (Compute_and_setup_dma dev)))
    as Hc.
  cbv zeta in Hc. rewrite (view_ai_do _ _ V) in Hc.
  set (d1 := snd (Compute_and_setup_dma dev)) in *. clearbody d1.
  set (m := ai_do (private dev)) in *.
  destruct ((m =? 1) || (m =? 2) || (m =? 3) || (m =? 4)).
  - destruct Hc as (d2 & -> & V2). split; [|reflexivity].
    cbn [snd]. rewrite <- V, <- V2. view_chain.
  - destruct Hc as (msg & ->). split; [|reflexivity].
    cbn [snd]. rewrite <- V. view_chain.
Qed.

(** [pci9118_ai_docmd_sampl] starts the run in modes 1 and 3 and returns
    [-EIO] otherwise. *)
Lemma docmd_sampl_result (dev : comedi_device) :
  let m := ai_do (private dev) in
  run_view (snd (pci9118_ai_docmd_sampl dev)) = run_view dev
  /\ fst (pci9118_ai_docmd_sampl dev)
     = if (m =? 1) || (m =? 3) then 0 else - EIO.
Proof.
  cbv zeta. unfold pci9118_ai_docmd_sampl. cbv zeta.
  pose proof (docmd_sampl_mode_setup_cases dev) as Hc. cbv zeta in Hc.
  set (m := ai_do (private dev)) in *.
  destruct ((m =? 1) || (m =? 3)).
  - destruct Hc as (d2 & -> & V2). split; [|reflexivity].
    cbn [snd]. rewrite <- V2. view_chain.
  - destruct Hc as (msg & ->). split; [|reflexivity].
    cbn [snd]. view_chain.
Qed.

Lemma run_view_fields dev dev' :
  run_view dev' = run_view dev <->
  ai_do (private dev') = ai_do (private dev)
  /\ usedma (private dev') = usedma (private dev)
  /\ ai_act_dmapos (private dev') = ai_act_dmapos (private dev)
  /\ scan_begin_src (dev_cmd dev') = scan_begin_src (dev_cmd dev)
  /\ convert_src (dev_cmd dev') = convert_src (dev_cmd dev).
Proof.
  unfold run_view. split.
  - intros H. injection H. auto.
  - intros (-> & -> & -> & -> & ->). reflexivity.
Qed.

(** The tail of [pci9118_ai_cmd]: the cursor is cleared, mode, DMA flag
    and trigger sources are kept, and the run starts exactly when the
    mode set so far is one the chosen transfer serves. *)
Lemma ai_cmd_start_result (dev : comedi_device) :
  let m := ai_do (private dev) in
  let r := pci9118_ai_cmd_start dev in
  ai_act_dmapos (private (snd r)) = 0
  /\ ai_do (private (snd r)) = m
  /\ fst r
     = if nz (usedma (private dev))
       then if (m =? 1) || (m =? 2) || (m =? 3) || (m =? 4) then 0 else - EIO
       else if (m =? 1) || (m =? 3) then 0 else - EIO.
Proof.
  cbv zeta. unfold pci9118_ai_cmd_start. cbv zeta.
  match goal with
  | |- context [pci9118_ai_docmd_dma ?D] => set (d := D)
  end.
  assert (V : run_view d
              = (ai_do (private dev), usedma (private dev), 0,
                 scan_begin_src (dev_cmd dev), convert_src (dev_cmd dev))).
  { subst d. etransitivity; [apply view_upd_async_keep_cmd; reflexivity|].
    match goal with
    | |- run_view (upd_priv (set_ai_act_dmapos 0) ?x) = _ =>
        transitivity (ai_do (private x), usedma (private x), 0,
                      scan_begin_src (dev_cmd x), convert_src (dev_cmd x));
        [reflexivity|];
        assert (Vx : run_view x = run_view dev) by view_chain;
        apply run_view_fields in Vx;
        destruct Vx as (-> & -> & _ & -> & ->); reflexivity
    end. }
  clearbody d.
  assert (Hm : ai_do (private d) = ai_do (private dev))
    by (unfold run_view in V; congruence).
  assert (Hu : usedma (private d) = usedma (private dev))
    by (unfold run_view in V; congruence).
  assert (Hp : ai_act_dmapos (private d) = 0)
    by (unfold run_view in V; congruence).
  rewrite Hu. clear V.
  destruct (nz (usedma (private dev))).
  - destruct (docmd_dma_result d) as [V2 R2]. cbv zeta in R2.
    apply run_view_fields in V2. destruct V2 as (A & _ & B & _).
    rewrite A, B, R2, Hm, Hp. repeat split.
  - destruct (docmd_sampl_result d) as [V2 R2]. cbv zeta in R2.
    apply run_view_fields in V2. destruct V2 as (A & _ & B & _).
    rewrite A, B, R2, Hm, Hp. repeat split.
Qed.

Lemma view_calc_divisors dev :
  run_view (pci9118_ai_cmd_calc_divisors dev) = run_view dev.
Proof.
  unfold pci9118_ai_cmd_calc_divisors. cbv zeta.
  destruct (pci9118_calc_divisors _ _ _ _ _ _ _ _ _) as [[[t1 t2] d1] d2].
  view_chain.
Qed.

Lemma view_set_ai_do m dev :
  run_view (upd_priv (set_ai_do m) dev)
  = (m, usedma (private dev), ai_act_dmapos (private dev),
     scan_begin_src (dev_cmd dev), convert_src (dev_cmd dev)).
Proof. reflexivity. Qed.

(** The mode the timer block of [pci9118_ai_cmd] leaves: the table's
    entry for the two trigger sources, or the mode found on entry when
    the table has none. *)
Lemma ai_cmd_timers_result (dev : comedi_device) :
  let sbs := scan_begin_src (dev_cmd dev) in
  let cs := convert_src (dev_cmd dev) in
  let m :=
    match mode_of_triggers sbs cs with
    | Some m => m
    | None => ai_do (private dev)
    end in
  let r := pci9118_ai_cmd_timers dev in
  (fst r = 0 \/ fst r = - EIO)
  /\ (fst r = 0 ->
      ai_do (private (snd r)) = m
      /\ ai_act_dmapos (private (snd r)) = 0
      /\ (if nz (usedma (private dev))
          then (m =? 1) || (m =? 2) || (m =? 3) || (m =? 4)
          else (m =? 1) || (m =? 3)) = true).
Proof.
  cbv zeta. unfold pci9118_ai_cmd_timers. cbv zeta.
  set (sbs := scan_begin_src (dev_cmd dev)).
  set (cs := convert_src (dev_cmd dev)).
  (* first block *)
  set (dA := if ((sbs =? TRIG_FOLLOW) || (sbs =? TRIG_EXT)
                 || (sbs =? TRIG_INT)) && (cs =? TRIG_TIMER)
             then _ else dev).
  set (mA := if ((sbs =? TRIG_FOLLOW) || (sbs =? TRIG_EXT)
                 || (sbs =? TRIG_INT)) && (cs =? TRIG_TIMER)
             then if sbs =? TRIG_EXT then 4 else 1
             else ai_do (private dev)).
  assert (VA : run_view dA
               = (mA, usedma (private dev), ai_act_dmapos (private dev),
                  sbs, cs)).
  { subst dA mA.
    destruct (((sbs =? TRIG_FOLLOW) || (sbs =? TRIG_EXT)
               || (sbs =? TRIG_INT)) && (cs =? TRIG_TIMER)); [|reflexivity].
    rewrite view_calc_divisors.
    destruct (sbs =? TRIG_EXT); reflexivity. }
  clearbody dA.
  assert (HA := VA). unfold run_view in HA.
  injection HA as HA1 HA2 HA3 HA4 HA5.
  rewrite HA4, HA5.
  (* second block *)
  destruct ((sbs =? TRIG_TIMER)
            && ((cs =? TRIG_TIMER) || (cs =? TRIG_NOW))) eqn:EB.
  - rewrite HA2.
    destruct (nz (usedma (private dev))) eqn:EU; cbn [negb].
    2:{ split; [right; reflexivity|]. cbn [fst]. unfold EIO. discriminate. }
    set (dB := pci9118_ai_cmd_calc_divisors (upd_priv (set_ai_do 2) dA)).
    assert (VB : run_view dB
                 = (2, usedma (private dev), ai_act_dmapos (private dev),
                    sbs, cs)).
    { subst dB. rewrite view_calc_divisors, view_set_ai_do.
      rewrite HA2, HA3, HA4, HA5. reflexivity. }
    clearbody dB. unfold run_view in VB.
    injection VB as HB1 HB2 HB3 HB4 HB5.
    rewrite HB4, HB5.
    assert (E3 : (sbs =? TRIG_FOLLOW) && (cs =? TRIG_EXT) = false).
    { apply andb_true_iff in EB. destruct EB as [EB _].
      apply Z.eqb_eq in EB. rewrite EB. reflexivity. }
    rewrite E3.
    destruct (ai_cmd_start_result dB) as (P & M & R). cbv zeta in R.
    rewrite HB1, HB2, EU in R. rewrite HB1 in M.
    assert (Hm : mode_of_triggers sbs cs = Some 2).
    { unfold mode_of_triggers.
      apply andb_true_iff in EB. destruct EB as [EB1 EB2].
      apply Z.eqb_eq in EB1. rewrite EB1.
      change (TRIG_TIMER =? TRIG_FOLLOW) with false.
      change (TRIG_TIMER =? TRIG_INT) with false.
      change (TRIG_TIMER =? TRIG_EXT) with false.
      change (TRIG_TIMER =? TRIG_TIMER) with true.
      rewrite !andb_false_r. cbn [orb andb]. rewrite EB2. reflexivity. }
    rewrite Hm. split; [left; exact R|]. intros _. auto.
  - rewrite HA4, HA5.
    set (dC := if (sbs =? TRIG_FOLLOW) && (cs =? TRIG_EXT)
               then upd_priv (set_ai_do 3) dA else dA).
    set (mC := if (sbs =? TRIG_FOLLOW) && (cs =? TRIG_EXT) then 3 else mA).
    assert (VC : run_view dC
                 = (mC, usedma (private dev), ai_act_dmapos (private dev),
                    sbs, cs)).
    { subst dC mC. destruct ((sbs =? TRIG_FOLLOW) && (cs =? TRIG_EXT)).
      - rewrite view_set_ai_do, HA2, HA3, HA4, HA5. reflexivity.
      - exact VA. }
    clearbody dC. unfold run_view in VC.
    injection VC as HC1 HC2 HC3 HC4 HC5.
    destruct (ai_cmd_start_result dC) as (P & M & R). cbv zeta in R.
    rewrite HC1, HC2 in R. rewrite HC1 in M.
    assert (Hm : match mode_of_triggers sbs cs with
                 | Some m => m
                 | None => ai_do (private dev)
                 end = mC).
    { subst mC mA. unfold mode_of_triggers. rewrite EB.
      destruct (Z.eqb_spec cs TRIG_TIMER) as [Ec|Ec].
      - rewrite Ec. change (TRIG_TIMER =? TRIG_EXT) with false.
        rewrite !andb_false_r, !andb_true_r, !andb_true_l.
        destruct (Z.eqb_spec sbs TRIG_FOLLOW) as [Es|Es].
        + rewrite Es. reflexivity.
        + destruct (Z.eqb_spec sbs TRIG_EXT) as [Es2|Es2].
          * rewrite Es2. reflexivity.
          * cbn [orb]. destruct (sbs =? TRIG_INT); reflexivity.
      - rewrite !andb_false_r, !andb_false_l.
        destruct ((sbs =? TRIG_FOLLOW) && (cs =? TRIG_EXT)); reflexivity. }
    rewrite Hm. split.
    + rewrite R. destruct (nz (usedma (private dev)));
        match goal with
        | |- context [if ?c then 0 else - EIO] => destruct c
        end; auto.
    + intros H0. rewrite R in H0. split; [exact M|]. split; [exact P|].
      destruct (nz (usedma (private dev)));
        match goal with
        | |- ?c = true => destruct c
        end; try reflexivity; discriminate H0.
Qed.
(** Steps that leave [mode_view] alone: everything before the timer
    block of [pci9118_ai_cmd]. *)
Lemma mview_outl v p dev : mode_view (outl v p dev) = mode_view dev.
Proof. reflexivity. Qed.

Lemma mview_dev_err msg dev : mode_view (dev_err msg dev) = mode_view dev.
Proof. reflexivity. Qed.

Lemma mview_upd_priv f dev :
  (forall p, ai_do (f p) = ai_do p) ->
  mode_view (upd_priv f dev) = mode_view dev.
Proof.
  intros H. unfold mode_view.
  change (private (upd_priv f dev)) with (f (private dev)).
  change (dev_cmd (upd_priv f dev)) with (dev_cmd dev).
  rewrite H. reflexivity.
Qed.

Lemma mview_upd_cmd f dev :
  (forall c, scan_begin_src (f c) = scan_begin_src c
             /\ convert_src (f c) = convert_src c) ->
  mode_view (upd_cmd f dev) = mode_view dev.
Proof.
  intros H. destruct (H (dev_cmd dev)) as (H1 & H2).
  unfold mode_view.
  change (private (upd_cmd f dev)) with (private dev).
  change (dev_cmd (upd_cmd f dev)) with (f (dev_cmd dev)).
  rewrite H1, H2. reflexivity.
Qed.

Lemma mview_upd_async_keep_cmd f dev :
  (forall a, cmd (f a) = cmd a) ->
  mode_view (upd_async f dev) = mode_view dev.
Proof.
  intros H. unfold mode_view.
  change (private (upd_async f dev)) with (private dev).
  change (dev_cmd (upd_async f dev)) with (cmd (f (dev_async dev))).
  rewrite H. reflexivity.
Qed.

Lemma mview_if (c : bool) (a b : comedi_device) R :
  mode_view a = R -> mode_view b = R -> mode_view (if c then a else b) = R.
Proof. destruct c; auto. Qed.

Ltac mview_step :=
  lazymatch goal with
  | |- mode_view ?d = mode_view ?d => reflexivity
  | |- mode_view (outl _ _ _) = _ => etransitivity; [apply mview_outl|]
  | |- mode_view (dev_err _ _) = _ => etransitivity; [apply mview_dev_err|]
  | |- mode_view (upd_priv _ _) = _ =>
      etransitivity; [apply mview_upd_priv; intros ?; reflexivity|]
  | |- mode_view (upd_cmd _ _) = _ =>
      etransitivity; [apply mview_upd_cmd; intros ?; split; reflexivity|]
  | |- mode_view (upd_async _ _) = _ =>
      etransitivity; [apply mview_upd_async_keep_cmd; intros ?; reflexivity|]
  | |- mode_view (if _ then _ else _) = _ => apply mview_if
  | |- mode_view (snd (_, _)) = _ => cbn [snd]
  | |- mode_view (fst (_, _)) = _ => cbn [fst]
  end.
Ltac mview_chain := repeat mview_step.

Lemma mview_startstop dev :
  mode_view (pci9118_ai_cmd_startstop dev) = mode_view dev.
Proof. unfold pci9118_ai_cmd_startstop. cbv beta zeta. mview_chain. Qed.

Lemma mview_dma_padding dev :
  mode_view (pci9118_ai_cmd_dma_padding dev) = mode_view dev.
Proof. unfold pci9118_ai_cmd_dma_padding. cbv beta zeta. mview_chain. Qed.

Lemma mview_ssh_padding dev :
  mode_view (pci9118_ai_cmd_ssh_padding dev) = mode_view dev.
Proof. unfold pci9118_ai_cmd_ssh_padding. cbv beta zeta. mview_chain. Qed.

Lemma mview_fold_outl {A} (g : comedi_device -> A -> Z) p (l : list A) :
  forall dev,
    mode_view (fold_left (fun d i => outl (g d i) p d) l dev) = mode_view dev.
Proof.
  induction l as [|x l IH]; intros dev; [reflexivity|].
  simpl fold_left. rewrite IH. reflexivity.
Qed.

Lemma mview_fold_front {A} (g : comedi_device * Z -> A -> Z) p (h : Z)
    (l : list A) :
  forall st,
    mode_view
      (fst (fold_left (fun st i => (outl (g st i) p (fst st), h)) l st))
    = mode_view (fst st).
Proof.
  induction l as [|x l IH]; intros st; [reflexivity|].
  simpl fold_left. rewrite IH. reflexivity.
Qed.

Lemma mview_setup_channel_list dev n_chan chanlist rot frontadd backadd dma :
  mode_view (snd (setup_channel_list dev n_chan chanlist rot frontadd
                    backadd dma)) = mode_view dev
  /\ fst (setup_channel_list dev n_chan chanlist rot frontadd backadd dma)
     = 1.
Proof.
  split; [|reflexivity].
  unfold setup_channel_list. cbv zeta. cbn [snd].
  etransitivity; [apply mview_outl|].
  assert (Hmid : forall d ssh,
            mode_view
              (fold_left
                 (fun (dev0 : comedi_device) (i : nat) =>
                    outl (Z.lor (scanquad_of (nth i chanlist 0)) ssh)
                      (CardReg PCI9118_GAIN) dev0)
                 (seq 0 (Z.to_nat (u32 n_chan))) d) = mode_view d).
  { intros d ssh.
    apply (mview_fold_outl
             (fun _ i => Z.lor (scanquad_of (nth i chanlist 0)) ssh)). }
  assert (Hback : forall d ssh,
            mode_view
              (fold_left
                 (fun (dev0 : comedi_device) (_ : nat) =>
                    outl (Z.lor (scanquad_of (nth 0 chanlist 0)) ssh)
                      (CardReg PCI9118_GAIN) dev0)
                 (seq 0 (Z.to_nat (u32 backadd))) d) = mode_view d).
  { intros d ssh.
    apply (mview_fold_outl
             (fun _ _ => Z.lor (scanquad_of (nth 0 chanlist 0)) ssh)). }
  apply mview_if; [rewrite Hback|]; rewrite Hmid;
    (destruct (nz frontadd);
     [cbv beta; rewrite (mview_fold_front
                 (fun st _ => Z.lor (scanquad_of (nth 0 chanlist 0)) (snd st)))
     |]; cbn [fst]; mview_chain).
Qed.

(** [pci9118_ai_cmd]: every early exit returns an error; when the run
    starts, the padding cursor is at zero and the mode is the table's
    entry for the command's scan-begin and convert sources (the mode
    found on entry when the table has none). *)
Lemma ai_cmd_result (dev : comedi_device) :
  let sbs := scan_begin_src (dev_cmd dev) in
  let cs := convert_src (dev_cmd dev) in
  let r := pci9118_ai_cmd dev in
  (fst r = 0 \/ fst r = - EIO \/ fst r = - EINVAL)
  /\ (fst r = 0 ->
      ai_act_dmapos (private (snd r)) = 0
      /\ ai_do (private (snd r))
         = match mode_of_triggers sbs cs with
           | Some m => m
           | None => ai_do (private dev)
           end).
Proof.
  clear_unused.
  cbv zeta. unfold pci9118_ai_cmd. cbv zeta.
  set (d3 := pci9118_ai_cmd_ssh_padding
               (pci9118_ai_cmd_dma_padding (pci9118_ai_cmd_startstop dev))).
  assert (V3 : mode_view d3 = mode_view dev).
  { subst d3. rewrite mview_ssh_padding, mview_dma_padding.
    apply mview_startstop. }
  clearbody d3.
  match goal with
  | |- context [check_channel_list_verdict ?d _ _ _ _] => set (d4 := d) in *
  end.
  match goal with
  | |- context [check_channel_list_verdict d4 ?n ?l ?f ?b] =>
      destruct (check_channel_list_verdict d4 n l f b) as [|msg]
  end.
  2:{ split; [right; right; reflexivity|].
      cbn [fst]. unfold EINVAL. discriminate. }
  assert (V4 : mode_view d4 = mode_view dev).
  { subst d4. etransitivity; [|exact V3].
    apply mview_upd_priv. reflexivity. }
  clearbody d4. clear V3 d3.
  match goal with
  | |- context [setup_channel_list ?d ?n ?l ?r ?f ?b ?u] =>
      destruct (mview_setup_channel_list d n l r f b u) as [V5 F5];
      set (r5 := setup_channel_list d n l r f b u) in *
  end.
  clearbody r5. rewrite F5. change (negb (nz 1)) with false. cbv iota.
  rewrite V4 in V5. clear V4 F5 d4.
  unfold mode_view in V5. injection V5 as H1 H2 H3.
  destruct (ai_cmd_timers_result (snd r5)) as [R1 R2].
  cbv zeta in R1, R2. rewrite H1, H2, H3 in R2.
  split; [tauto|]. intros H0. destruct (R2 H0) as (A & B & _). auto.
Qed.
(** ** The padding cursor *)

(** C8. The cursor [ai_act_dmapos] is zero after [pci9118_ai_cancel] and
    whenever [pci9118_ai_cmd] has started a run; and for a padded scan of
    positive length that fits 32 bits, [defragment_dma_buffer] leaves it
    inside the padded scan after at least one sample, keeps it there when
    it started there, and then advances it by the number of samples
    modulo the padded scan length. *)
Theorem ai_act_dmapos_invariant :
  (forall dev, ai_act_dmapos (private (snd (pci9118_ai_cancel dev))) = 0)
  /\ (forall dev,
        fst (pci9118_ai_cmd dev) = 0 ->
        ai_act_dmapos (private (snd (pci9118_ai_cmd dev))) = 0)
  /\ (forall dev (raw : list Z),
        let front := ai_add_front (private dev) in
        let n := chanlist_len (dev_cmd dev) in
        let back := ai_add_back (private dev) in
        let pos := ai_act_dmapos (private dev) in
        0 <= front -> 0 <= n -> 0 <= back ->
        0 < front + n + back < 2 ^ 32 ->
        exists j buf dev',
          defragment_dma_buffer dev raw (Z.of_nat (length raw))
          = Some (j, buf, dev')
          /\ (raw <> [] ->
              0 <= ai_act_dmapos (private dev') < front + n + back)
          /\ (0 <= pos < front + n + back ->
              0 <= ai_act_dmapos (private dev') < front + n + back
              /\ ai_act_dmapos (private dev')
                 = (pos + Z.of_nat (length raw)) mod (front + n + back))).
Proof.
  split; [|split].
  - intros dev. destruct (ai_cancel_state dev) as [Hp _]. cbv zeta in Hp.
    rewrite Hp. reflexivity.
  - intros dev H0. destruct (ai_cmd_result dev) as [_ H]. cbv zeta in H.
    apply (H H0).
  - intros dev raw front n back pos Hf Hn Hb HL.
    destruct (defragment_dma_buffer_spec dev raw Hf Hn Hb HL)
      as [buf (He & _ & _)].
    fold front n back pos in He.
    eexists _, buf, _. split; [exact He|].
    change (ai_act_dmapos (private (upd_priv (set_ai_act_dmapos ?v) dev)))
      with v.
    split.
    + intros Hne. apply cursor_after_bound; [lia|].
      destruct raw; [congruence|simpl; lia].
    + intros Hpos.
      destruct (cursor_after_in_range front n back Hf Hn Hb ltac:(lia)
                  (length raw) pos Hpos) as [He2 Hr].
      split; [exact Hr|exact He2].
Qed.
(** ** Command negotiation *)

Lemma nz_false (x : Z) : nz x = false <-> x = 0.
Proof.
  unfold nz. rewrite negb_false_iff. apply Z.eqb_eq.
Qed.

Lemma nz_true (x : Z) : nz x = true <-> x <> 0.
Proof.
  unfold nz. rewrite negb_true_iff. apply Z.eqb_neq.
Qed.

Lemma cfc_check_trigger_src_ok (src flags : Z) :
  fst (cfc_check_trigger_src src flags) = 0 ->
  snd (cfc_check_trigger_src src flags) = src
  /\ Z.land src flags = src /\ src <> 0.
Proof.
  unfold cfc_check_trigger_src, TRIG_INVALID. cbv zeta.
  destruct (Z.eqb_spec (Z.land src flags) 0) as [E0|E0]; cbn [orb].
  { cbn [fst]. unfold EINVAL. discriminate. }
  destruct (Z.eqb_spec (Z.land src flags) src) as [E1|E1]; cbn [negb fst snd].
  - intros _. repeat split; congruence.
  - unfold EINVAL. discriminate.
Qed.

Lemma cfc_check_trigger_src_err (src flags : Z) :
  fst (cfc_check_trigger_src src flags) = 0
  \/ fst (cfc_check_trigger_src src flags) = - EINVAL.
Proof.
  unfold cfc_check_trigger_src. cbv zeta.
  destruct ((Z.land src flags =? TRIG_INVALID)
            || negb (Z.land src flags =? src)); auto.
Qed.

(** A value under an eight-bit mask is an eight-bit value, and a
    property of all eight-bit values can be checked by running through
    them. *)
Lemma land_submask_u8 (s m : Z) :
  Z.land m 255 = m -> Z.land s m = s -> 0 <= s < 256.
Proof.
  intros Hm H.
  assert (E : s mod 2 ^ 8 = s).
  { rewrite <- Z.land_ones by lia. rewrite <- H at 1.
    rewrite <- Z.land_assoc. change (Z.ones 8) with 255. rewrite Hm. exact H. }
  rewrite <- E. apply Z.mod_pos_bound. lia.
Qed.

Lemma forall_u8 (P : Z -> bool) :
  forallb P (map Z.of_nat (seq 0 256)) = true ->
  forall x, 0 <= x < 256 -> P x = true.
Proof.
  intros H x Hx. rewrite forallb_forall in H. apply H.
  apply in_map_iff. exists (Z.to_nat x). split; [lia|].
  apply in_seq. lia.
Qed.

(** Phase 1 passes only commands whose five sources lie within what the
    board supports, and leaves those commands as they are. *)
Lemma cmdtest_step1_ok (dev : comedi_device) (c : comedi_cmd) :
  fst (pci9118_ai_cmdtest_step1 dev c) = 0 ->
  let valid s f := Z.land s f = s /\ s <> 0 in
  snd (pci9118_ai_cmdtest_step1 dev c) = c
  /\ valid (start_src c) (Z.lor (Z.lor TRIG_NOW TRIG_EXT) TRIG_INT)
  /\ valid (scan_begin_src c)
       (if nz (master (private dev))
        then Z.lor TRIG_FOLLOW (Z.lor TRIG_TIMER TRIG_EXT) else TRIG_FOLLOW)
  /\ valid (convert_src c)
       (if nz (master (private dev))
        then Z.lor (Z.lor TRIG_TIMER TRIG_EXT) TRIG_NOW
        else Z.lor TRIG_TIMER TRIG_EXT)
  /\ valid (scan_end_src c) TRIG_COUNT
  /\ valid (stop_src c) (Z.lor (Z.lor TRIG_COUNT TRIG_NONE) TRIG_EXT).
Proof.
  unfold pci9118_ai_cmdtest_step1. cbv zeta.
  destruct c. record_simpl.
  set (r1 := cfc_check_trigger_src start_src0 _).
  set (r2 := cfc_check_trigger_src scan_begin_src0 _).
  set (r3 := cfc_check_trigger_src convert_src0 _).
  set (r4 := cfc_check_trigger_src scan_end_src0 _).
  set (r5 := cfc_check_trigger_src stop_src0 _).
  cbn [fst snd]. intros H.
  apply Z.lor_eq_0_iff in H. destruct H as [H H5].
  apply Z.lor_eq_0_iff in H. destruct H as [H H4].
  apply Z.lor_eq_0_iff in H. destruct H as [H H3].
  apply Z.lor_eq_0_iff in H. destruct H as [H H2].
  apply Z.lor_eq_0_iff in H. destruct H as [_ H1].
  destruct (cfc_check_trigger_src_ok _ _ H1) as (E1 & ? & ?).
  fold r1 in E1. rewrite E1.
  destruct (cfc_check_trigger_src_ok _ _ H2) as (E2 & ? & ?).
  fold r2 in E2. rewrite E2.
  destruct (cfc_check_trigger_src_ok _ _ H3) as (E3 & ? & ?).
  fold r3 in E3. rewrite E3.
  destruct (cfc_check_trigger_src_ok _ _ H4) as (E4 & ? & ?).
  fold r4 in E4. rewrite E4.
  destruct (cfc_check_trigger_src_ok _ _ H5) as (E5 & ? & ?).
  fold r5 in E5. rewrite E5.
  repeat split; assumption.
Qed.

Lemma source_pair_tests_ok (m : bool) (sbs cs : Z) :
  0 <= sbs < 256 -> 0 <= cs < 256 ->
  source_pair_tests m sbs cs = true -> source_pair_ok m sbs cs = true.
Proof.
  intros Hs Hc H.
  assert (E : forallb
                (fun s =>
                   forallb
                     (fun c =>
                        implb (source_pair_tests true s c)
                              (source_pair_ok true s c)
                        && implb (source_pair_tests false s c)
                                 (source_pair_ok false s c))
                     (map Z.of_nat (seq 0 256)))
                (map Z.of_nat (seq 0 256)) = true) by (vm_compute; reflexivity).
  pose proof (forall_u8 _ E sbs Hs) as E1. cbv beta in E1.
  pose proof (forall_u8 _ E1 cs Hc) as E2. cbv beta in E2.
  apply andb_true_iff in E2. destruct E2 as [Et Ef].
  destruct m; [rewrite H in Et|rewrite H in Ef]; assumption.
Qed.

Lemma lor_err_nonzero (err : Z) : Z.lor err (- EINVAL) <> 0.
Proof.
  intros H. apply Z.lor_eq_0_iff in H. destruct H as [_ H]. discriminate H.
Qed.

(** Phase 2 passes only commands with unique sources that fit
    together. *)
Lemma cmdtest_step2_ok (c : comedi_cmd) :
  pci9118_ai_cmdtest_step2 c = 0 ->
  cfc_check_trigger_is_unique (scan_begin_src c) = 0
  /\ cfc_check_trigger_is_unique (convert_src c) = 0
  /\ nz (Z.land (scan_begin_src c) (Z.lor TRIG_TIMER TRIG_EXT))
     && negb (nz (Z.land (convert_src c) (Z.lor TRIG_TIMER TRIG_NOW)))
     = false
  /\ (scan_begin_src c =? TRIG_FOLLOW)
     && negb (nz (Z.land (convert_src c) (Z.lor TRIG_TIMER TRIG_EXT)))
     = false.
Proof.
  unfold pci9118_ai_cmdtest_step2. cbv zeta.
  repeat match goal with
         | |- context [if ?b then Z.lor ?e (- EINVAL) else ?e] =>
             destruct b eqn:?
         end;
    intros H; try (exfalso; exact (lor_err_nonzero _ H)).
  apply Z.lor_eq_0_iff in H. destruct H as [H _].
  apply Z.lor_eq_0_iff in H. destruct H as [H H3].
  apply Z.lor_eq_0_iff in H. destruct H as [_ H2].
  auto.
Qed.

(** ** The rewrite of a timed scan of one timed conversion *)

Lemma cfc_check_trigger_src_pass (src flags : Z) :
  Z.land src flags = src -> src <> 0 ->
  cfc_check_trigger_src src flags = (0, src).
Proof.
  intros H H0. unfold cfc_check_trigger_src, TRIG_INVALID. cbv zeta.
  rewrite H.
  destruct (Z.eqb_spec src 0) as [E|_]; [contradiction|].
  rewrite Z.eqb_refl. reflexivity.
Qed.

(** Phase 1 lets every command through whose five sources lie within
    what the board supports. *)
Lemma cmdtest_step1_pass (dev : comedi_device) (c : comedi_cmd) :
  let valid s f := Z.land s f = s /\ s <> 0 in
  valid (start_src c) (Z.lor (Z.lor TRIG_NOW TRIG_EXT) TRIG_INT) ->
  valid (scan_begin_src c)
    (if nz (master (private dev))
     then Z.lor TRIG_FOLLOW (Z.lor TRIG_TIMER TRIG_EXT) else TRIG_FOLLOW) ->
  valid (convert_src c)
    (if nz (master (private dev))
     then Z.lor (Z.lor TRIG_TIMER TRIG_EXT) TRIG_NOW
     else Z.lor TRIG_TIMER TRIG_EXT) ->
  valid (scan_end_src c) TRIG_COUNT ->
  valid (stop_src c) (Z.lor (Z.lor TRIG_COUNT TRIG_NONE) TRIG_EXT) ->
  pci9118_ai_cmdtest_step1 dev c = (0, c).
Proof.
  cbv zeta. intros [A1 B1] [A2 B2] [A3 B3] [A4 B4] [A5 B5].
  unfold pci9118_ai_cmdtest_step1. cbv zeta.
  destruct c. record_simpl. record_simpl_in A1. record_simpl_in A2.
  record_simpl_in A3. record_simpl_in A4. record_simpl_in A5.
  record_simpl_in B1. record_simpl_in B2. record_simpl_in B3.
  record_simpl_in B4. record_simpl_in B5.
  rewrite (cfc_check_trigger_src_pass _ _ A1 B1).
  rewrite (cfc_check_trigger_src_pass _ _ A4 B4).
  rewrite (cfc_check_trigger_src_pass _ _ A5 B5).
  destruct (nz _).
  - rewrite (cfc_check_trigger_src_pass _ _ A2 B2).
    rewrite (cfc_check_trigger_src_pass _ _ A3 B3). reflexivity.
  - rewrite (cfc_check_trigger_src_pass _ _ A2 B2).
    rewrite (cfc_check_trigger_src_pass _ _ A3 B3). reflexivity.
Qed.

(** The rest of the negotiation once phases 1 and 2 are passed. *)
Lemma cmdtest_after_step2 (dev : comedi_device) (c : comedi_cmd) :
  pci9118_ai_cmdtest_step1 dev c = (0, c) ->
  pci9118_ai_cmdtest_step2 c = 0 ->
  pci9118_ai_cmdtest dev c
  = let c3 := snd (pci9118_ai_cmdtest_step3 dev c) in
    if nz (fst (pci9118_ai_cmdtest_step3 dev c)) then (3, c3)
    else
      let c4 := snd (pci9118_ai_cmdtest_step4 dev c3) in
      if nz (fst (pci9118_ai_cmdtest_step4 dev c3)) then (4, c4)
      else
        match chanlist c4 with
        | Some l =>
            if negb (nz (check_channel_list dev (s32 (chanlist_len c4)) l
                           0 0))
            then (5, c4) else (0, c4)
        | None => (0, c4)
        end.
Proof.
  intros H1 H2. unfold pci9118_ai_cmdtest. rewrite H1, H2.
  change (nz 0) with false. cbv iota zeta.
  destruct (pci9118_ai_cmdtest_step3 dev c) as [e3 c3]. cbn [fst snd].
  destruct (nz e3); [reflexivity|].
  destruct (pci9118_ai_cmdtest_step4 dev c3) as [e4 c4]. cbn [fst snd].
  reflexivity.
Qed.

(** What a verdict other than 1 or 2 says about phases 1 and 2. *)
Lemma cmdtest_past_step2 (dev : comedi_device) (c : comedi_cmd) :
  fst (pci9118_ai_cmdtest dev c) <> 1 ->
  fst (pci9118_ai_cmdtest dev c) <> 2 ->
  fst (pci9118_ai_cmdtest_step1 dev c) = 0
  /\ pci9118_ai_cmdtest_step2 c = 0.
Proof.
  unfold pci9118_ai_cmdtest.
  pose proof (cmdtest_step1_ok dev c) as S1.
  destruct (pci9118_ai_cmdtest_step1 dev c) as [e1 c1].
  cbn [fst snd] in *.
  destruct (nz e1) eqn:E1; [cbn [fst]; congruence|].
  apply nz_false in E1. intros _.
  destruct (S1 E1) as [-> _].
  destruct (nz (pci9118_ai_cmdtest_step2 c)) eqn:E2; [cbn [fst]; congruence|].
  apply nz_false in E2. auto.
Qed.


Lemma cfc_check_trigger_arg_is_snd (arg val : Z) :
  snd (cfc_check_trigger_arg_is arg val) = val.
Proof.
  unfold cfc_check_trigger_arg_is.
  destruct (Z.eqb_spec arg val) as [->|]; reflexivity.
Qed.

Lemma cfc_check_trigger_arg_is_ok (arg val : Z) :
  fst (cfc_check_trigger_arg_is arg val) = 0 <-> arg = val.
Proof.
  unfold cfc_check_trigger_arg_is, EINVAL.
  destruct (Z.eqb_spec arg val); cbn [negb fst]; split; intros H;
    try assumption; try reflexivity; try discriminate H; contradiction.
Qed.

Lemma cfc_check_trigger_arg_min_ok (arg val : Z) :
  fst (cfc_check_trigger_arg_min arg val) = 0 ->
  val <= arg /\ snd (cfc_check_trigger_arg_min arg val) = arg.
Proof.
  unfold cfc_check_trigger_arg_min, EINVAL.
  destruct (Z.ltb_spec arg val); cbn [fst snd]; [discriminate|auto].
Qed.


Lemma cfc_check_trigger_arg_is_keep (arg val : Z) :
  fst (cfc_check_trigger_arg_is arg val) = 0 ->
  snd (cfc_check_trigger_arg_is arg val) = arg.
Proof.
  intros H. rewrite cfc_check_trigger_arg_is_snd.
  symmetry. apply cfc_check_trigger_arg_is_ok. exact H.
Qed.



(** ** Externally triggered scans of back-to-back conversions *)

(** C3: on a bus-master session, the command whose scans are started by
    the external trigger and whose conversions follow back to back passes
    the negotiation unchanged (given that the pacer search leaves its
    3000 ns period as it is), although the mode table has no entry for
    its sources; started, it is given no mode and the transfer set-up
    gives up on its mode-number complaint: the call returns -EIO and the
    mode stays 0. *)
Theorem ai_cmd_ext_scan_immediate_convert_unserved (d1 d2 : Z) :
  i8253_cascade_ns_to_timer I8254_OSC_BASE_4MHZ 0 0 3000 0 = (d1, d2, 3000) ->
  pci9118_ai_cmdtest (session_dma pci9118dg) cmd_ext_now = (0, cmd_ext_now)
  /\ mode_of_triggers (scan_begin_src cmd_ext_now) (convert_src cmd_ext_now)
     = None
  /\ fst (pci9118_ai_cmd (with_cmd cmd_ext_now (session_dma pci9118dg)))
     = - EIO
  /\ ai_do (private
              (snd (pci9118_ai_cmd
                      (with_cmd cmd_ext_now (session_dma pci9118dg)))))
     = 0
  /\ hd_error
       (klog (snd (pci9118_ai_cmd
                     (with_cmd cmd_ext_now (session_dma pci9118dg)))))
     = Some "pci9118_ai_docmd_dma mode number bug!"%string.
Proof.
  intros H. change I8254_OSC_BASE_4MHZ with 250 in H.
  split.
  { assert (Q1 : pci9118_ai_cmdtest_step1 (session_dma pci9118dg) cmd_ext_now
                 = (0, cmd_ext_now)) by (lazy; reflexivity).
    assert (Q2 : pci9118_ai_cmdtest_step2 cmd_ext_now = 0)
      by (lazy; reflexivity).
    assert (Q3 : pci9118_ai_cmdtest_step3 (session_dma pci9118dg) cmd_ext_now
                 = (0, cmd_ext_now)) by (lazy; reflexivity).
    assert (Q4 : pci9118_ai_cmdtest_step4 (session_dma pci9118dg) cmd_ext_now
                 = (0, cmd_ext_now)).
    { lazy -[Z.lor nz fst snd cfc_check_trigger_arg_is
             cfc_check_trigger_arg_min].
      rewrite H. lazy. reflexivity. }
    rewrite (cmdtest_after_step2 _ _ Q1 Q2). cbv zeta.
    rewrite Q3. cbn [fst snd]. change (nz 0) with false. cbv iota.
    rewrite Q4. cbn [fst snd]. change (nz 0) with false. cbv iota.
    lazy. reflexivity. }
  split; [reflexivity|].
  split; [lazy; reflexivity|].
  split; lazy; reflexivity.
Qed.

(** * Further properties of the modelled routines *)

(** ** Channel-list validation, exactly *)

(** X1. [check_channel_list] answers 0 or 1, and it answers 0 exactly
    for the empty list, for a padded list longer than the scan queue,
    for a list that mixes differential and single-ended entries or
    bipolar and unipolar ranges, and, without an external multiplexer,
    for a list with a differential entry after the first on a channel
    the board has no differential input for. *)
Theorem check_channel_list_rejection (dev : comedi_device) (l : list Z)
    (frontadd backadd : Z) :
  (check_channel_list dev (Z.of_nat (length l)) l frontadd backadd = 0
   \/ check_channel_list dev (Z.of_nat (length l)) l frontadd backadd = 1)
  /\ (check_channel_list dev (Z.of_nat (length l)) l frontadd backadd = 0
      <-> l = [] \/ too_long dev l frontadd backadd
          \/ mixes_reference l \/ mixes_polarity l
          \/ diff_out_of_range_after_first dev l).
Proof.
  clear_unused.
  split; [|apply check_channel_list_rejects_iff].
  unfold check_channel_list.
  destruct (check_channel_list_verdict _ _ _ _ _); auto.
Qed.

(** ** The acquisition mode *)

(** X2. When [pci9118_ai_cmd] returns 0, the padding cursor is at 0 and
    the mode is the one the decision table gives for the scan-begin and
    convert sources of the command; for sources the table does not list
    the mode is left as it was. *)
Theorem ai_cmd_mode_table (dev : comedi_device) :
  let sbs := scan_begin_src (dev_cmd dev) in
  let cs := convert_src (dev_cmd dev) in
  let r := pci9118_ai_cmd dev in
  fst r = 0 ->
  ai_act_dmapos (private (snd r)) = 0
  /\ ai_do (private (snd r))
     = match mode_of_triggers sbs cs with
       | Some m => m
       | None => ai_do (private dev)
       end.
Proof.
  exact (proj2 (ai_cmd_result dev)).
Qed.

(** X3. For a scan length whose size in bytes is not 0 in 32 bits (the
    DMA set-up divides by it), the DMA start-up serves the modes 1 to 4
    and answers -EIO for any other mode number; it changes neither the
    mode, the DMA flag, the padding cursor nor the trigger sources of
    the command. *)
Theorem ai_docmd_dma_modes (dev : comedi_device) :
  u32 (Z.shiftl (ai_n_realscanlen (private dev)) 1) <> 0 ->
  let m := ai_do (private dev) in
  run_view (snd (pci9118_ai_docmd_dma dev)) = run_view dev
  /\ fst (pci9118_ai_docmd_dma dev)
     = if (m =? 1) || (m =? 2) || (m =? 3) || (m =? 4) then 0 else - EIO.
Proof.
  intros _. exact (docmd_dma_result dev).
Qed.

(** X4. The interrupt-per-sample start-up serves the modes 1 and 3
    only: the modes 2 and 4 need bus mastering and are answered with
    -EIO, as is any other mode number. *)
Theorem ai_docmd_sampl_modes (dev : comedi_device) :
  let m := ai_do (private dev) in
  run_view (snd (pci9118_ai_docmd_sampl dev)) = run_view dev
  /\ fst (pci9118_ai_docmd_sampl dev)
     = if (m =? 1) || (m =? 3) then 0 else - EIO.
Proof.
  exact (docmd_sampl_result dev).
Qed.

(** ** Error-status decoding on the bits that arrive *)

Lemma u32_land_ones (x : Z) : u32 x = Z.land x (Z.ones 32).
Proof.
  unfold u32. symmetry. apply Z.land_ones. lia.
Qed.

Lemma u8_land_ones (x : Z) : u8 x = Z.land x (Z.ones 8).
Proof.
  unfold u8. symmetry. apply Z.land_ones. lia.
Qed.

Lemma fits32_land (x : Z) :
  0 <= x < 2 ^ 32 -> Z.land x (Z.ones 32) = x.
Proof.
  intros H. rewrite Z.land_ones by lia. apply Z.mod_small. exact H.
Qed.

Lemma land_single_bit (m k : Z) :
  0 <= k -> Z.land m (2 ^ k) = if Z.testbit m k then 2 ^ k else 0.
Proof.
  intros Hk. apply Z.bits_inj'. intros n Hn.
  rewrite Z.land_spec, Z.pow2_bits_eqb by exact Hk.
  destruct (Z.eqb_spec k n) as [->|Hne].
  - destruct (Z.testbit m n).
    + rewrite Z.pow2_bits_true by exact Hn. reflexivity.
    + rewrite Z.bits_0. reflexivity.
  - rewrite andb_false_r.
    destruct (Z.testbit m k).
    + rewrite Z.pow2_bits_false by (intros ->; contradiction). reflexivity.
    + rewrite Z.bits_0. reflexivity.
Qed.

(** One step of the decoder on the warned mask [x], for the status bit
    [2 ^ k]. *)
Lemma warned_step (m x k : Z) :
  0 <= k -> Z.land x (Z.ones 32) = x ->
  (if nz (Z.land m (2 ^ k)) then u32 (clear_bits x (2 ^ k)) else x)
  = Z.land x (Z.lnot (Z.land m (2 ^ k))).
Proof.
  intros Hk Hx. rewrite (land_single_bit m k Hk).
  destruct (Z.testbit m k).
  - assert (N : nz (2 ^ k) = true).
    { apply nz_true. pose proof (Z.pow_pos_nonneg 2 k). lia. }
    rewrite N. rewrite u32_land_ones. unfold clear_bits.
    rewrite <- Z.land_assoc, (Z.land_comm (Z.lnot _)), Z.land_assoc, Hx.
    reflexivity.
  - change (nz 0) with false. cbv iota.
    change (Z.lnot 0) with (-1). symmetry. apply Z.land_m1_r.
Qed.

Lemma u8_no_bit8 (x : Z) : Z.land (u8 x) 0x100 = 0.
Proof.
  rewrite u8_land_ones, <- Z.land_assoc. change (Z.land (Z.ones 8) 256) with 0.
  apply Z.land_0_r.
Qed.

Lemma warned_chain (m x : Z) :
  Z.land x (Z.ones 32) = x ->
  let x1 := if nz (Z.land m 8) then u32 (clear_bits x 8) else x in
  let x2 := if nz (Z.land m 4) then u32 (clear_bits x1 4) else x1 in
  let x3 := if nz (Z.land m 2) then u32 (clear_bits x2 2) else x2 in
  x3 = Z.land x (Z.lnot (Z.land m 0x00e))
  /\ Z.land x3 (Z.ones 32) = x3.
Proof.
  intros Hx x1 x2 x3.
  assert (F : forall y z, Z.land y (Z.ones 32) = y ->
                          Z.land (Z.land y z) (Z.ones 32) = Z.land y z).
  { intros y z Hy.
    rewrite <- Z.land_assoc, (Z.land_comm z), Z.land_assoc, Hy.
    reflexivity. }
  assert (E1 : x1 = Z.land x (Z.lnot (Z.land m 8))).
  { exact (warned_step m x 3 ltac:(lia) Hx). }
  assert (H1 : Z.land x1 (Z.ones 32) = x1) by (rewrite E1; apply F, Hx).
  assert (E2 : x2 = Z.land x1 (Z.lnot (Z.land m 4))).
  { exact (warned_step m x1 2 ltac:(lia) H1). }
  assert (H2 : Z.land x2 (Z.ones 32) = x2) by (rewrite E2; apply F, H1).
  assert (E3 : x3 = Z.land x2 (Z.lnot (Z.land m 2))).
  { exact (warned_step m x2 1 ltac:(lia) H2). }
  split; [|rewrite E3; apply F, H2].
  rewrite E3, E2, E1, <- !Z.land_assoc, <- !Z.lnot_lor.
  rewrite <- !Z.land_lor_distr_r. reflexivity.
Qed.

(** X5. The decoder works on the low eight bits [m] of the status word.
    It answers 1 exactly when [m] meets the hard-error mask, and 0
    otherwise.  Whatever the answer, the bits of [m] among burst
    overrun, overspeed and overrun are cleared from the warned mask and
    no other bit of that mask changes.  When the answer is 0 nothing
    else changes in the session and no port is written; when it is 1
    the error and end-of-acquisition events are raised and handed to the
    event dispatcher. *)
Theorem decode_error_status_verdict (dev : comedi_device) (status : Z) :
  0 <= ai_maskerr (private dev) < 2 ^ 32 ->
  let m := u8 status in
  let hard := nz (Z.land m (ai_maskharderr (private dev))) in
  let p' :=
    set_ai_maskerr
      (Z.land (ai_maskerr (private dev)) (Z.lnot (Z.land m 0x00e)))
      (private dev) in
  let r := pci9118_decode_error_status dev status in
  fst r = (if hard then 1 else 0)
  /\ (hard = false ->
      private (snd r) = p' /\ read_subdev (snd r) = read_subdev dev
      /\ io_log (snd r) = io_log dev)
  /\ (hard = true ->
      exists d,
        snd r = cfc_handle_events d
        /\ private d = p'
        /\ events (dev_async d)
           = Z.lor (events (dev_async dev))
                   (Z.lor COMEDI_CB_ERROR COMEDI_CB_EOA)
        /\ io_log d = io_log dev).
Proof.
  intros Hx m hard p' r. subst r hard p' m.
  unfold pci9118_decode_error_status. cbv zeta.
  rewrite u8_no_bit8. change (nz 0) with false. cbv iota.
  set (m := u8 status).
  destruct (warned_chain m (ai_maskerr (private dev)) (fits32_land _ Hx))
    as [W _].
  cbv zeta in W. rewrite <- W. clear W.
  destruct dev as [b p s i l k]. destruct p.
  cbn [private ai_maskerr ai_maskharderr] in *.
  destruct (nz (Z.land m 8)), (nz (Z.land m 4)), (nz (Z.land m 2));
    record_simpl;
    (destruct (nz (Z.land m ai_maskharderr0));
     (split; [reflexivity|]);
     (split;
      [intros E; first [discriminate E | repeat split]
      |intros E;
       first [discriminate E
             | eexists; split; [reflexivity|]; repeat split]])).
Qed.

(** X6. Overspeed is a warning: whatever error bits the configuration
    asked to ignore at attach time, a status with the overspeed bit
    alone logs the warning and does not end the run. *)
Theorem decode_overspeed_is_a_warning (dev : comedi_device)
    (hw_err_mask : Z) :
  ai_maskharderr (private dev) = attach_maskharderr hw_err_mask ->
  fst (pci9118_decode_error_status dev AdStatus_ADOS) = 0
  /\ klog (snd (pci9118_decode_error_status dev AdStatus_ADOS))
     = "A/D Over Speed Status (Warning!)"%string :: klog dev
  /\ events (dev_async (snd (pci9118_decode_error_status dev AdStatus_ADOS)))
     = events (dev_async dev).
Proof.
  intros H.
  assert (N : Z.land 4 (ai_maskharderr (private dev)) = 0).
  { rewrite H. unfold attach_maskharderr. cbv zeta.
    destruct (nz hw_err_mask); [|reflexivity].
    rewrite u32_land_ones. unfold clear_bits.
    rewrite !Z.land_assoc. change (Z.land 4 266) with 0.
    rewrite !Z.land_0_l. reflexivity. }
  unfold pci9118_decode_error_status. cbv zeta.
  change (u8 AdStatus_ADOS) with 4.
  change (nz (Z.land 4 256)) with false.
  change (nz (Z.land 4 8)) with false.
  change (nz (Z.land 4 4)) with true.
  change (nz (Z.land 4 2)) with false. cbv iota.
  destruct dev as [b p s i l k]. destruct p.
  cbn [private ai_maskharderr] in N. record_simpl.
  rewrite N. change (nz 0) with false. cbv iota.
  repeat split.
Qed.

(** ** External-trigger arbitration *)

Lemma u8_testbit (x n : Z) :
  Z.testbit (u8 x) n = Z.testbit x n && (n <? 8) && (0 <=? n).
Proof.
  rewrite u8_land_ones.
  destruct (Z.leb_spec 0 n) as [Hn|Hn].
  - rewrite Z.land_spec. rewrite andb_true_r.
    destruct (Z.ltb_spec n 8).
    + rewrite Z.ones_spec_low by lia. reflexivity.
    + rewrite Z.ones_spec_high by lia. reflexivity.
  - rewrite Z.testbit_neg_r by lia. rewrite andb_false_r. reflexivity.
Qed.

Lemma land_bit0 (x : Z) :
  Z.land x 1 = if Z.testbit x 0 then 1 else 0.
Proof.
  exact (land_single_bit x 0 ltac:(lia)).
Qed.

(** X7. The external trigger is shared by up to four users.  The source
    is an [unsigned char]: the routines see the low eight bits [s] of
    what the caller passes.  A request with [s] beyond 3 is refused and
    changes nothing.  Otherwise adding a user records it and enables the
    digital-trigger interrupt source; removing a user forgets it, and
    disables the source exactly when no user remains.  So the rule that
    the source is enabled if and only if the user mask is not empty is
    kept by both routines. *)
Theorem exttrg_arbitration (dev : comedi_device) (source : Z) :
  let linked (d : comedi_device) :=
    exttrg_users (private d) = 0
    <-> Z.land (IntControlReg (private d)) Int_DTrg = 0 in
  let s := u8 source in
  let a := pci9118_exttrg_add dev source in
  let d := pci9118_exttrg_del dev source in
  (3 < s -> a = (-1, dev) /\ d = (-1, dev))
  /\ (s <= 3 ->
      fst a = 0 /\ fst d = 0
      /\ Z.testbit (exttrg_users (private (snd a))) s = true
      /\ Z.testbit (exttrg_users (private (snd d))) s = false
      /\ (forall n, n <> s ->
          Z.testbit (exttrg_users (private (snd a))) n
          = Z.testbit (u8 (exttrg_users (private dev))) n
          /\ Z.testbit (exttrg_users (private (snd d))) n
             = Z.testbit (u8 (exttrg_users (private dev))) n)
      /\ linked (snd a)
      /\ (linked dev -> linked (snd d))).
Proof.
  clear_unused.
  cbv zeta. unfold pci9118_exttrg_add, pci9118_exttrg_del. cbv zeta.
  assert (R : 0 <= u8 source < 256) by (unfold u8; apply Z.mod_pos_bound; lia).
  revert R. generalize (u8 source). clear source. intros source R.
  split.
  { intros H. apply Z.gtb_lt in H. rewrite H. split; reflexivity. }
  intros Hs3.
  assert (Hs : 0 <= source <= 3) by lia.
  assert (G : (source >? 3) = false).
  { destruct (source >? 3) eqn:E; [apply Z.gtb_lt in E; lia|reflexivity]. }
  rewrite G. cbv zeta.
  rewrite Z.shiftl_1_l.
  destruct dev as [b p s i l k]. destruct p. record_simpl.
  set (bit := 2 ^ source).
  assert (Tb : forall n, 0 <= n ->
                         Z.testbit bit n = (source =? n)).
  { intros n Hn. subst bit. apply Z.pow2_bits_eqb. lia. }
  assert (A1 : Z.testbit (u8 (Z.lor exttrg_users0 bit)) source = true).
  { rewrite u8_testbit, Z.lor_spec, Tb, Z.eqb_refl by lia.
    rewrite orb_true_r.
    replace (source <? 8) with true by (symmetry; apply Z.ltb_lt; lia).
    replace (0 <=? source) with true by (symmetry; apply Z.leb_le; lia).
    reflexivity. }
  assert (A2 : Z.testbit (u8 (clear_bits exttrg_users0 bit)) source = false).
  { rewrite u8_testbit. unfold clear_bits.
    rewrite Z.land_spec, Z.lnot_spec, Tb, Z.eqb_refl by lia.
    cbn [negb]. rewrite andb_false_r. reflexivity. }
  assert (A3 : forall n, n <> source ->
             Z.testbit (u8 (Z.lor exttrg_users0 bit)) n
             = Z.testbit (u8 exttrg_users0) n
             /\ Z.testbit (u8 (clear_bits exttrg_users0 bit)) n
                = Z.testbit (u8 exttrg_users0) n).
  { intros n Hn. rewrite !u8_testbit. unfold clear_bits.
    destruct (Z.leb_spec 0 n) as [H0|H0];
      [|rewrite !andb_false_r; split; reflexivity].
    rewrite Z.lor_spec, Z.land_spec, Z.lnot_spec, Tb by lia.
    replace (source =? n) with false
      by (symmetry; apply Z.eqb_neq; congruence).
    cbn [negb]. rewrite ?orb_false_r, ?andb_true_r. split; reflexivity. }
  assert (A4 : Z.land (u8 (Z.lor IntControlReg0 Int_DTrg)) Int_DTrg
               = Int_DTrg).
  { unfold Int_DTrg. rewrite land_bit0, u8_testbit, Z.lor_spec.
    change (Z.testbit 1 0) with true. rewrite orb_true_r.
    cbn [andb]. reflexivity. }
  assert (A5 : Z.land (u8 (clear_bits IntControlReg0 Int_DTrg)) Int_DTrg = 0).
  { unfold Int_DTrg, clear_bits.
    rewrite land_bit0, u8_testbit, Z.land_spec, Z.lnot_spec by lia.
    change (Z.testbit 1 0) with true. cbn [negb].
    rewrite andb_false_r. cbn [andb]. reflexivity. }
  assert (L1 : exttrg_users0 = 0 ->
               u8 (clear_bits exttrg_users0 bit) = 0).
  { intros ->. unfold clear_bits. rewrite Z.land_0_l. reflexivity. }
  destruct (nz (u8 (clear_bits exttrg_users0 bit))) eqn:N; cbn [negb];
    [|destruct (nz (u8 (clear_bits IntControlReg0 Int_DTrg))); cbn [negb]];
    cbn [fst snd]; record_simpl;
    (split; [reflexivity|]); (split; [reflexivity|]);
    (split; [exact A1|]); (split; [exact A2|]);
    (split; [exact A3|]);
    (split;
     [rewrite A4; split; intros H;
      [rewrite H, Z.bits_0 in A1; discriminate A1|discriminate H]|]);
    intros L.
  - apply nz_true in N. split; intros H; [contradiction|].
    exfalso. apply L in H. apply N, L1, H.
  - apply nz_false in N. rewrite A5. split; intros _; [reflexivity|exact N].
  - apply nz_false in N. rewrite A5. split; intros _; [reflexivity|exact N].
Qed.

(** ** Loading the pacer *)

Lemma two_bytes (d : Z) :
  Z.land d 0xff + 256 * Z.land (Z.shiftr d 8) 0xff = u16 d.
Proof.
  change 0xff with (Z.ones 8). rewrite !Z.land_ones by lia.
  rewrite Z.shiftr_div_pow2 by lia. unfold u16.
  change (2 ^ 16) with (2 ^ 8 * 2 ^ 8).
  rewrite Z.rem_mul_r by lia. reflexivity.
Qed.

(** X8. [pci9118_start_pacer] touches nothing but ports.  It always
    stops both counters first (two control words); in the modes 1, 2
    and 4, and in no other, it then loads counter 2 and counter 1, each
    with the low byte before the high byte, and the two bytes are the
    low sixteen bits of the divisor kept in the session. *)
Theorem start_pacer_writes (dev : comedi_device) (mode : Z) :
  let d := pci9118_start_pacer dev mode in
  let stop :=
    [(CardReg PCI9118_CNTCTRL, 0xb4); (CardReg PCI9118_CNTCTRL, 0x74)] in
  private d = private dev /\ read_subdev d = read_subdev dev
  /\ klog d = klog dev
  /\ (if (mode =? 1) || (mode =? 2) || (mode =? 4) then
        exists l1 h1 l2 h2,
          io_log d
          = [(CardReg PCI9118_CNT1, h1); (CardReg PCI9118_CNT1, l1);
             (CardReg PCI9118_CNT2, h2); (CardReg PCI9118_CNT2, l2)]
            ++ stop ++ io_log dev
          /\ l1 + 256 * h1 = u16 (ai_divisor1 (private dev))
          /\ l2 + 256 * h2 = u16 (ai_divisor2 (private dev))
      else io_log d = stop ++ io_log dev).
Proof.
  clear_unused.
  cbv zeta. unfold pci9118_start_pacer. cbv zeta.
  destruct ((mode =? 1) || (mode =? 2) || (mode =? 4));
    (split; [reflexivity|]); (split; [reflexivity|]);
    (split; [reflexivity|]).
  - eexists _, _, _, _. split; [reflexivity|].
    split; apply two_bytes.
  - reflexivity.
Qed.

(** ** Loading the scan queue *)

Lemma fold_outl_log {A} (g : A -> Z) (p : ioport) (l : list A) :
  forall dev,
    io_log (fold_left (fun d i => outl (g i) p d) l dev)
    = rev (map (fun i => (p, g i)) l) ++ io_log dev.
Proof.
  clear_unused.
  induction l as [|x l IH]; intros dev; [reflexivity|].
  cbn [fold_left map rev]. rewrite IH, <- app_assoc. reflexivity.
Qed.

Lemma fold_outl_const_log {A} (v : Z) (p : ioport) (l : list A) :
  forall dev,
    io_log (fold_left (fun d (_ : A) => outl v p d) l dev)
    = repeat (p, v) (length l) ++ io_log dev.
Proof.
  clear_unused.
  induction l as [|x l IH]; intros dev; [reflexivity|].
  cbn [fold_left length]. rewrite IH.
  change (io_log (outl v p dev)) with ((p, v) :: io_log dev).
  change (repeat (p, v) (S (length l)))
    with ((p, v) :: repeat (p, v) (length l)).
  rewrite (repeat_cons (length l) (p, v)), <- app_assoc. reflexivity.
Qed.

Lemma fold_front_log {A} (e h : Z) (p : ioport) (l : list A) :
  forall dev ssh,
    let r :=
      fold_left
        (fun (st : comedi_device * Z) (_ : A) =>
           (outl (Z.lor e (snd st)) p (fst st), h)) l (dev, ssh) in
    io_log (fst r)
    = match l with
      | [] => []
      | _ :: l' => repeat (p, Z.lor e h) (length l') ++ [(p, Z.lor e ssh)]
      end ++ io_log dev
    /\ snd r = match l with [] => ssh | _ => h end.
Proof.
  clear_unused.
  induction l as [|x l IH]; intros dev ssh; [split; reflexivity|].
  cbn [fold_left fst snd].
  destruct (IH (outl (Z.lor e ssh) p dev) h) as [I1 I2].
  cbv zeta in I1, I2. rewrite I1, I2. split.
  - destruct l as [|y l]; [reflexivity|].
    cbn [length].
    change (repeat (p, Z.lor e h) (S (length l)))
      with ((p, Z.lor e h) :: repeat (p, Z.lor e h) (length l)).
    rewrite (repeat_cons (length l) (p, Z.lor e h)), <- !app_assoc.
    reflexivity.
  - destruct l; reflexivity.
Qed.

Lemma map_nth_seq {B} (f : Z -> B) (l : list Z) :
  map (fun i => f (nth i l 0)) (seq 0 (length l)) = map f l.
Proof.
  clear_unused.
  induction l as [|x l IH]; [reflexivity|].
  cbn [length seq map nth]. f_equal.
  rewrite <- seq_shift, map_map. exact IH.
Qed.

Lemma gain_words_app (l1 l2 : list (ioport * Z)) :
  gain_words (l1 ++ l2) = gain_words l2 ++ gain_words l1.
Proof.
  clear_unused.
  unfold gain_words. rewrite List.filter_app, map_app, rev_app_distr.
  reflexivity.
Qed.

Lemma gain_words_gain (vs : list Z) :
  gain_words (map (fun v => (CardReg PCI9118_GAIN, v)) vs) = rev vs.
Proof.
  clear_unused.
  unfold gain_words. f_equal.
  induction vs as [|v vs IH]; [reflexivity|].
  cbn [map List.filter fst snd]. rewrite Z.eqb_refl. cbn [map snd].
  f_equal. exact IH.
Qed.

Lemma repeat_map {A B} (f : A -> B) (x : A) (n : nat) :
  repeat (f x) n = map f (repeat x n).
Proof.
  clear_unused.
  induction n as [|n IH]; [reflexivity|]. cbn [repeat map]. f_equal. exact IH.
Qed.

Lemma rev_repeat {A} (x : A) (n : nat) : rev (repeat x n) = repeat x n.
Proof.
  clear_unused.
  induction n as [|n IH]; [reflexivity|].
  cbn [repeat rev]. rewrite IH. symmetry. apply repeat_cons.
Qed.

(** X9. [setup_channel_list] always answers 1 and loads the scan queue
    with the padded scan: the front padding, the entries of the list in
    their order, the back padding; as many words as the padded scan has
    samples, which is the scan length the padding removal counts with. *)
Theorem setup_channel_list_queue (dev : comedi_device) (chanlist : list Z)
    (rot frontadd backadd usedma : Z) :
  0 <= frontadd < 2 ^ 32 -> 0 <= backadd < 2 ^ 32 ->
  Z.of_nat (length chanlist) < 2 ^ 32 ->
  let r :=
    setup_channel_list dev (Z.of_nat (length chanlist)) chanlist rot
      frontadd backadd usedma in
  let q := padded_queue dev chanlist (Z.to_nat frontadd) (Z.to_nat backadd) in
  fst r = 1
  /\ gain_words (io_log (snd r)) = gain_words (io_log dev) ++ q
  /\ Z.of_nat (length q)
     = frontadd + Z.of_nat (length chanlist) + backadd.
Proof.
  clear_unused.
  intros Hf Hb Hn r q. subst r q.
  split; [reflexivity|].
  split.
  2:{ unfold padded_queue. cbv zeta.
      rewrite !length_app, length_map, repeat_length.
      destruct (Z.to_nat frontadd) eqn:E.
      - cbn [length]. lia.
      - cbn [length]. rewrite repeat_length. lia. }
  unfold setup_channel_list. cbv zeta. cbn [snd].
  assert (U : forall x, 0 <= x < 2 ^ 32 -> u32 x = x).
  { intros x Hx. apply Z.mod_small. exact Hx. }
  rewrite (U frontadd Hf), (U backadd Hb), (U (Z.of_nat (length chanlist)))
    by lia.
  rewrite Nat2Z.id.
  set (d4 := outl 1 (CardReg PCI9118_SCANMOD) _).
  assert (D4 : exists ctrl,
             io_log d4
             = [(CardReg PCI9118_SCANMOD, 1); (CardReg PCI9118_SCANMOD, 0);
                (CardReg PCI9118_SCANMOD, 2); (CardReg PCI9118_ADCNTRL, ctrl)]
               ++ io_log dev).
  { subst d4.
    destruct (CR_AREF (nth 0 chanlist 0) =? AREF_DIFF),
      (negb (CR_RANGE (nth 0 chanlist 0) <? PCI9118_BIPOLAR_RANGES));
      eexists; reflexivity. }
  assert (Hh : softsshhold (private d4) = softsshhold (private dev)).
  { subst d4.
    destruct (CR_AREF (nth 0 chanlist 0) =? AREF_DIFF),
      (negb (CR_RANGE (nth 0 chanlist 0) <? PCI9118_BIPOLAR_RANGES));
      reflexivity. }
  assert (Hs : softsshsample (private d4) = softsshsample (private dev)).
  { subst d4.
    destruct (CR_AREF (nth 0 chanlist 0) =? AREF_DIFF),
      (negb (CR_RANGE (nth 0 chanlist 0) <? PCI9118_BIPOLAR_RANGES));
      reflexivity. }
  destruct D4 as [ctrl D4]. clearbody d4.
  unfold padded_queue. cbv zeta. rewrite <- Hh, <- Hs.
  set (e0 := scanquad_of (nth 0 chanlist 0)).
  set (G := CardReg PCI9118_GAIN).
  assert (Q : forall (front : comedi_device * Z),
            io_log (fst front)
            = match Z.to_nat frontadd with
              | O => []
              | S k =>
                  repeat (G, Z.lor e0 (softsshhold (private d4))) k
                  ++ [(G, Z.lor e0 (softsshsample (private d4)))]
              end ++ io_log d4 ->
            snd front
            = match Z.to_nat frontadd with
              | O => 0
              | S _ => softsshhold (private d4)
              end ->
            gain_words
              (io_log
                 (outl 0 (CardReg PCI9118_SCANMOD)
                    (if nz backadd
                     then
                       fold_left
                         (fun (d : comedi_device) (_ : nat) =>
                            outl (Z.lor e0 (snd front)) G d)
                         (seq 0 (Z.to_nat backadd))
                         (fold_left
                            (fun (d : comedi_device) (i : nat) =>
                               outl
                                 (Z.lor (scanquad_of (nth i chanlist 0))
                                    (snd front)) G d)
                            (seq 0 (length chanlist)) (fst front))
                     else
                       fold_left
                         (fun (d : comedi_device) (i : nat) =>
                            outl
                              (Z.lor (scanquad_of (nth i chanlist 0))
                                 (snd front)) G d)
                         (seq 0 (length chanlist)) (fst front))))
            = gain_words (io_log dev)
              ++ (match Z.to_nat frontadd with
                  | O => []
                  | S k =>
                      Z.lor e0 (softsshsample (private d4))
                      :: repeat (Z.lor e0 (softsshhold (private d4))) k
                  end
                  ++ map
                       (fun e =>
                          Z.lor (scanquad_of e)
                            match Z.to_nat frontadd with
                            | O => 0
                            | S _ => softsshhold (private d4)
                            end) chanlist
                  ++ repeat
                       (Z.lor e0
                          match Z.to_nat frontadd with
                          | O => 0
                          | S _ => softsshhold (private d4)
                          end) (Z.to_nat backadd))).
  { intros [df ssh] Lf Ls. cbn [fst snd] in *. rewrite <- Ls.
    assert (M : forall d,
              io_log
                (fold_left
                   (fun (d : comedi_device) (i : nat) =>
                      outl (Z.lor (scanquad_of (nth i chanlist 0)) ssh) G d)
                   (seq 0 (length chanlist)) d)
              = rev (map (fun e => (G, Z.lor (scanquad_of e) ssh)) chanlist)
                ++ io_log d).
    { intros d.
      rewrite (fold_outl_log
                 (fun i => Z.lor (scanquad_of (nth i chanlist 0)) ssh)).
      f_equal. f_equal.
      exact (map_nth_seq (fun e => (G, Z.lor (scanquad_of e) ssh))
               chanlist). }
    assert (B : io_log
                  (if nz backadd
                   then
                     fold_left
                       (fun (d : comedi_device) (_ : nat) =>
                          outl (Z.lor e0 ssh) G d)
                       (seq 0 (Z.to_nat backadd))
                       (fold_left
                          (fun (d : comedi_device) (i : nat) =>
                             outl
                               (Z.lor (scanquad_of (nth i chanlist 0)) ssh)
                               G d)
                          (seq 0 (length chanlist)) df)
                   else
                     fold_left
                       (fun (d : comedi_device) (i : nat) =>
                          outl (Z.lor (scanquad_of (nth i chanlist 0)) ssh)
                            G d)
                       (seq 0 (length chanlist)) df)
                = repeat (G, Z.lor e0 ssh) (Z.to_nat backadd)
                  ++ rev (map (fun e => (G, Z.lor (scanquad_of e) ssh))
                            chanlist)
                  ++ io_log df).
    { destruct (nz backadd) eqn:Nb.
      - rewrite fold_outl_const_log, length_seq, M. reflexivity.
      - apply nz_false in Nb. rewrite Nb. cbn [Z.to_nat repeat app].
        apply M. }
    change (io_log (outl 0 (CardReg PCI9118_SCANMOD) ?d))
      with ((CardReg PCI9118_SCANMOD, 0) :: io_log d).
    rewrite B, Lf, D4.
    change ((CardReg PCI9118_SCANMOD, 0) :: ?l)
      with ([(CardReg PCI9118_SCANMOD, 0)] ++ l).
    rewrite !gain_words_app.
    change (gain_words [(CardReg PCI9118_SCANMOD, 0)]) with (@nil Z).
    change (gain_words
              [(CardReg PCI9118_SCANMOD, 1); (CardReg PCI9118_SCANMOD, 0);
               (CardReg PCI9118_SCANMOD, 2); (CardReg PCI9118_ADCNTRL, ctrl)])
      with (@nil Z).
    rewrite app_nil_r. cbn [app].
    rewrite <- !app_assoc. f_equal.
    rewrite (repeat_map (fun v => (G, v))), <- map_rev.
    rewrite <- (map_map (fun e => Z.lor (scanquad_of e) ssh)
                  (fun v => (G, v))).
    subst G. rewrite !gain_words_gain, rev_repeat.
    rewrite map_rev, rev_involutive. cbn [app].
    f_equal.
    destruct (Z.to_nat frontadd) as [|k]; [reflexivity|].
    rewrite gain_words_app.
    rewrite (repeat_map (fun v => (CardReg PCI9118_GAIN, v))).
    change [(CardReg PCI9118_GAIN, Z.lor e0 (softsshsample (private d4)))]
      with (map (fun v => (CardReg PCI9118_GAIN, v))
              [Z.lor e0 (softsshsample (private d4))]).
    rewrite !gain_words_gain, rev_repeat. reflexivity. }
  destruct (nz frontadd) eqn:Nf.
  - cbv beta.
    destruct (fold_front_log e0 (softsshhold (private d4)) G
                (seq 0 (Z.to_nat frontadd)) d4 (softsshsample (private d4)))
      as [F1 F2].
    cbv zeta in F1, F2.
    apply nz_true in Nf.
    destruct (Z.to_nat frontadd) as [|k] eqn:Ek; [lia|].
    apply Q.
    + rewrite F1. cbn [seq]. rewrite length_seq. reflexivity.
    + rewrite F2. reflexivity.
  - apply nz_false in Nf. subst frontadd.
    apply (Q (d4, 0)); reflexivity.
Qed.

(** ** Conversion of raw samples *)

Lemma munge_loop_spec (dev : comedi_device) (n : nat) :
  forall (i : nat) (array : list Z),
    (i + n <= length array)%nat ->
    munge_loop dev n i array
    = Some (take i array
            ++ map (munge_sample dev) (take n (drop i array))
            ++ drop (i + n) array).
Proof.
  induction n as [|n IH]; intros i array H.
  - cbn [munge_loop]. rewrite take_0, Nat.add_0_r. cbn [map app].
    rewrite take_drop. reflexivity.
  - cbn [munge_loop].
    destruct (array !! i) as [x|] eqn:E.
    2:{ apply lookup_ge_None in E. lia. }
    assert (Hi : (i < length array)%nat) by (apply lookup_lt_Some in E; lia).
    rewrite IH by (rewrite length_insert; lia).
    f_equal.
    rewrite take_S_insert by exact Hi.
    rewrite !drop_insert_lt by lia.
    rewrite (drop_S _ _ _ E). cbn [take map].
    rewrite <- app_assoc. cbn [app].
    replace (S i + n)%nat with (i + S n)%nat by lia.
    reflexivity.
Qed.

Lemma u16_range (x : Z) : 0 <= u16 x < 2 ^ 16.
Proof.
  unfold u16. apply Z.mod_pos_bound. lia.
Qed.

Lemma land_fff_range (x : Z) : 0 <= Z.land x 0xfff < 2 ^ 12.
Proof.
  change 0xfff with (Z.ones 12). rewrite Z.land_ones by lia.
  apply Z.mod_pos_bound. lia.
Qed.

(** X10. [pci9118_ai_munge] converts the first [num_bytes / 2] samples
    of the array in place, each by itself, and leaves the rest as it
    is.  On the boards of the table (12-bit or 16-bit data) a converted
    sample lies between 0 and the subdevice's [maxdata]. *)
Theorem ai_munge_samples (dev : comedi_device) (data : list Z)
    (num_bytes start_chan_index : Z) :
  u32 num_bytes / 2 <= Z.of_nat (length data) ->
  let n := Z.to_nat (u32 num_bytes / 2) in
  pci9118_ai_munge dev data num_bytes start_chan_index
  = Some (map (munge_sample dev) (take n data) ++ drop n data)
  /\ (maxdata (read_subdev dev) = 0x0fff
      \/ maxdata (read_subdev dev) = 0xffff ->
      forall x, 0 <= munge_sample dev x <= maxdata (read_subdev dev)).
Proof.
  intros H n. split.
  - unfold pci9118_ai_munge. cbv zeta. fold n.
    rewrite munge_loop_spec by (subst n; lia).
    reflexivity.
  - intros M x. unfold munge_sample. cbv zeta.
    destruct M as [M|M]; rewrite M.
    + change (4095 =? 65535) with false. cbv iota.
      pose proof (land_fff_range
                    (Z.shiftr
                       (if nz (usedma (private dev))
                        then u16 (be16_to_cpu x) else x) 4)) as R.
      set (y := Z.land _ 0xfff) in *.
      unfold u16. rewrite Z.mod_small by lia. lia.
    + change (65535 =? 65535) with true. cbv iota.
      pose proof (u16_range
                    (Z.lxor
                       (if nz (usedma (private dev))
                        then u16 (be16_to_cpu x) else x) 32768)).
      lia.
Qed.
(** ** Single conversions *)

(** What [setup_channel_list] leaves alone: anything that depends
    neither on the port log nor on [AdControlReg]. *)
Lemma frame_fold_outl {A B} (f : comedi_device -> B)
    (Hout : forall v p d, f (outl v p d) = f d)
    (g : comedi_device -> A -> Z) p (l : list A) :
  forall dev, f (fold_left (fun d i => outl (g d i) p d) l dev) = f dev.
Proof.
  clear_unused.
  induction l as [|x l IH]; intros dev; [reflexivity|].
  cbn [fold_left]. rewrite IH. apply Hout.
Qed.

Lemma frame_fold_front {A B} (f : comedi_device -> B)
    (Hout : forall v p d, f (outl v p d) = f d)
    (g : comedi_device * Z -> A -> Z) p (h : Z) (l : list A) :
  forall st,
    f (fst (fold_left (fun st i => (outl (g st i) p (fst st), h)) l st))
    = f (fst st).
Proof.
  clear_unused.
  induction l as [|x l IH]; intros st; [reflexivity|].
  cbn [fold_left]. rewrite IH. apply Hout.
Qed.

Lemma frame_setup_channel_list {B} (f : comedi_device -> B)
    (Hout : forall v p d, f (outl v p d) = f d)
    (Hctl : forall g d,
        f (upd_priv (fun p => set_AdControlReg (g p) p) d) = f d)
    dev n_chan chanlist rot frontadd backadd dma :
  f (snd (setup_channel_list dev n_chan chanlist rot frontadd backadd dma))
  = f dev.
Proof.
  clear_unused.
  unfold setup_channel_list. cbv zeta. cbn [snd].
  set (d4 := outl 1 (CardReg PCI9118_SCANMOD) _).
  assert (D4 : f d4 = f dev).
  { subst d4. rewrite !Hout.
    destruct (CR_AREF (nth 0 chanlist 0) =? AREF_DIFF),
      (negb (CR_RANGE (nth 0 chanlist 0) <? PCI9118_BIPOLAR_RANGES));
      rewrite !Hctl; reflexivity. }
  clearbody d4. rewrite <- D4. rewrite Hout.
  set (front := if nz frontadd then _ else (d4, 0)).
  assert (F : f (fst front) = f d4).
  { subst front. destruct (nz frontadd); [|reflexivity].
    apply (frame_fold_front f Hout
             (fun st _ => Z.lor (scanquad_of (nth 0 chanlist 0)) (snd st))). }
  clearbody front. rewrite <- F.
  destruct (nz backadd).
  - rewrite (frame_fold_outl f Hout
               (fun _ _ => Z.lor (scanquad_of (nth 0 chanlist 0)) (snd front))).
    apply (frame_fold_outl f Hout
             (fun _ i => Z.lor (scanquad_of (nth i chanlist 0)) (snd front))).
  - apply (frame_fold_outl f Hout
             (fun _ i => Z.lor (scanquad_of (nth i chanlist 0)) (snd front))).
Qed.

Lemma setup_channel_list_returns_1 dev n_chan chanlist rot frontadd backadd
    dma :
  fst (setup_channel_list dev n_chan chanlist rot frontadd backadd dma) = 1.
Proof. clear_unused. reflexivity. Qed.

Lemma land_u32_ffff (raw : Z) : Z.land (u32 raw) 65535 = u16 raw.
Proof.
  clear_unused.
  rewrite u32_land_ones, <- Z.land_assoc.
  change (Z.land (Z.ones 32) 65535) with (Z.ones 16).
  unfold u16. apply Z.land_ones. lia.
Qed.

Lemma lxor_u16 (raw : Z) : Z.lxor (u16 raw) 32768 = u16 (Z.lxor raw 32768).
Proof.
  clear_unused.
  unfold u16. rewrite <- !Z.land_ones by lia.
  apply Z.bits_inj'. intros n Hn.
  rewrite Z.lxor_spec, !Z.land_spec, Z.lxor_spec.
  change 32768 with (2 ^ 15). rewrite Z.pow2_bits_eqb by lia.
  destruct (Z.ltb_spec n 16).
  - rewrite Z.ones_spec_low by lia. rewrite !andb_true_r. reflexivity.
  - rewrite Z.ones_spec_high by lia. rewrite !andb_false_r.
    replace (15 =? n) with false by (symmetry; apply Z.eqb_neq; lia).
    reflexivity.
Qed.

Lemma read_sample_range (dev : comedi_device) :
  0 <= read_sample dev <= sample_bound (read_subdev dev).
Proof.
  clear_unused.
  unfold read_sample, sample_bound.
  destruct (maxdata (read_subdev dev) =? 65535).
  - rewrite land_u32_ffff, lxor_u16. pose proof (u16_range (Z.lxor (inl (CardReg PCI9118_AD_DATA) dev) 32768)). lia.
  - pose proof (land_fff_range (Z.shiftr (u16 (inl (CardReg PCI9118_AD_DATA) dev)) 4)). lia.
Qed.

Lemma insn_read_ai_loop_spec (n : nat) :
  forall dev data,
    let r := insn_read_ai_loop n dev data in
    exists extra,
      snd (fst r) = data ++ extra
      /\ Forall (fun s => 0 <= s <= sample_bound (read_subdev dev)) extra
      /\ ports_and_subdev (snd r) = ports_and_subdev dev
      /\ private (snd r) = private dev
      /\ match fst (fst r) with
         | None => length extra = n
         | Some ret =>
             ret <> 0 /\ (length extra < n)%nat
             /\ hd_error (io_log (snd r)) = Some (CardReg PCI9118_DELFIFO, 0)
         end.
Proof.
  clear_unused.
  induction n as [|n IH]; intros dev data; cbn [insn_read_ai_loop].
  - exists []. cbn. rewrite app_nil_r. repeat split; constructor.
  - cbv zeta.
    set (d1 := outl 0 (CardReg PCI9118_SOFTTRG) dev).
    destruct (nz (comedi_timeout pci9118_ai_eoc d1)) eqn:T.
    + exists []. cbn [fst snd length]. rewrite app_nil_r.
      split; [reflexivity|]. split; [constructor|].
      split; [reflexivity|]. split; [reflexivity|].
      split; [|split; [cbn [length]; lia|reflexivity]].
      unfold nz in T. intros E. rewrite E in T. discriminate.
    + fold (read_sample d1).
      destruct (IH d1 (data ++ [read_sample d1])) as (extra & E1 & E2 & E3 & E4 & E5).
      exists (read_sample d1 :: extra). cbv zeta in *.
      rewrite E1, <- app_assoc. repeat split; try assumption.
      * constructor; [apply (read_sample_range d1)|assumption].
      * destruct (fst (fst (insn_read_ai_loop n d1 (data ++ [read_sample d1])))).
        -- destruct E5 as (? & ? & ?). repeat split; try assumption.
           cbn [length]. lia.
        -- cbn [length]. lia.
Qed.

(** X11 ([pci9118_insn_read_ai]).  Every sample a single-conversion
    instruction stores lies between 0 and the largest sample of the
    board (0xffff on a 16-bit board, 0xfff otherwise).  Its last port
    write is the FIFO flush; the ports' input side and the subdevice are
    as before; the function register holds the two positive-trigger
    bits.  Either all [insn->n] conversions were made and the return
    value is that count, or the return value is nonzero and fewer
    samples were stored. *)
Theorem insn_read_ai_outcome (dev : comedi_device) (chanspec insn_n : Z) :
  let r := pci9118_insn_read_ai dev chanspec insn_n in
  let ret := fst (fst r) in
  let data := snd (fst r) in
  Forall (fun s => 0 <= s <= sample_bound (read_subdev dev)) data
  /\ ports_and_subdev (snd r) = ports_and_subdev dev
  /\ hd_error (io_log (snd r)) = Some (CardReg PCI9118_DELFIFO, 0)
  /\ AdFunctionReg (private (snd r))
     = Z.lor AdFunction_PDTrg AdFunction_PETrg
  /\ ((ret = s32 insn_n /\ length data = Z.to_nat (u32 insn_n))
      \/ (ret <> 0 /\ (length data < Z.to_nat (u32 insn_n))%nat)).
Proof.
  clear_unused.
  unfold pci9118_insn_read_ai. cbv zeta.
  rewrite setup_channel_list_returns_1. change (negb (nz 1)) with false.
  cbv iota.
  set (d0 := outl _ (CardReg PCI9118_ADFUNC) _).
  set (d1 := snd (setup_channel_list d0 1 [chanspec] 0 0 0 0)).
  assert (P1 : ports_and_subdev d1 = ports_and_subdev dev).
  { subst d1. rewrite frame_setup_channel_list; reflexivity. }
  assert (F1 : AdFunctionReg (private d1)
               = Z.lor AdFunction_PDTrg AdFunction_PETrg).
  { subst d1.
    rewrite (frame_setup_channel_list
               (fun d => AdFunctionReg (private d))); reflexivity. }
  set (d2 := outl 0 (CardReg PCI9118_DELFIFO) d1).
  destruct (insn_read_ai_loop_spec (Z.to_nat (u32 insn_n)) d2 [])
    as (extra & E1 & E2 & E3 & E4 & E5).
  cbv zeta in *.
  destruct (insn_read_ai_loop (Z.to_nat (u32 insn_n)) d2 [])
    as [[[ret|] data] d3]; cbn [fst snd] in *; subst data;
    cbn [app].
  - destruct E5 as (R1 & R2 & R3).
    split; [|split; [|split; [|split]]].
    + replace (read_subdev dev) with (read_subdev d2); [exact E2|].
      change (snd (ports_and_subdev d2) = snd (ports_and_subdev dev)).
      change (ports_and_subdev d2) with (ports_and_subdev d1).
      rewrite P1. reflexivity.
    + rewrite E3. exact P1.
    + exact R3.
    + rewrite E4. exact F1.
    + right. split; assumption.
  - split; [|split; [|split; [|split]]].
    + replace (read_subdev dev) with (read_subdev d2); [exact E2|].
      change (snd (ports_and_subdev d2) = snd (ports_and_subdev dev)).
      change (ports_and_subdev d2) with (ports_and_subdev d1).
      rewrite P1. reflexivity.
    + change (ports_and_subdev d3 = ports_and_subdev dev).
      rewrite E3. exact P1.
    + reflexivity.
    + change (AdFunctionReg (private d3) = Z.lor AdFunction_PDTrg AdFunction_PETrg).
      rewrite E4. exact F1.
    + left. split; [reflexivity|exact E5].
Qed.

Lemma read_sample_frame (d d' : comedi_device) :
  ports_and_subdev d = ports_and_subdev d' -> read_sample d = read_sample d'.
Proof.
  clear_unused.
  unfold ports_and_subdev, read_sample, inl. intros E.
  injection E as E1 E2. rewrite E1, E2. reflexivity.
Qed.

Lemma insn_read_ai_loop_samples (n : nat) :
  forall dev data,
    exists extra,
      snd (fst (insn_read_ai_loop n dev data)) = data ++ extra
      /\ Forall (fun s => s = read_sample dev) extra.
Proof.
  clear_unused.
  induction n as [|n IH]; intros dev data; cbn [insn_read_ai_loop].
  - exists []. cbn. rewrite app_nil_r. split; constructor.
  - cbv zeta.
    set (d1 := outl 0 (CardReg PCI9118_SOFTTRG) dev).
    destruct (nz (comedi_timeout pci9118_ai_eoc d1)).
    + exists []. cbn [fst snd]. rewrite app_nil_r. split; constructor.
    + fold (read_sample d1).
      destruct (IH d1 (data ++ [read_sample d1])) as (extra & E1 & E2).
      exists (read_sample d1 :: extra).
      rewrite E1, <- app_assoc. split; [reflexivity|].
      constructor; [reflexivity|exact E2].
Qed.

Lemma read_sample_munge (dev : comedi_device) :
  usedma (private dev) = 0 ->
  read_sample dev = munge_sample dev (u16 (inl (CardReg PCI9118_AD_DATA) dev)).
Proof.
  clear_unused.
  intros H. unfold read_sample, munge_sample. rewrite H.
  change (nz 0) with false. cbv iota zeta.
  set (raw := inl (CardReg PCI9118_AD_DATA) dev).
  destruct (maxdata (read_subdev dev) =? 65535).
  - rewrite land_u32_ffff, lxor_u16. unfold u16. symmetry.
    apply Z.mod_mod. lia.
  - pose proof (land_fff_range (Z.shiftr (u16 raw) 4)) as R.
    set (y := Z.land _ 4095) in *.
    unfold u16 at 1. rewrite Z.mod_small by lia. reflexivity.
Qed.

(** X12 ([pci9118_insn_read_ai], [pci9118_ai_munge]).  On a session
    without DMA, every word a single-conversion instruction stores is
    the one the munge routine makes of the 16-bit word read at the data
    port: the two paths convert samples alike. *)
Theorem insn_read_ai_samples_as_munged (dev : comedi_device)
    (chanspec insn_n : Z) :
  usedma (private dev) = 0 ->
  Forall
    (fun s =>
       s = munge_sample dev (u16 (inl (CardReg PCI9118_AD_DATA) dev)))
    (snd (fst (pci9118_insn_read_ai dev chanspec insn_n))).
Proof.
  clear_unused.
  intros H. rewrite <- (read_sample_munge dev H).
  unfold pci9118_insn_read_ai. cbv zeta.
  rewrite setup_channel_list_returns_1. change (negb (nz 1)) with false.
  cbv iota.
  set (d0 := outl _ (CardReg PCI9118_ADFUNC) _).
  set (d2 := outl 0 (CardReg PCI9118_DELFIFO) _).
  assert (P : ports_and_subdev d2 = ports_and_subdev dev).
  { subst d2.
    change (ports_and_subdev (snd (setup_channel_list d0 1 [chanspec] 0 0 0 0))
            = ports_and_subdev d0).
    apply frame_setup_channel_list; reflexivity. }
  destruct (insn_read_ai_loop_samples (Z.to_nat (u32 insn_n)) d2 [])
    as (extra & E1 & E2).
  rewrite (read_sample_frame _ _ P) in E2.
  destruct (insn_read_ai_loop (Z.to_nat (u32 insn_n)) d2 [])
    as [[[ret|] data] d3]; cbn [fst snd] in *; subst data; exact E2.
Qed.
(** ** Analog outputs *)

Lemma last_cons_default {A} (l : list A) :
  forall x d d', List.last (x :: l) d = List.last (x :: l) d'.
Proof.
  clear_unused.
  induction l as [|y l IH]; intros x d d'; [reflexivity|].
  change (List.last (y :: l) d = List.last (y :: l) d'). apply IH.
Qed.

Lemma write_ao_fold (chanreg ch : Z) (data : list Z) :
  forall dev,
    let dev' :=
      fold_left
        (fun (dev : comedi_device) (v : Z) =>
           let dev := outl v (CardReg chanreg) dev in
           upd_priv (fun p =>
             set_ao_data (arr2_set (ao_data p) ch (u16 v)) p) dev)
        data dev in
    io_log dev' = rev (map (fun v => (CardReg chanreg, v)) data) ++ io_log dev
    /\ arr2_get (ao_data (private dev')) ch
       = List.last (map u16 data) (arr2_get (ao_data (private dev)) ch)
    /\ (forall other, (other =? 0) <> (ch =? 0) ->
          arr2_get (ao_data (private dev')) other
          = arr2_get (ao_data (private dev)) other).
Proof.
  clear_unused.
  induction data as [|v data IH]; intros dev.
  - cbn. repeat split.
  - cbn [fold_left]. cbv zeta in IH |- *.
    destruct (IH (upd_priv (fun p =>
                   set_ao_data (arr2_set (ao_data p) ch (u16 v)) p)
                   (outl v (CardReg chanreg) dev))) as (L & A & O).
    split; [|split].
    + rewrite L. cbn [map rev]. rewrite <- app_assoc. reflexivity.
    + rewrite A. cbn [map].
      destruct data as [|w data]; cbn [map List.last].
      * unfold arr2_get, arr2_set. destruct dev as [b p s i l k].
        destruct p. cbn. destruct (ch =? 0); reflexivity.
      * apply (last_cons_default (map u16 data) (u16 w)).
    + intros other Ho. rewrite (O other Ho).
      unfold arr2_get, arr2_set. destruct dev as [b p s i l k].
      destruct p. cbn.
      destruct (ch =? 0), (other =? 0); try reflexivity;
        exfalso; apply Ho; reflexivity.
Qed.

(** X13 ([pci9118_insn_write_ao], [pci9118_insn_read_ao]).  Writing the
    words [data ++ [v]] to analog output channel 0 or 1 sends each word,
    in order and in full, to the port of that channel, and returns their
    number.  A read of any length from the same channel then gives only
    the low sixteen bits of [v], the last word; what is remembered for
    the other channel is as before. *)
Theorem ao_write_then_read (dev : comedi_device) (chanspec : Z)
    (data : list Z) (v insn_n : Z) :
  CR_CHAN chanspec <= 1 ->
  exists dev',
    pci9118_insn_write_ao dev chanspec (data ++ [v])
    = Some (Z.of_nat (S (length data)), dev')
    /\ io_log dev'
       = rev (map (fun w =>
                     (CardReg (if nz (CR_CHAN chanspec)
                               then PCI9118_DA2 else PCI9118_DA1), w))
                  (data ++ [v]))
         ++ io_log dev
    /\ pci9118_insn_read_ao dev' chanspec insn_n
       = Some (u32 insn_n, repeat (u16 v) (Z.to_nat (u32 insn_n)))
    /\ arr2_get (ao_data (private dev')) (1 - CR_CHAN chanspec)
       = arr2_get (ao_data (private dev)) (1 - CR_CHAN chanspec).
Proof.
  clear_unused.
  intros Hch.
  assert (C : CR_CHAN chanspec = 0 \/ CR_CHAN chanspec = 1).
  { unfold CR_CHAN in *. pose proof (Z.land_nonneg chanspec 65535). lia. }
  unfold pci9118_insn_write_ao, pci9118_insn_read_ao. cbv zeta.
  assert (B : (CR_CHAN chanspec =? 0) || (CR_CHAN chanspec =? 1) = true).
  { destruct C as [-> | ->]; reflexivity. }
  rewrite B.
  eexists. split; [|split; [|split]].
  - rewrite length_app, Nat.add_1_r. reflexivity.
  - apply write_ao_fold.
  - f_equal. f_equal. f_equal.
    match goal with |- arr2_get (ao_data (private (fold_left ?f ?l ?d))) _ = _ =>
      destruct (write_ao_fold
                  (if nz (CR_CHAN chanspec) then PCI9118_DA2 else PCI9118_DA1)
                  (CR_CHAN chanspec) l d) as (_ & A & _) end.
    cbv zeta in A. rewrite A, map_app. cbn [map]. apply last_last.
  - match goal with |- arr2_get (ao_data (private (fold_left ?f ?l ?d))) _ = _ =>
      destruct (write_ao_fold
                  (if nz (CR_CHAN chanspec) then PCI9118_DA2 else PCI9118_DA1)
                  (CR_CHAN chanspec) l d) as (_ & _ & O) end.
    cbv zeta in O. apply O. destruct C as [-> | ->]; discriminate.
Qed.
(** ** Reset *)

Lemma start_pacer_private (dev : comedi_device) (mode : Z) :
  private (pci9118_start_pacer dev mode) = private dev.
Proof.
  clear_unused.
  unfold pci9118_start_pacer. cbv zeta.
  destruct ((mode =? 1) || (mode =? 2) || (mode =? 4)); reflexivity.
Qed.

Lemma start_pacer_subdev (dev : comedi_device) (mode : Z) :
  read_subdev (pci9118_start_pacer dev mode) = read_subdev dev.
Proof.
  clear_unused.
  unfold pci9118_start_pacer. cbv zeta.
  destruct ((mode =? 1) || (mode =? 2) || (mode =? 4)); reflexivity.
Qed.

Lemma reset_private (dev : comedi_device) :
  private (snd (pci9118_reset dev))
  = set_exttrg_users 0
      (set_AdControlReg 0
         (set_ao_data (2047, 2047)
            (set_AdFunctionReg (Z.lor AdFunction_PDTrg AdFunction_PETrg)
               (set_AdControlReg 0
                  (set_exttrg_users 0
                     (set_IntControlReg 0 (private dev))))))).
Proof.
  clear_unused.
  destruct dev as [b p s i l k]. destruct p. lazy. reflexivity.
Qed.

(** X14 ([pci9118_reset], [pci9118_insn_read_ao]).  A reset always
    succeeds.  It leaves no interrupt source enabled, no user of the
    external trigger, a cleared control register and the two
    positive-trigger bits in the function register.  Both analog outputs
    are sent the mid-scale word 2047, and a read of either channel gives
    that word.  A second reset changes nothing in the session state. *)
Theorem reset_state (dev : comedi_device) :
  let dev' := snd (pci9118_reset dev) in
  fst (pci9118_reset dev) = 0
  /\ IntControlReg (private dev') = 0
  /\ exttrg_users (private dev') = 0
  /\ AdControlReg (private dev') = 0
  /\ AdFunctionReg (private dev') = Z.lor AdFunction_PDTrg AdFunction_PETrg
  /\ In (CardReg PCI9118_DA1, 2047) (io_log dev')
  /\ In (CardReg PCI9118_DA2, 2047) (io_log dev')
  /\ (forall chanspec insn_n,
        CR_CHAN chanspec <= 1 ->
        pci9118_insn_read_ao dev' chanspec insn_n
        = Some (u32 insn_n, repeat 2047 (Z.to_nat (u32 insn_n))))
  /\ private (snd (pci9118_reset dev')) = private dev'.
Proof.
  clear_unused.
  cbv zeta.
  split; [reflexivity|].
  split; [|split; [|split; [|split; [|split; [|split; [|split]]]]]].
  1-4: rewrite reset_private; destruct dev as [b p s i l k]; destruct p;
    lazy; reflexivity.
  - destruct dev as [b p s i l k]. destruct p. lazy -[In].
    cbn [In]. tauto.
  - destruct dev as [b p s i l k]. destruct p. lazy -[In].
    cbn [In]. tauto.
  - intros chanspec insn_n Hch.
    assert (C : CR_CHAN chanspec = 0 \/ CR_CHAN chanspec = 1).
    { unfold CR_CHAN in *. pose proof (Z.land_nonneg chanspec 65535). lia. }
    unfold pci9118_insn_read_ao. cbv zeta. rewrite reset_private.
    destruct dev as [b p s i l k]. destruct p.
    destruct C as [-> | ->]; lazy -[repeat Z.to_nat u32]; reflexivity.
  - rewrite !reset_private. destruct dev as [b p s i l k]. destruct p.
    lazy. reflexivity.
Qed.
(** ** The data path of a run *)

Lemma defragment_dma_buffer_frame (dev : comedi_device) (buf : list Z)
    (n k : Z) (buf' : list Z) (dev1 : comedi_device) :
  defragment_dma_buffer dev buf n = Some (k, buf', dev1) ->
  0 <= k
  /\ exists pos, dev1 = upd_priv (set_ai_act_dmapos pos) dev.
Proof.
  clear_unused.
  unfold defragment_dma_buffer. cbv zeta.
  destruct (defragment_loop _ _ _ _ _ _ _ _) as [[[j b] pos]|];
    [|discriminate].
  intros H. injection H as <- _ <-. split; [lia|]. exists pos. reflexivity.
Qed.

(** X15 ([move_block_from_dma]).  Scan accounting of a DMA block: when
    the padding removal keeps [k] samples and no counter wraps, the
    state handed to the buffer writer has counted every kept sample
    once, as [scan_end_arg] samples per finished scan plus the position
    in the running scan, and that position is inside the scan.  The
    writer is asked for [2 * k] bytes of the compacted block, and the
    routine returns -1 exactly when it took fewer. *)
Theorem move_block_scan_accounting (dev : comedi_device) (buf : list Z)
    (n k : Z) (buf' : list Z) (dev1 : comedi_device) :
  defragment_dma_buffer dev buf n = Some (k, buf', dev1) ->
  let e := scan_end_arg (dev_cmd dev) in
  let c := cur_chan (dev_async dev) in
  let a := ai_act_scan (private dev) in
  0 < e -> 0 <= c -> 0 <= a -> c + k < 2 ^ 32 -> a + (c + k) / e < 2 ^ 32 ->
  exists d,
    move_block_from_dma dev buf n
    = (let w := cfc_write_array_to_buffer d buf' (u32 (k * 2)) in
       Some (if fst w <? k * 2 then -1 else 0, buf', snd w))
    /\ ai_act_scan (private d) * e + cur_chan (dev_async d) = a * e + c + k
    /\ 0 <= cur_chan (dev_async d) < e
    /\ ai_act_dmapos (private d) = ai_act_dmapos (private dev1).
Proof.
  clear_unused.
  intros H e c a He Hc Ha Hck Hak.
  destruct (defragment_dma_buffer_frame _ _ _ _ _ _ H) as (Hk & pos & ->).
  unfold move_block_from_dma. rewrite H. cbv zeta.
  change (scan_end_arg (dev_cmd (upd_priv (set_ai_act_dmapos pos) dev)))
    with e.
  replace (e =? 0) with false by (symmetry; apply Z.eqb_neq; lia).
  set (w := cfc_write_array_to_buffer _ buf' _).
  match goal with w := cfc_write_array_to_buffer ?d0 _ _ |- _ =>
    exists d0 end.
  fold w. split; [destruct (fst w <? k * 2); reflexivity|].
  assert (D := Z.div_pos (c + k) e ltac:(lia) ltac:(lia)).
  assert (M := Z.mod_pos_bound (c + k) e ltac:(lia)).
  assert (E := Z.div_mod (c + k) e ltac:(lia)).
  destruct dev as [b p s i l kl]. destruct p. destruct s as [lc md as0].
  destruct as0 as [pb cc ev it cm].
  lazy -[u32 Z.div Z.modulo Z.add Z.mul Z.lt Z.le] in *.
  subst e c a.
  unfold u32. rewrite !(Z.mod_small (cc + k)) by lia.
  rewrite Z.mod_small by lia.
  repeat split; lia.
Qed.
(** ** Accepted trigger sources *)

Lemma one_of_range (l : list Z) (s : Z) :
  forallb (fun x => (0 <=? x) && (x <? 256)) l = true ->
  one_of l s = true -> 0 <= s < 256.
Proof.
  clear_unused.
  intros Hl H. unfold one_of in H. apply existsb_exists in H.
  destruct H as (x & Hx & E). apply Z.eqb_eq in E. subst x.
  rewrite forallb_forall in Hl. specialize (Hl s Hx). lia.
Qed.

(** A test on a source that is under an eight-bit mask agrees with a
    list of values, once it does on all eight-bit values. *)
Lemma masked_test_enum (mask : Z) (Q : Z -> bool) (l : list Z) :
  Z.land mask 255 = mask ->
  forallb (fun x => (0 <=? x) && (x <? 256)) l = true ->
  forallb (fun s => Bool.eqb ((Z.land s mask =? s) && Q s) (one_of l s))
    (map Z.of_nat (seq 0 256)) = true ->
  forall s, (Z.land s mask =? s) && Q s = one_of l s.
Proof.
  clear_unused.
  intros Hm Hl He s.
  destruct (Z.eqb_spec (Z.land s mask) s) as [E|E].
  - apply eqb_prop.
    pose proof (forall_u8 _ He s (land_submask_u8 _ _ Hm E)) as X.
    cbv beta in X. rewrite E, Z.eqb_refl in X. exact X.
  - cbn [andb]. destruct (one_of l s) eqn:O; [|reflexivity].
    pose proof (one_of_range l s Hl O) as R.
    pose proof (forall_u8 _ He s R) as X. cbv beta in X.
    rewrite O in X. apply eqb_prop in X.
    apply andb_true_iff in X. destruct X as [X _].
    apply Z.eqb_eq in X. contradiction.
Qed.

Lemma start_src_tests (s : Z) :
  (Z.land s (Z.lor (Z.lor TRIG_NOW TRIG_EXT) TRIG_INT) =? s)
  && (negb (s =? 0) && (cfc_check_trigger_is_unique s =? 0))
  = one_of [TRIG_NOW; TRIG_EXT; TRIG_INT] s.
Proof.
  clear_unused.
  apply (masked_test_enum _
           (fun s => negb (s =? 0) && (cfc_check_trigger_is_unique s =? 0)));
    vm_compute; reflexivity.
Qed.

Lemma stop_src_tests (s : Z) :
  (Z.land s (Z.lor (Z.lor TRIG_COUNT TRIG_NONE) TRIG_EXT) =? s)
  && (negb (s =? 0) && (cfc_check_trigger_is_unique s =? 0))
  = one_of [TRIG_COUNT; TRIG_NONE; TRIG_EXT] s.
Proof.
  clear_unused.
  apply (masked_test_enum _
           (fun s => negb (s =? 0) && (cfc_check_trigger_is_unique s =? 0)));
    vm_compute; reflexivity.
Qed.

Lemma scan_end_src_tests (s : Z) :
  (Z.land s TRIG_COUNT =? s) && negb (s =? 0) = one_of [TRIG_COUNT] s.
Proof.
  clear_unused.
  apply (masked_test_enum _ (fun s => negb (s =? 0)));
    vm_compute; reflexivity.
Qed.

Lemma source_pair_tests_eq (m : bool) (sbs cs : Z) :
  source_pair_tests m sbs cs = source_pair_ok m sbs cs.
Proof.
  clear_unused.
  destruct (source_pair_tests m sbs cs) eqn:T.
  - symmetry. apply source_pair_tests_ok; [| |exact T].
    + unfold source_pair_tests in T. cbv zeta in T.
      repeat (apply andb_true_iff in T; destruct T as [T ?]).
      apply Z.eqb_eq in T.
      refine (land_submask_u8 _ _ _ T). destruct m; reflexivity.
    + unfold source_pair_tests in T. cbv zeta in T.
      repeat (apply andb_true_iff in T; destruct T as [T ?]).
      match goal with H : (Z.land cs _ =? cs) = true |- _ =>
        apply Z.eqb_eq in H; refine (land_submask_u8 _ _ _ H) end.
      destruct m; reflexivity.
  - destruct (source_pair_ok m sbs cs) eqn:O; [|reflexivity].
    exfalso. unfold source_pair_ok in O.
    repeat match goal with
           | H : (_ || _) = true |- _ =>
               apply orb_true_iff in H; destruct H as [H|H]
           | H : (_ && _) = true |- _ =>
               apply andb_true_iff in H; destruct H as [H ?]
           | H : (_ =? _) = true |- _ => apply Z.eqb_eq in H; subst
           end; subst; try destruct m; vm_compute in T; discriminate T.
Qed.

(** What phase 2 tests, one test at a time. *)
Lemma cmdtest_step2_tests (c : comedi_cmd) :
  pci9118_ai_cmdtest_step2 c = 0 <->
  cfc_check_trigger_is_unique (start_src c) = 0
  /\ cfc_check_trigger_is_unique (scan_begin_src c) = 0
  /\ cfc_check_trigger_is_unique (convert_src c) = 0
  /\ cfc_check_trigger_is_unique (stop_src c) = 0
  /\ (start_src c =? TRIG_EXT) && (scan_begin_src c =? TRIG_EXT) = false
  /\ (start_src c =? TRIG_INT) && (scan_begin_src c =? TRIG_INT) = false
  /\ nz (Z.land (scan_begin_src c) (Z.lor TRIG_TIMER TRIG_EXT))
     && negb (nz (Z.land (convert_src c) (Z.lor TRIG_TIMER TRIG_NOW)))
     = false
  /\ (scan_begin_src c =? TRIG_FOLLOW)
     && negb (nz (Z.land (convert_src c) (Z.lor TRIG_TIMER TRIG_EXT)))
     = false
  /\ (stop_src c =? TRIG_EXT) && (scan_begin_src c =? TRIG_EXT) = false.
Proof.
  clear_unused.
  unfold pci9118_ai_cmdtest_step2. cbv zeta.
  split.
  - repeat match goal with
           | |- context [if ?b then Z.lor ?e (- EINVAL) else ?e] =>
               destruct b eqn:?
           end;
      intros H; try (exfalso; exact (lor_err_nonzero _ H)).
    apply Z.lor_eq_0_iff in H. destruct H as [H H4].
    apply Z.lor_eq_0_iff in H. destruct H as [H H3].
    apply Z.lor_eq_0_iff in H. destruct H as [H H2].
    apply Z.lor_eq_0_iff in H. destruct H as [_ H1].
    repeat split; assumption.
  - intros (H1 & H2 & H3 & H4 & -> & -> & -> & -> & ->).
    rewrite H1, H2, H3, H4. reflexivity.
Qed.

Lemma cmdtest_phase_after_2 (dev : comedi_device) (c : comedi_cmd) :
  pci9118_ai_cmdtest_step1 dev c = (0, c) ->
  pci9118_ai_cmdtest_step2 c = 0 ->
  fst (pci9118_ai_cmdtest dev c) <> 1 /\ fst (pci9118_ai_cmdtest dev c) <> 2.
Proof.
  clear_unused.
  intros H1 H2. rewrite (cmdtest_after_step2 dev c H1 H2). cbv zeta.
  destruct (nz (fst (pci9118_ai_cmdtest_step3 dev c)));
    [cbn [fst]; split; discriminate|].
  destruct (nz (fst (pci9118_ai_cmdtest_step4 dev _)));
    [cbn [fst]; split; discriminate|].
  destruct (chanlist _) as [l|]; [|cbn [fst]; split; discriminate].
  destruct (negb _); cbn [fst]; split; discriminate.
Qed.

Lemma sources_accepted_pass (dev : comedi_device) (c : comedi_cmd) :
  sources_accepted (nz (master (private dev))) c = true ->
  pci9118_ai_cmdtest_step1 dev c = (0, c)
  /\ pci9118_ai_cmdtest_step2 c = 0.
Proof.
  clear_unused.
  unfold sources_accepted. intros H.
  apply andb_true_iff in H. destruct H as [H Hx].
  apply andb_true_iff in H. destruct H as [H Hp].
  apply andb_true_iff in H. destruct H as [H Hstop].
  apply andb_true_iff in H. destruct H as [Hstart Hse].
  rewrite <- start_src_tests in Hstart. rewrite <- stop_src_tests in Hstop.
  rewrite <- source_pair_tests_eq in Hp.
  apply andb_true_iff in Hstart. destruct Hstart as [A1 Hstart].
  apply andb_true_iff in Hstart. destruct Hstart as [B1 U1].
  apply andb_true_iff in Hstop. destruct Hstop as [A5 Hstop].
  apply andb_true_iff in Hstop. destruct Hstop as [B5 U5].
  unfold source_pair_tests in Hp. cbv zeta in Hp.
  apply andb_true_iff in Hp. destruct Hp as [Hp P2].
  apply andb_true_iff in Hp. destruct Hp as [Hp P1].
  apply andb_true_iff in Hp. destruct Hp as [Hp U3].
  apply andb_true_iff in Hp. destruct Hp as [Hp U2].
  apply andb_true_iff in Hp. destruct Hp as [Hp B3].
  apply andb_true_iff in Hp. destruct Hp as [Hp A3].
  apply andb_true_iff in Hp. destruct Hp as [A2 B2].
  apply Z.eqb_eq in A1, A2, A3, A5, U1, U2, U3, U5, Hse.
  apply negb_true_iff in B1, B2, B3, B5, P1, P2, Hx.
  apply Z.eqb_neq in B1, B2, B3, B5.
  split.
  - apply cmdtest_step1_pass; cbv beta; try (split; assumption).
    rewrite Hse. split; [reflexivity|discriminate].
  - apply cmdtest_step2_tests.
    repeat (split; [assumption|]).
    assert (N : (scan_begin_src c =? TRIG_INT) = false).
    { apply Z.eqb_neq. intros E. rewrite E in A2.
      destruct (nz (master (private dev))); discriminate A2. }
    rewrite N, andb_false_r.
    destruct (scan_begin_src c =? TRIG_EXT); [|rewrite !andb_false_r; auto].
    rewrite andb_true_l in Hx. apply orb_false_iff in Hx.
    destruct Hx as [-> ->]. auto.
Qed.

Lemma sources_accepted_from_pass (dev : comedi_device) (c : comedi_cmd) :
  fst (pci9118_ai_cmdtest_step1 dev c) = 0 ->
  pci9118_ai_cmdtest_step2 c = 0 ->
  sources_accepted (nz (master (private dev))) c = true.
Proof.
  clear_unused.
  intros H1 H2.
  destruct (cmdtest_step1_ok dev c H1)
    as (_ & [A1 B1] & [A2 B2] & [A3 B3] & [A4 B4] & [A5 B5]).
  apply cmdtest_step2_tests in H2.
  destruct H2 as (U1 & U2 & U3 & U5 & X1 & _ & P1 & P2 & X5).
  unfold sources_accepted.
  rewrite <- start_src_tests, <- stop_src_tests, <- source_pair_tests_eq.
  unfold source_pair_tests. cbv zeta.
  rewrite P1, P2, U1, U2, U3, U5.
  apply Z.eqb_eq in A1, A2, A3, A5. rewrite A1, A2, A3, A5.
  apply Z.eqb_neq in B1, B2, B3, B5. rewrite B1, B2, B3, B5.
  assert (E4 : scan_end_src c = TRIG_COUNT).
  { pose proof (scan_end_src_tests (scan_end_src c)) as T.
    apply Z.eqb_eq in A4. apply Z.eqb_neq in B4. rewrite A4, B4 in T.
    symmetry in T. unfold one_of in T. cbn [existsb] in T.
    rewrite orb_false_r in T. apply Z.eqb_eq in T. exact T. }
  rewrite E4. cbn [negb andb Z.eqb TRIG_COUNT Pos.eqb].
  destruct (scan_begin_src c =? TRIG_EXT);
    [|reflexivity].
  rewrite andb_true_r in X1, X5. rewrite X1, X5. reflexivity.
Qed.

(** X16 ([pci9118_ai_cmdtest], phases 1 and 2).  The negotiation stops
    in its first or second phase exactly for the commands whose trigger
    sources are not among those the driver takes: the sources accepted
    are a start now, by external trigger or by software; a scan end by
    count; a stop by count, never or by external trigger; with bus
    mastering a timed or externally triggered scan of timed or
    back-to-back conversions, and in any case an untimed scan of timed or
    externally triggered conversions; and the external trigger never
    both for the scan and for the start or the stop. *)
Theorem cmdtest_accepted_sources (dev : comedi_device) (c : comedi_cmd) :
  sources_accepted (nz (master (private dev))) c
  = negb ((fst (pci9118_ai_cmdtest dev c) =? 1)
          || (fst (pci9118_ai_cmdtest dev c) =? 2)).
Proof.
  clear_unused.
  destruct (sources_accepted (nz (master (private dev))) c) eqn:A.
  - destruct (sources_accepted_pass dev c A) as [H1 H2].
    destruct (cmdtest_phase_after_2 dev c H1 H2) as [N1 N2].
    apply Z.eqb_neq in N1, N2. rewrite N1, N2. reflexivity.
  - destruct (Z.eqb_spec (fst (pci9118_ai_cmdtest dev c)) 1) as [|N1];
      [reflexivity|].
    destruct (Z.eqb_spec (fst (pci9118_ai_cmdtest dev c)) 2) as [|N2];
      [reflexivity|].
    destruct (cmdtest_past_step2 dev c N1 N2) as [H1 H2].
    rewrite (sources_accepted_from_pass dev c H1 H2) in A. discriminate A.
Qed.
(** ** The interrupt service routine *)

(** X17 ([pci9118_interrupt]).  The interrupt is the card's when the
    device is attached and the card names a source or the bridge flags
    an interrupt.  When it is not, the routine answers [IRQ_NONE] and
    touches nothing; when it is, it never answers [IRQ_NONE], and with
    no acquisition running it answers [IRQ_HANDLED] after a single port
    write, the acknowledge to the bridge. *)
Theorem interrupt_ownership (attached : bool) (dma_buffer : list Z)
    (dev : comedi_device) :
  let intsrc := Z.land (u32 (inl (CardReg PCI9118_INTSRC) dev)) 0xf in
  let intcsr := u32 (inl (AmccReg AMCC_OP_REG_INTCSR) dev) in
  let ours := attached && (nz intsrc || nz (Z.land intcsr ANY_S593X_INT)) in
  let r := pci9118_interrupt attached dma_buffer dev in
  (ours = false -> r = Some (IRQ_NONE, dev))
  /\ (ours = true -> forall dev', r <> Some (IRQ_NONE, dev'))
  /\ (ours = true -> ai_do (private dev) = 0 ->
      r = Some (IRQ_HANDLED,
                outl (Z.lor intcsr 0x00ff0000) (AmccReg AMCC_OP_REG_INTCSR)
                  dev)).
Proof.
  clear_unused.
  cbv zeta. unfold pci9118_interrupt. cbv zeta.
  destruct attached; cbn [negb andb];
    [|split; [reflexivity|split; discriminate]].
  destruct (nz (Z.land (u32 (inl (CardReg PCI9118_INTSRC) dev)) 15));
    cbn [negb andb orb].
  - split; [discriminate|]. split.
    + intros _ dev'.
      change (ai_do (private (outl ?v ?p dev))) with (ai_do (private dev)).
      destruct (nz (ai_do (private dev))); cbn [negb]; [|discriminate].
      destruct (if nz _ then _ else _); discriminate.
    + intros _ E.
      change (ai_do (private (outl ?v ?p dev))) with (ai_do (private dev)).
      rewrite E. reflexivity.
  - destruct (nz (Z.land (u32 (inl (AmccReg AMCC_OP_REG_INTCSR) dev))
                         ANY_S593X_INT)); cbn [negb].
    + split; [discriminate|]. split.
      * intros _ dev'.
        change (ai_do (private (outl ?v ?p dev))) with (ai_do (private dev)).
        destruct (nz (ai_do (private dev))); cbn [negb]; [|discriminate].
        destruct (if nz _ then _ else _); discriminate.
      * intros _ E.
        change (ai_do (private (outl ?v ?p dev))) with (ai_do (private dev)).
        rewrite E. reflexivity.
    + split; [reflexivity|split; discriminate].
Qed.

(** X18 ([interrupt_pci9118_ai_onesample]).  Scan accounting of one
    sample, from the state the buffer writer leaves: with no error bit
    flagged and the position inside the scan, the sample written is the
    16-bit word at the data port, the position stays inside the scan,
    and the sample is counted once, as [scan_end_arg] samples per
    finished scan plus the position in the running scan.  The end of
    the acquisition is flagged at most then, and only when a scan was
    just finished, the run has an end, and the scans done have reached
    [stop_arg]. *)
Theorem onesample_scan_accounting (dev : comedi_device)
    (int_adstat int_amcc int_daq : Z) :
  let d0 :=
    cfc_write_to_buffer dev (u16 (inl (CardReg PCI9118_AD_DATA) dev)) in
  let e := scan_end_arg (dev_cmd d0) in
  let c := cur_chan (dev_async d0) in
  let a := ai_act_scan (private d0) in
  Z.land (u16 int_adstat) (ai_maskerr (private dev)) = 0 ->
  0 <= c < e -> e < 2 ^ 32 -> 0 <= a -> a + 1 < 2 ^ 32 ->
  exists d,
    interrupt_pci9118_ai_onesample dev int_adstat int_amcc int_daq
    = Some (cfc_handle_events d)
    /\ 0 <= cur_chan (dev_async d) < e
    /\ ai_act_scan (private d) * e + cur_chan (dev_async d) = a * e + c + 1
    /\ (events (dev_async d) = events (dev_async d0)
        \/ (events (dev_async d)
            = Z.lor (events (dev_async d0)) COMEDI_CB_EOA
            /\ c + 1 = e
            /\ ai_neverending (private d0) = 0
            /\ stop_arg (dev_cmd d0) <= a + 1)).
Proof.
  clear_unused.
  intros d0 e c a Herr Hc He Ha Ha1.
  unfold interrupt_pci9118_ai_onesample. cbv zeta.
  rewrite Herr. clear Herr. change (nz 0) with false. cbv iota.
  cbn [fst snd].
  change (nz 0) with false. cbv iota.
  fold d0.
  change (scan_end_arg (dev_cmd (upd_async ?f d0))) with e.
  change (cur_chan (dev_async
            (upd_async (fun a0 => set_cur_chan (u32 (cur_chan a0 + 1)) a0) d0)))
    with (u32 (c + 1)).
  unfold u32 at 1. rewrite (Z.mod_small (c + 1)) by lia.
  destruct (Z.geb_spec (c + 1) e) as [G|G].
  - replace (e =? 0) with false by (symmetry; apply Z.eqb_neq; lia).
    assert (E : c + 1 = e) by lia.
    set (d2 := upd_priv _ _).
    assert (F : ai_act_scan (private d2) = a + 1
                /\ cur_chan (dev_async d2) = 0
                /\ ai_neverending (private d2) = ai_neverending (private d0)
                /\ stop_arg (dev_cmd d2) = stop_arg (dev_cmd d0)
                /\ events (dev_async d2) = events (dev_async d0)
                /\ scan_end_arg (dev_cmd d2) = e).
    { subst d2.
      assert (M : (u32 (c + 1)) mod e = 0).
      { unfold u32. rewrite (Z.mod_small (c + 1)) by lia. rewrite E.
        apply Z_mod_same_full. }
      clearbody d0.
      destruct d0 as [b p s i l k]. destruct p. destruct s as [lc md as0].
      destruct as0 as [pb cc ev it cm].
      lazy -[u32 Z.div Z.modulo Z.add Z.mul Z.lt Z.le Z.lor] in M |- *.
      subst e c a.
      lazy -[u32 Z.div Z.modulo Z.add Z.mul Z.lt Z.le Z.lor] in Ha, Ha1.
      fold (u32 (cc + 1)). rewrite M.
      unfold u32. rewrite Z.mod_small by lia. repeat split. }
    clearbody d2. destruct F as (F1 & F2 & F3 & F4 & F5 & F6).
    unfold all_data_sampled. rewrite F1, F3, F4.
    destruct (nz (ai_neverending (private d0))) eqn:N; cbn [negb].
    + exists d2. split; [reflexivity|]. rewrite F1, F2, F5.
      split; [lia|]. split; [lia|]. left. reflexivity.
    + apply nz_false in N.
      destruct (Z.geb_spec (a + 1) (stop_arg (dev_cmd d0))) as [S|S].
      * eexists. split; [reflexivity|].
        change (cur_chan (dev_async (upd_async ?f d2)))
          with (cur_chan (dev_async d2)).
        change (private (upd_async ?f d2)) with (private d2).
        change (events (dev_async (upd_async ?f d2)))
          with (Z.lor (events (dev_async d2)) COMEDI_CB_EOA).
        rewrite F1, F2, F5.
        split; [lia|]. split; [lia|]. right. repeat split; try lia.
      * exists d2. split; [reflexivity|]. rewrite F1, F2, F5.
        split; [lia|]. split; [lia|]. left. reflexivity.
  - eexists. split; [reflexivity|].
    clearbody d0.
    destruct d0 as [b p s i l k]. destruct p. destruct s as [lc md as0].
    destruct as0 as [pb cc ev it cm].
    lazy -[u32 Z.div Z.modulo Z.add Z.mul Z.lt Z.le Z.lor] in *.
    subst e c a. unfold u32. rewrite Z.mod_small by lia.
    repeat split; try lia.
Qed.
(** ** The start of a run *)

Lemma cw_outl (reg v o : Z) (dev : comedi_device) :
  card_words reg (io_log (outl v (CardReg o) dev))
  = card_words reg (io_log dev) ++ (if o =? reg then [v] else []).
Proof.
  clear_unused.
  unfold card_words, outl. cbn [io_log set_io_log List.filter fst].
  destruct (o =? reg); [|rewrite app_nil_r; reflexivity].
  cbn [map rev snd]. reflexivity.
Qed.

Lemma cw_outl_amcc (reg v o : Z) (dev : comedi_device) :
  card_words reg (io_log (outl v (AmccReg o) dev))
  = card_words reg (io_log dev).
Proof. clear_unused. reflexivity. Qed.

Lemma cw_start_pacer (dev : comedi_device) (mode : Z) :
  card_words PCI9118_ADCNTRL (io_log (pci9118_start_pacer dev mode))
  = card_words PCI9118_ADCNTRL (io_log dev).
Proof.
  clear_unused.
  unfold pci9118_start_pacer. cbv zeta.
  destruct ((mode =? 1) || (mode =? 2) || (mode =? 4)); reflexivity.
Qed.

Lemma cw_exttrg_add (dev : comedi_device) (source : Z) :
  card_words PCI9118_ADCNTRL (io_log (snd (pci9118_exttrg_add dev source)))
  = card_words PCI9118_ADCNTRL (io_log dev).
Proof.
  clear_unused.
  unfold pci9118_exttrg_add. cbv zeta.
  destruct (u8 source >? 3); reflexivity.
Qed.

(** Bits that are set in an eight-bit register stay set when more bits
    are set. *)
Lemma u8_lor_holds (y m b : Z) :
  0 <= m < 256 -> 0 <= b < 256 -> Z.land y m = m ->
  Z.land (u8 (Z.lor y b)) (Z.lor m b) = Z.lor m b.
Proof.
  clear_unused.
  intros Hm Hb H. rewrite u8_land_ones.
  apply Z.bits_inj'. intros n Hn.
  rewrite !Z.land_spec, !Z.lor_spec.
  assert (Y : Z.testbit y n && Z.testbit m n = Z.testbit m n).
  { rewrite <- Z.land_spec, H. reflexivity. }
  destruct (Z.ltb_spec n 8).
  - rewrite Z.ones_spec_low by lia.
    destruct (Z.testbit y n), (Z.testbit m n), (Z.testbit b n);
      try reflexivity; discriminate Y.
  - assert (Bm : Z.testbit m n = false).
    { destruct (Z.eq_dec m 0) as [->|]; [apply Z.bits_0|].
      apply Z.bits_above_log2; [lia|].
      assert (Z.log2 m < 8) by (apply Z.log2_lt_pow2; lia). lia. }
    assert (Bb : Z.testbit b n = false).
    { destruct (Z.eq_dec b 0) as [->|]; [apply Z.bits_0|].
      apply Z.bits_above_log2; [lia|].
      assert (Z.log2 b < 8) by (apply Z.log2_lt_pow2; lia). lia. }
    rewrite Bm, Bb, !andb_false_r. reflexivity.
Qed.

(** X19 ([pci9118_ai_docmd_sampl]).  The interrupt-per-sample start-up
    sends nothing to the control register of the card, whatever the mode
    and the pending triggers: the words that register has received are
    the same before and after.  In mode 1 with no start pending, the
    control word kept in the session leaves the routine with the
    software gate, the interrupt enable and the timer trigger set. *)
Theorem docmd_sampl_control_register (dev : comedi_device) :
  let dev' := snd (pci9118_ai_docmd_sampl dev) in
  card_words PCI9118_ADCNTRL (io_log dev')
  = card_words PCI9118_ADCNTRL (io_log dev)
  /\ (ai_do (private dev) = 1 -> ai12_startstop (private dev) = 0 ->
      Z.land (AdControlReg (private dev'))
        (Z.lor (Z.lor AdControl_SoftG AdControl_Int) AdControl_TmrTr)
      = Z.lor (Z.lor AdControl_SoftG AdControl_Int) AdControl_TmrTr).
Proof.
  clear_unused.
  cbv zeta. split.
  - unfold pci9118_ai_docmd_sampl.
    destruct (docmd_sampl_mode_setup dev) as [d1|msg] eqn:S; cbn [snd];
      [|reflexivity].
    assert (D1 : card_words PCI9118_ADCNTRL (io_log d1)
                 = card_words PCI9118_ADCNTRL (io_log dev)).
    { unfold docmd_sampl_mode_setup in S. cbv zeta in S.
      destruct (ai_do (private dev) =? 1);
        [injection S as <-; reflexivity|].
      destruct (ai_do (private dev) =? 2); [discriminate S|].
      destruct (ai_do (private dev) =? 3);
        [injection S as <-; reflexivity|].
      destruct (ai_do (private dev) =? 4); discriminate S. }
    rewrite <- D1. clear S D1. cbv zeta.
    set (d2 := if nz (ai12_startstop (private d1)) then _ else d1).
    assert (D2 : card_words PCI9118_ADCNTRL (io_log d2)
                 = card_words PCI9118_ADCNTRL (io_log d1)).
    { subst d2. destruct (nz _); [apply cw_exttrg_add|reflexivity]. }
    rewrite <- D2. clearbody d2. clear D2.
    set (d3 := if (ai_do (private d2) =? 1) || (ai_do (private d2) =? 2)
               then _ else d2).
    assert (D3 : card_words PCI9118_ADCNTRL (io_log d3)
                 = card_words PCI9118_ADCNTRL (io_log d2)).
    { subst d3. destruct (_ || _); reflexivity. }
    rewrite <- D3. clearbody d3. clear D3.
    set (d4 := outl _ (AmccReg AMCC_OP_REG_INTCSR) _).
    assert (D4 : card_words PCI9118_ADCNTRL (io_log d4)
                 = card_words PCI9118_ADCNTRL (io_log d3)) by reflexivity.
    rewrite <- D4. clearbody d4. clear D4.
    destruct (negb _); [|reflexivity].
    rewrite cw_outl. change (PCI9118_INTCTRL =? PCI9118_ADCNTRL) with false.
    rewrite app_nil_r.
    destruct (negb (ai_do _ =? 3)).
    + unfold or_AdControlReg.
      change (io_log (upd_priv ?f ?d)) with (io_log d).
      rewrite cw_start_pacer. reflexivity.
    + reflexivity.
  - intros M S.
    assert (E : AdControlReg (private (snd (pci9118_ai_docmd_sampl dev)))
                = u8 (Z.lor
                        (u8 (Z.lor
                               (u8 (Z.lor (AdControlReg (private dev))
                                          AdControl_TmrTr))
                               AdControl_Int))
                        AdControl_SoftG)).
    { destruct dev as [b p s i l k]. destruct p.
      cbn [private ai_do ai12_startstop] in M, S. subst.
      lazy -[Z.lor u8]. reflexivity. }
    rewrite E. clear E. generalize (AdControlReg (private dev)). intros x.
    change (Z.lor (Z.lor AdControl_SoftG AdControl_Int) AdControl_TmrTr)
      with (Z.lor (Z.lor (Z.lor 0 AdControl_TmrTr) AdControl_Int)
                  AdControl_SoftG).
    repeat apply u8_lor_holds;
      try (vm_compute; split; [discriminate|reflexivity]).
    apply Z.land_0_r.
Qed.

(** X20 ([pci9118_ai_inttrig]).  The software start refuses any trigger
    number but the one the command names, with -EINVAL and nothing
    changed.  With the right number it returns 1, is disarmed (the
    callback is removed and the pending software start cleared, the
    other pending bits kept), sets the software gate in every mode but
    3, and, last of all, sends the control word to the card: the
    control register receives exactly one more word, the one kept in
    the session. *)
Theorem ai_inttrig_start (dev : comedi_device) (trig_num : Z) :
  let r := pci9118_ai_inttrig_call dev trig_num in
  (trig_num <> start_arg (dev_cmd dev) -> r = (- EINVAL, dev))
  /\ (trig_num = start_arg (dev_cmd dev) ->
      fst r = 1
      /\ inttrig (dev_async (snd r)) = None
      /\ ai12_startstop (private (snd r))
         = u8 (clear_bits (ai12_startstop (private dev)) START_AI_INT)
      /\ AdControlReg (private (snd r))
         = (if ai_do (private dev) =? 3 then AdControlReg (private dev)
            else u8 (Z.lor (AdControlReg (private dev)) AdControl_SoftG))
      /\ hd_error (io_log (snd r))
         = Some (CardReg PCI9118_ADCNTRL, AdControlReg (private (snd r)))
      /\ card_words PCI9118_ADCNTRL (io_log (snd r))
         = card_words PCI9118_ADCNTRL (io_log dev)
           ++ [AdControlReg (private (snd r))]).
Proof.
  clear_unused.
  cbv zeta. unfold pci9118_ai_inttrig_call.
  split; intros H.
  - apply Z.eqb_neq in H. rewrite H. reflexivity.
  - rewrite H, Z.eqb_refl. cbv zeta. cbn [negb fst snd].
    split; [reflexivity|].
    set (d3 := outl _ (CardReg PCI9118_ADFUNC) _).
    assert (P3 : private d3
                 = set_ai12_startstop
                     (u8 (clear_bits (ai12_startstop (private dev))
                            START_AI_INT)) (private dev)) by reflexivity.
    assert (A3 : inttrig (dev_async d3) = None) by reflexivity.
    assert (C3 : card_words PCI9118_ADCNTRL (io_log d3)
                 = card_words PCI9118_ADCNTRL (io_log dev)) by reflexivity.
    clearbody d3.
    assert (M3 : ai_do (private d3) = ai_do (private dev)).
    { rewrite P3. destruct (private dev). reflexivity. }
    rewrite M3.
    destruct (ai_do (private dev) =? 3) eqn:M; cbn [negb].
    + rewrite cw_outl, Z.eqb_refl, C3.
      change (private (outl ?v ?p d3)) with (private d3).
      change (dev_async (outl ?v ?p d3)) with (dev_async d3).
      rewrite P3. destruct (private dev).
      repeat split; try reflexivity. exact A3.
    + set (d4 := upd_priv _ (pci9118_start_pacer d3 _)).
      assert (P4 : private d4
                   = set_AdControlReg
                       (u8 (Z.lor (AdControlReg (private d3))
                              AdControl_SoftG)) (private d3)).
      { subst d4. unfold upd_priv. cbn [private set_private].
        rewrite start_pacer_private. reflexivity. }
      assert (A4 : dev_async d4 = dev_async d3).
      { subst d4. unfold upd_priv, dev_async.
        cbn [read_subdev set_private]. rewrite start_pacer_subdev.
        reflexivity. }
      assert (C4 : card_words PCI9118_ADCNTRL (io_log d4)
                   = card_words PCI9118_ADCNTRL (io_log d3)).
      { subst d4. change (io_log (upd_priv ?f ?d)) with (io_log d).
        apply cw_start_pacer. }
      clearbody d4.
      rewrite cw_outl, Z.eqb_refl, C4, C3.
      change (private (outl ?v ?p d4)) with (private d4).
      change (dev_async (outl ?v ?p d4)) with (dev_async d4).
      rewrite A4, P4, P3. destruct (private dev).
      repeat split; try reflexivity. exact A3.
Qed.
(** ** Accepted commands *)

Lemma cfc_check_trigger_arg_min_keep (arg val : Z) :
  fst (cfc_check_trigger_arg_min arg val) = 0 ->
  snd (cfc_check_trigger_arg_min arg val) = arg.
Proof.
  clear_unused.
  intros H. apply cfc_check_trigger_arg_min_ok in H. apply H.
Qed.

Ltac keep_args :=
  repeat match goal with
         | H : fst (cfc_check_trigger_arg_min ?a ?v) = 0 |- _ =>
             rewrite (cfc_check_trigger_arg_min_keep a v H); clear H
         | H : fst (cfc_check_trigger_arg_is ?a ?v) = 0 |- _ =>
             rewrite (cfc_check_trigger_arg_is_keep a v H); clear H
         end.

Ltac step3_finish H :=
  match type of H with
  | (if ?b then _ else _) = _ => destruct b
  end;
  injection H as H <-;
  [exfalso; exact (lor_err_nonzero _ H)|];
  lor_zero H;
  try match goal with
      | X : - EINVAL = 0 |- _ => discriminate X
      end;
  keep_args; lazy; reflexivity.

Ltac fold_proj_in H :=
  repeat match type of H with
         | context [let (x, _) := ?p in x] =>
             change (let (x, _) := p in x) with (fst p) in H
         | context [let (_, y) := ?p in y] =>
             change (let (_, y) := p in y) with (snd p) in H
         end.

(** Runs phase 3 on a command whose arguments under an equality test are
    given by their constructors, the tests being decided on the way. *)
Ltac run_phase_ext_in H :=
  cbv delta [pci9118_ai_cmdtest_step3] in H;
  change (Z.lor TRIG_FOLLOW TRIG_EXT) with 68 in H;
  change (Z.lor TRIG_TIMER TRIG_NOW) with 18 in H;
  lazy -[Z.lor cfc_check_trigger_arg_min cfc_check_trigger_arg_max
         Z.modulo Z.div Z.mul Z.add Z.opp u32 ai_ns_min board_ptr EINVAL]
    in H;
  fold_proj_in H.

Ltac split_sources :=
  repeat match goal with
         | H : (_ && _) = true |- _ =>
             apply andb_true_iff in H; destruct H
         | H : (_ || _) = true |- _ =>
             apply orb_true_iff in H; destruct H
         | H : (?x =? _) = true |- _ =>
             is_var x; apply Z.eqb_eq in H; subst x
         | H : false = true |- _ => discriminate H
         end.

(** Phase 3 hands an accepted command back as it came, but for the
    rewrite of a timed single-conversion scan. *)
Lemma step3_accept_unchanged (dev : comedi_device) (c c' : comedi_cmd) :
  sources_accepted (nz (master (private dev))) c = true ->
  pci9118_ai_cmdtest_step3 dev c = (0, c') ->
  c' = cmdtest_single_scan_rewrite c.
Proof.
  clear_unused.
  unfold sources_accepted, source_pair_ok, one_of. destruct c.
  cbn [start_src stop_src scan_begin_src convert_src scan_end_src existsb].
  intros A H.
  apply andb_true_iff in A. destruct A as [A X].
  split_sources.
  all: vm_compute in X; try discriminate X; clear X.
  all: lazymatch type of H with
       | pci9118_ai_cmdtest_step3 _
           (Build_comedi_cmd _ _ TRIG_EXT _ _ _ _ _ _ _ _ _ _) = _ =>
           destruct scan_begin_arg0, start_arg0, stop_arg0;
           run_phase_ext_in H; step3_finish H
       | pci9118_ai_cmdtest_step3 _
           (Build_comedi_cmd _ _ TRIG_TIMER _ TRIG_TIMER _ _ _ _ _ _ _ _)
         = _ =>
           destruct scan_end_arg0 as [|[q|q|]|q];
           run_phase_in H; step3_finish H
       | _ => run_phase_in H; step3_finish H
       end.
Qed.

Lemma set_fields_same (c : comedi_cmd) :
  set_scan_begin_arg (scan_begin_arg c) c = c
  /\ set_convert_arg (convert_arg c) c = c.
Proof. clear_unused. destruct c. split; reflexivity. Qed.

Ltac pair_eq H He Hc :=
  pose proof (f_equal fst H) as He; pose proof (f_equal snd H) as Hc;
  cbn [fst snd] in He, Hc; clear H.

(** Phase 4 hands an accepted command back as it came. *)
Lemma step4_accept_unchanged (dev : comedi_device) (c c' : comedi_cmd) :
  pci9118_ai_cmdtest_step4 dev c = (0, c') -> c' = c.
Proof.
  unfold pci9118_ai_cmdtest_step4. cbv zeta.
  destruct (set_fields_same c) as [S1 S2].
  destruct (scan_begin_src c =? TRIG_TIMER) eqn:T.
  - destruct (i8253_cascade_ns_to_timer _ 0 0 _ _) as [[d1 d2] arg].
    cbn [fst snd].
    destruct (Z.eq_dec (fst (cfc_check_trigger_arg_is (scan_begin_arg c) arg))
                0) as [E|E].
    + rewrite (cfc_check_trigger_arg_is_keep _ _ E), E, S1.
      destruct (nz (Z.land (convert_src c) (Z.lor TRIG_TIMER TRIG_NOW))).
      * destruct (i8253_cascade_ns_to_timer _ d1 d2 _ _) as [[d3 d4] arg2].
        destruct (Z.eq_dec
                    (fst (cfc_check_trigger_arg_is (convert_arg c) arg2)) 0)
          as [E2|E2].
        -- rewrite (cfc_check_trigger_arg_is_keep _ _ E2), E2, S2, T.
           destruct (true && (convert_src c =? TRIG_NOW)).
           ++ intros H. pair_eq H He Hc. lor_zero He.
              rewrite (cfc_check_trigger_arg_min_keep _ _ He0) in Hc.
              rewrite S1 in Hc. symmetry. exact Hc.
           ++ intros H. pair_eq H He Hc. symmetry. exact Hc.
        -- destruct (_ && _); intros H; pair_eq H He Hc; lor_zero He;
             contradiction.
      * intros H. pair_eq H He Hc. symmetry. exact Hc.
    + destruct (nz (Z.land _ (Z.lor TRIG_TIMER TRIG_NOW))).
      * destruct (i8253_cascade_ns_to_timer _ d1 d2 _ _) as [[d3 d4] arg2].
        destruct (_ && _); intros H; pair_eq H He Hc; lor_zero He;
          contradiction.
      * intros H. pair_eq H He Hc. lor_zero He. contradiction.
  - destruct (nz (Z.land (convert_src c) (Z.lor TRIG_TIMER TRIG_NOW))).
    + destruct (i8253_cascade_ns_to_timer _ 0 0 _ _) as [[d3 d4] arg2].
      destruct (Z.eq_dec
                  (fst (cfc_check_trigger_arg_is (convert_arg c) arg2)) 0)
        as [E2|E2].
      * rewrite (cfc_check_trigger_arg_is_keep _ _ E2), E2, S2, T.
        cbn [andb]. intros H. pair_eq H He Hc. symmetry. exact Hc.
      * destruct (_ && _); intros H; pair_eq H He Hc; lor_zero He;
          contradiction.
    + intros H. pair_eq H He Hc. symmetry. exact Hc.
Qed.

(** X21 ([pci9118_ai_cmdtest]).  A command the negotiation accepts
    (return value 0) comes back as it was submitted, with one
    exception: a timed scan of a single timed conversion comes back
    rewritten as an untimed scan whose convert period is the scan period
    that was asked for. *)
Theorem cmdtest_accept_unchanged (dev : comedi_device) (c : comedi_cmd) :
  fst (pci9118_ai_cmdtest dev c) = 0 ->
  snd (pci9118_ai_cmdtest dev c) = cmdtest_single_scan_rewrite c.
Proof.
  intros H.
  assert (N1 : fst (pci9118_ai_cmdtest dev c) <> 1)
    by (rewrite H; discriminate).
  assert (N2 : fst (pci9118_ai_cmdtest dev c) <> 2)
    by (rewrite H; discriminate).
  destruct (cmdtest_past_step2 dev c N1 N2) as [P1 P2].
  pose proof (cmdtest_step1_ok dev c P1) as V. cbv zeta in V.
  destruct V as (S1 & _).
  assert (Q1 : pci9118_ai_cmdtest_step1 dev c = (0, c)).
  { destruct (pci9118_ai_cmdtest_step1 dev c) as [e1 c1].
    cbn [fst snd] in P1, S1. congruence. }
  pose proof (sources_accepted_from_pass dev c P1 P2) as A.
  rewrite (cmdtest_after_step2 dev c Q1 P2) in H |- *. cbv zeta in H |- *.
  destruct (pci9118_ai_cmdtest_step3 dev c) as [e3 c3] eqn:E3.
  cbn [fst snd] in H |- *.
  destruct (nz e3) eqn:Z3; [discriminate H|].
  apply nz_false in Z3. subst e3.
  rewrite <- (step3_accept_unchanged dev c c3 A E3).
  destruct (pci9118_ai_cmdtest_step4 dev c3) as [e4 c4] eqn:E4.
  cbn [fst snd] in H |- *.
  destruct (nz e4) eqn:Z4; [discriminate H|].
  apply nz_false in Z4. subst e4.
  rewrite (step4_accept_unchanged dev c3 c4 E4) in H |- *.
  destruct (chanlist c3) as [l|]; [|reflexivity].
  destruct (negb _); [discriminate H|reflexivity].
Qed.

Ltac use_checks :=
  repeat match goal with
         | H : fst (cfc_check_trigger_arg_min ?a ?v) = 0 |- _ =>
             let L := fresh "L" in
             let K := fresh "K" in
             let x := fresh "x" in
             destruct (cfc_check_trigger_arg_min_ok a v H) as [L K];
             clear H;
             set (x := snd (cfc_check_trigger_arg_min a v)) in *;
             clearbody x; subst x
         | H : fst (cfc_check_trigger_arg_is ?a ?v) = 0 |- _ =>
             let x := fresh "x" in
             let K := fresh "K" in
             apply (proj1 (cfc_check_trigger_arg_is_ok a v)) in H;
             pose proof (cfc_check_trigger_arg_is_snd a v) as K;
             set (x := snd (cfc_check_trigger_arg_is a v)) in *;
             clearbody x; subst x
         end.

Ltac step3_args_finish H :=
  let M := fresh "M" in
  match type of H with
  | (if ?b then _ else _) = _ => destruct b eqn:M
  end;
  injection H as H <-;
  [exfalso; exact (lor_err_nonzero _ H)|];
  lor_zero H;
  try match goal with
      | X : - EINVAL = 0 |- _ => discriminate X
      end;
  use_checks;
  try first
    [ apply (proj1 (nz_false _)) in M
    | apply (proj1 (negb_false_iff _)) in M;
      try (apply (proj1 (Z.eqb_eq _ _)) in M) ];
  try (match type of M with
       | match ?x with _ => _ end = true =>
           let E := fresh "E" in
           assert (E : x = 0)
             by (destruct x; [reflexivity|discriminate M|discriminate M]);
           clear M
       end);
  unfold args_checked;
  cbn [start_src start_arg scan_begin_src scan_begin_arg convert_src
       convert_arg scan_end_src scan_end_arg stop_src stop_arg chanlist
       chanlist_len flags];
  repeat split;
  try (intros [X|X]; discriminate X); try (intros X; discriminate X);
  intros; try assumption; try reflexivity; try lia;
  try (match goal with
       | N : _ <> _ |- _ => exfalso; apply N; reflexivity
       end).

(** Phase 3 passes only commands whose arguments fit their sources. *)
Lemma step3_accept_args (dev : comedi_device) (c c' : comedi_cmd) :
  sources_accepted (nz (master (private dev))) c = true ->
  pci9118_ai_cmdtest_step3 dev c = (0, c') ->
  args_checked (ai_ns_min (board_ptr dev)) c'.
Proof.
  clear_unused.
  unfold sources_accepted, source_pair_ok, one_of. destruct c.
  cbn [start_src stop_src scan_begin_src convert_src scan_end_src existsb].
  intros A H.
  apply andb_true_iff in A. destruct A as [A X].
  split_sources.
  all: vm_compute in X; try discriminate X; clear X.
  all: lazymatch type of H with
       | pci9118_ai_cmdtest_step3 _
           (Build_comedi_cmd _ _ TRIG_EXT _ _ _ _ _ _ _ _ _ _) = _ =>
           destruct scan_begin_arg0, start_arg0, stop_arg0;
           run_phase_ext_in H; step3_args_finish H
       | pci9118_ai_cmdtest_step3 _
           (Build_comedi_cmd _ _ TRIG_TIMER _ TRIG_TIMER _ _ _ _ _ _ _ _)
         = _ =>
           destruct scan_end_arg0 as [|[q|q|]|q];
           run_phase_in H; step3_args_finish H
       | _ => run_phase_in H; step3_args_finish H
       end.
Qed.

(** X22 ([pci9118_ai_cmdtest], [check_channel_list]).  What an accepted
    command guarantees to the code that runs it: its arguments fit its
    sources (no stray start argument or scan period, periods of at least
    the board's minimum, a scan count of at least one exactly when the
    run stops by count), its scans are a whole, positive number of
    passes over a non-empty channel list, so that the scan length is
    never zero, and its channel list, when there is one, has passed the
    channel-list check. *)
Theorem cmdtest_accept_args (dev : comedi_device) (c : comedi_cmd) :
  fst (pci9118_ai_cmdtest dev c) = 0 ->
  let c' := snd (pci9118_ai_cmdtest dev c) in
  args_checked (ai_ns_min (board_ptr dev)) c'
  /\ 0 < scan_end_arg c'
  /\ (forall l, chanlist c' = Some l ->
        check_channel_list dev (s32 (chanlist_len c')) l 0 0 <> 0).
Proof.
  intros H.
  assert (N1 : fst (pci9118_ai_cmdtest dev c) <> 1)
    by (rewrite H; discriminate).
  assert (N2 : fst (pci9118_ai_cmdtest dev c) <> 2)
    by (rewrite H; discriminate).
  destruct (cmdtest_past_step2 dev c N1 N2) as [P1 P2].
  pose proof (cmdtest_step1_ok dev c P1) as V. cbv zeta in V.
  destruct V as (S1 & _).
  assert (Q1 : pci9118_ai_cmdtest_step1 dev c = (0, c)).
  { destruct (pci9118_ai_cmdtest_step1 dev c) as [e1 c1].
    cbn [fst snd] in P1, S1. congruence. }
  pose proof (sources_accepted_from_pass dev c P1 P2) as A.
  rewrite (cmdtest_after_step2 dev c Q1 P2) in H |- *. cbv zeta in H |- *.
  destruct (pci9118_ai_cmdtest_step3 dev c) as [e3 c3] eqn:E3.
  cbn [fst snd] in H |- *.
  destruct (nz e3) eqn:Z3; [discriminate H|].
  apply nz_false in Z3. subst e3.
  pose proof (step3_accept_args dev c c3 A E3) as G.
  destruct (pci9118_ai_cmdtest_step4 dev c3) as [e4 c4] eqn:E4.
  cbn [fst snd] in H |- *.
  destruct (nz e4) eqn:Z4; [discriminate H|].
  apply nz_false in Z4. subst e4.
  rewrite (step4_accept_unchanged dev c3 c4 E4) in H |- *.
  assert (P : 0 < scan_end_arg c3).
  { unfold args_checked in G. lia. }
  destruct (chanlist c3) as [l|] eqn:L.
  - destruct (negb (nz (check_channel_list dev (s32 (chanlist_len c3)) l 0 0)))
      eqn:K; [discriminate H|].
    cbn [snd]. split; [exact G|]. split; [exact P|].
    intros l' E. rewrite L in E. injection E as <-.
    apply negb_false_iff in K. apply nz_true in K. exact K.
  - cbn [snd]. split; [exact G|]. split; [exact P|].
    intros l' E. rewrite L in E. discriminate E.
Qed.
(** ** DMA transfer lengths *)

Lemma clear_low2 (x : Z) : clear_bits x 3 = 4 * (x / 4).
Proof.
  clear_unused.
  unfold clear_bits. rewrite <- Z.ldiff_land.
  change 3 with (Z.ones 2). rewrite Z.ldiff_ones_r by lia.
  rewrite Z.shiftl_mul_pow2, Z.shiftr_div_pow2 by lia.
  change (2 ^ 2) with 4. lia.
Qed.

Lemma clear_low2_range (x : Z) :
  0 <= x < 2 ^ 32 -> 0 <= u32 (clear_bits x 3) <= x.
Proof.
  clear_unused.
  intros H. rewrite clear_low2. unfold u32.
  pose proof (Z.mul_div_le x 4 ltac:(lia)).
  assert (0 <= x / 4) by (apply Z.div_pos; lia).
  rewrite Z.mod_small by lia. lia.
Qed.

Lemma dma_wake_eos_len_bound (n : string) (dmalen : Z)
    (dev : comedi_device) :
  0 <= dmalen ->
  0 <= fst (dma_wake_eos_len n dmalen dev) <= Z.max dmalen 4.
Proof.
  clear_unused.
  intros H. unfold dma_wake_eos_len. cbv zeta.
  destruct (nz (Z.land (ai_flags (private dev)) TRIG_WAKE_EOS));
    [|cbn [fst]; lia].
  destruct (Z.ltb_spec dmalen (u32 (Z.shiftl (ai_n_realscanlen (private dev)) 1)));
    [cbn [fst]; lia|].
  destruct (Z.ltb_spec (u32 (Z.shiftl (ai_n_realscanlen (private dev)) 1)) 4);
    cbn [fst]; [lia|].
  lia.
Qed.

Lemma dma_wake_eos_len_frame (n : string) (dmalen : Z)
    (dev : comedi_device) :
  let d := snd (dma_wake_eos_len n dmalen dev) in
  ai_n_realscanlen (private d) = ai_n_realscanlen (private dev)
  /\ dmabuf_size (private d) = dmabuf_size (private dev)
  /\ dmabuf_hw (private d) = dmabuf_hw (private dev).
Proof.
  clear_unused.
  unfold dma_wake_eos_len. cbv zeta.
  destruct (nz _); [|repeat split].
  destruct (_ <? _); [destruct dev as [b p s i l k]; destruct p; repeat split|].
  destruct (_ <? 4); repeat split.
Qed.

Lemma dma_align_to_scan_bound (dmalen n : Z) :
  0 <= dmalen < 2 ^ 32 -> 0 < u32 (Z.shiftl n 1) ->
  0 <= dma_align_to_scan dmalen n <= dmalen.
Proof.
  clear_unused.
  intros H Hs. unfold dma_align_to_scan. cbv zeta.
  set (s := u32 (Z.shiftl n 1)) in *.
  assert (T : 0 <= dmalen / s * s <= dmalen).
  { pose proof (Z.mul_div_le dmalen s Hs).
    assert (0 <= dmalen / s) by (apply Z.div_pos; lia). nia. }
  assert (U : u32 (dmalen / s * s) = dmalen / s * s).
  { unfold u32. apply Z.mod_small. lia. }
  rewrite U.
  pose proof (clear_low2_range (dmalen / s * s) ltac:(lia)).
  destruct (negb (nz _)); lia.
Qed.

(** X23 ([Compute_and_setup_dma]).  The transfer lengths chosen for the
    two DMA buffers never exceed the buffers: with buffers of at least
    four bytes and a scan of at least one sample, each length lies
    between 0 and the size of its buffer, whatever the flags, the size
    of the comedi buffer and the number of scans asked for.  The first
    buffer is the one in use, and its length is the count given to the
    bridge. *)
Theorem dma_lengths_within_buffers (dev : comedi_device) :
  let p := private dev in
  4 <= fst (dmabuf_size p) < 2 ^ 32 ->
  4 <= snd (dmabuf_size p) < 2 ^ 32 ->
  0 <= prealloc_bufsz (dev_async dev) < 2 ^ 32 ->
  0 < u32 (Z.shiftl (ai_n_realscanlen p) 1) ->
  let dev' := snd (Compute_and_setup_dma dev) in
  let used := dmabuf_use_size (private dev') in
  0 <= fst used <= fst (dmabuf_size p)
  /\ 0 <= snd used <= snd (dmabuf_size p)
  /\ dma_actbuf (private dev') = 0
  /\ In (AmccReg AMCC_OP_REG_MWTC, fst used) (io_log dev').
Proof.
  clear_unused.
  intros p H0 H1 Hb Hs.
  unfold Compute_and_setup_dma. cbv zeta. cbn [snd].
  set (bufsz := prealloc_bufsz (dev_async dev)) in *.
  set (len0 := if fst (dmabuf_size (private dev)) >? bufsz then _ else _).
  set (len1 := if snd (dmabuf_size (private dev)) >? bufsz then _ else _).
  assert (B0 : 0 <= len0 <= fst (dmabuf_size p)).
  { subst len0. fold p. destruct (Z.gtb_spec (fst (dmabuf_size p)) bufsz);
      [|lia].
    pose proof (clear_low2_range bufsz Hb). lia. }
  assert (B1 : 0 <= len1 <= snd (dmabuf_size p)).
  { subst len1. fold p. destruct (Z.gtb_spec (snd (dmabuf_size p)) bufsz);
      [|lia].
    pose proof (clear_low2_range bufsz Hb). lia. }
  clearbody len0 len1.
  pose proof (dma_wake_eos_len_bound "0" len0 dev ltac:(lia)) as W0.
  pose proof (dma_wake_eos_len_frame "0" len0 dev) as F0. cbv zeta in F0.
  set (r0 := dma_wake_eos_len "0" len0 dev) in *.
  pose proof (dma_wake_eos_len_bound "1" len1 (snd r0) ltac:(lia)) as W1.
  pose proof (dma_wake_eos_len_frame "1" len1 (snd r0)) as F1.
  cbv zeta in F1.
  set (r1 := dma_wake_eos_len "1" len1 (snd r0)) in *.
  destruct F0 as (F0a & F0b & F0c). destruct F1 as (F1a & F1b & F1c).
  assert (Fn : ai_n_realscanlen (private (snd r1)) = ai_n_realscanlen p)
    by (rewrite F1a, F0a; reflexivity).
  clearbody r0 r1.
  set (lens := if negb (nz (Z.land (ai_flags (private (snd r1))) TRIG_WAKE_EOS))
               then _ else _).
  assert (L : 0 <= fst lens <= fst (dmabuf_size p)
              /\ 0 <= snd lens <= snd (dmabuf_size p)).
  { subst lens. rewrite Fn.
    destruct (negb (nz _)); [|cbn [fst snd]; lia].
    pose proof (dma_align_to_scan_bound (fst r0) (ai_n_realscanlen p)
                  ltac:(lia) Hs) as A0.
    pose proof (dma_align_to_scan_bound (fst r1) (ai_n_realscanlen p)
                  ltac:(lia) Hs) as A1.
    set (a0 := dma_align_to_scan (fst r0) _) in *.
    set (a1 := dma_align_to_scan (fst r1) _) in *.
    clearbody a0 a1.
    destruct (negb (nz _)); [|cbn [fst snd]; lia].
    set (total := u32 (_ * _)).
    assert (T : 0 <= total < 2 ^ 32) by (apply Z.mod_pos_bound; lia).
    clearbody total.
    destruct (Z.gtb_spec a0 total).
    - cbn [fst snd]. pose proof (clear_low2_range total T). lia.
    - cbn [fst snd]. split; [lia|].
      assert (D : u32 (total - a0) = total - a0)
        by (unfold u32; apply Z.mod_small; lia).
      rewrite D.
      destruct (Z.gtb_spec a1 (total - a0)).
      + pose proof (clear_low2_range (total - a0) ltac:(lia)). lia.
      + pose proof (clear_low2_range a1 ltac:(lia)). lia. }
  clearbody lens.
  split; [|split; [|split]].
  - apply L.
  - apply L.
  - reflexivity.
  - cbn [private upd_priv outl set_io_log io_log set_private
         dmabuf_use_size set_dmabuf_use_size]. cbn [In]. auto 10.
Qed.

(** ** Padding removal without padding *)

Lemma cursor_step_range (n pos : Z) :
  0 < n -> 0 <= cursor_step n pos < n.
Proof.
  clear_unused.
  intros H. unfold cursor_step. apply Z.mod_pos_bound. exact H.
Qed.

Lemma kept_samples_all (n : Z) (raw : list Z) :
  0 < n ->
  forall pos, 0 <= pos < n -> kept_samples 0 n n pos raw = raw.
Proof.
  clear_unused.
  intros Hn. induction raw as [|x raw IH]; intros pos Hp; [reflexivity|].
  cbn [kept_samples]. cbv zeta.
  replace (pos >=? 0) with true by (symmetry; apply Z.geb_le; lia).
  replace (pos <? n) with true by (symmetry; apply Z.ltb_lt; lia).
  cbn [andb]. f_equal. apply IH. apply cursor_step_range. exact Hn.
Qed.

(** X24 ([defragment_dma_buffer]).  With no padding around the scans,
    the removal changes nothing in the block: every sample is kept, in
    place, and only the cursor moves on. *)
Theorem defragment_without_padding (dev : comedi_device) (raw : list Z) :
  let n := chanlist_len (dev_cmd dev) in
  ai_add_front (private dev) = 0 -> ai_add_back (private dev) = 0 ->
  0 < n < 2 ^ 32 -> 0 <= ai_act_dmapos (private dev) < n ->
  defragment_dma_buffer dev raw (Z.of_nat (length raw))
  = Some (Z.of_nat (length raw), raw,
          upd_priv
            (set_ai_act_dmapos
               (cursor_after n (ai_act_dmapos (private dev)) (length raw)))
            dev).
Proof.
  clear_unused.
  intros n Hf Hb Hn Hp.
  pose proof (defragment_dma_buffer_spec dev raw) as S. cbv zeta in S.
  rewrite Hf, Hb in S. fold n in S.
  rewrite !Z.add_0_l, !Z.add_0_r in S.
  destruct (S ltac:(lia) ltac:(lia) ltac:(lia) Hn) as (buf & E & T & L).
  rewrite (kept_samples_all n raw ltac:(lia) _ Hp) in E, T.
  rewrite E. f_equal. f_equal. f_equal.
  rewrite <- L in T. rewrite firstn_all in T. exact T.
Qed.
End Driver.

(** * The properties on the sample sessions *)

(** C1 on a block of two padded scans that starts on the last requested
    channel. *)
Lemma defragment_dma_buffer_position_independent_witness :
  exists j buf dev',
    defragment_dma_buffer session_padded raw_block_12 12
    = Some (j, buf, dev')
    /\ j = 6
    /\ take 6 buf = [100; 104; 105; 106; 110; 111]
    /\ ai_act_dmapos (private dev') = 3.
Proof.
  destruct (defragment_dma_buffer_position_independent
              session_padded raw_block_12 2)
    as (j & buf & dev' & He & Hj & Ht & Hp & _);
    try (vm_compute; intuition congruence).
  exists j, buf, dev'. split; [exact He|].
  split; [rewrite Hj; reflexivity|].
  split; [|exact Hp]. rewrite Hj in Ht. exact Ht.
Defined.

(** C9 on the PCI-9118DG: differential channel 9 first, differential
    channel 3 second. *)
Lemma check_channel_list_first_entry_unchecked_witness :
  check_channel_list (session_dma pci9118dg) 2
    [CR_PACK 9 0 AREF_DIFF; CR_PACK 3 1 AREF_DIFF] 0 0 = 1
  /\ check_channel_list (session_dma pci9118dg) 1 [CR_PACK 12 0 AREF_DIFF]
       0 0 = 1.
Proof.
  destruct (check_channel_list_first_entry_unchecked
              (session_dma pci9118dg) 0 0) as [Hmany Hone].
  split.
  - apply (Hmany (CR_PACK 9 0 AREF_DIFF) [CR_PACK 3 1 AREF_DIFF]).
    + reflexivity.
    + split; [reflexivity|]. vm_compute. discriminate.
    + unfold too_long. vm_compute. discriminate.
    + repeat constructor.
  - apply (Hone (CR_PACK 12 0 AREF_DIFF)).
    unfold too_long. vm_compute. discriminate.
Defined.

(** The driver on the sample sessions: the S5933 registers at their
    offsets, the stand-in pacer search. *)
Abbreviation ai_cmd_on_sessions :=
  (pci9118_ai_cmd 0x24 0x28 0x38 0x3c 0x400 0x04000000 0x100 0x4000
     pacer_stand_in).
Abbreviation ai_cancel_on_sessions := (pci9118_ai_cancel 0x38 0x3c 0x400).
Abbreviation calc_divisors_on_sessions :=
  (pci9118_calc_divisors pacer_stand_in).
Abbreviation ai_cmdtest_on_sessions := (pci9118_ai_cmdtest pacer_stand_in).

(** C3 with the stand-in pacer search, which turns 3000 ns into the
    divisors 2 and 6 and leaves the period as it is. *)
Lemma ai_cmd_ext_scan_immediate_convert_unserved_witness :
  ai_cmdtest_on_sessions (session_dma pci9118dg) cmd_ext_now
  = (0, cmd_ext_now)
  /\ fst (ai_cmd_on_sessions (with_cmd cmd_ext_now (session_dma pci9118dg)))
     = - EIO.
Proof.
  destruct (ai_cmd_ext_scan_immediate_convert_unserved
              0x24 0x28 0x38 0x3c 0x400 0x04000000 0x100 0x4000
              pacer_stand_in 2 6) as (H1 & _ & H3 & _).
  - reflexivity.
  - split; assumption.
Defined.

(** C4 on the PCI-9118DG: a 100 us scan of four conversions 5 us apart
    gives the divisors 20 and 20. *)
Lemma calc_divisors_mode2_witness :
  calc_divisors_on_sessions 2
    (with_cmd cmd_follow_timer (session_dma pci9118dg))
    100000 5000 0 4 0 0 0
  = (100000, 5000, 20, 20).
Proof.
  rewrite (calc_divisors_mode2 pacer_stand_in
             (with_cmd cmd_follow_timer (session_dma pci9118dg))).
  all: by_running.
Defined.

(** The pacer stand-in never answers a shorter period for a longer
    request, and answers at least 3000 ns when asked for at least that. *)
Lemma pacer_stand_in_monotone (d1 d2 t t' : Z) :
  t <= t' ->
  snd (pacer_stand_in 250 d1 d2 t 0) <= snd (pacer_stand_in 250 d1 d2 t' 0).
Proof.
  intros H. unfold pacer_stand_in. cbn [snd].
  assert (t / 250 / 2 <= t' / 250 / 2).
  { apply Z.div_le_mono; [lia|]. apply Z.div_le_mono; lia. }
  lia.
Qed.

Lemma pacer_stand_in_keeps_minimum (d1 d2 t : Z) :
  3000 <= t -> 3000 <= snd (pacer_stand_in 250 d1 d2 t 0).
Proof.
  intros H. unfold pacer_stand_in. cbn [snd].
  assert (3000 / 250 / 2 <= t / 250 / 2).
  { apply Z.div_le_mono; [lia|]. apply Z.div_le_mono; lia. }
  change (3000 / 250 / 2) with 6 in *. lia.
Qed.

(** C5, amended, on the same request.  In mode 2 both realized periods
    stay at or above the 3000 ns the board needs per sample.  In mode 1,
    with the pacer stand-in, the realized convert period is at least
    3000 ns and does not decrease when 7000 ns are asked for instead of
    5000 ns.  In mode 3 the request comes back as it was. *)
Lemma calc_divisors_realized_periods_witness :
  let dev := with_cmd cmd_follow_timer (session_dma pci9118dg) in
  ai_ns_min pci9118dg
  <= realized_convert_period
       (calc_divisors_on_sessions 2 dev 100000 5000 0 4 0 0 0)
  /\ ai_ns_min pci9118dg
     <= realized_scan_period
          (calc_divisors_on_sessions 2 dev 100000 5000 0 4 0 0 0)
  /\ ai_ns_min pci9118dg
     <= realized_convert_period
          (calc_divisors_on_sessions 1 dev 100000 5000 0 4 0 0 0)
  /\ realized_convert_period
       (calc_divisors_on_sessions 1 dev 100000 5000 0 4 0 0 0)
     <= realized_convert_period
          (calc_divisors_on_sessions 1 dev 100000 7000 0 4 0 0 0)
  /\ calc_divisors_on_sessions 3 dev 100000 5000 0 4 0 0 0
     = (100000, 5000, 0, 0).
Proof.
  intros dev.
  destruct (calc_divisors_realized_periods pacer_stand_in dev
              ltac:(by_running) ltac:(by_running) ltac:(by_running)
              100000 100000 5000 7000 0 4 0 0 0
              ltac:(by_running) ltac:(by_running) ltac:(by_running)
              ltac:(by_running) ltac:(by_running) ltac:(by_running)
              ltac:(by_running))
    as (_ & Hc & _ & Hs & H14 & Hother).
  destruct (H14 1 ltac:(left; reflexivity)) as (_ & _ & Hmono & Hmin).
  split; [exact Hc|].
  split; [apply Hs; by_running|].
  split; [apply Hmin; intros t; exact (pacer_stand_in_keeps_minimum 0 0 t)|].
  split.
  - apply Hmono; [|by_running].
    intros t t'; exact (pacer_stand_in_monotone 0 0 t t').
  - apply Hother; by_running.
Defined.

(** C5 as first stated fails in mode 2: for two conversions per scan
    and a requested convert period of 2147484000 ns the product of the
    divisors and the clock period no longer fits 32 bits, and the scan
    period written back is 704 ns, below the board's 3000 ns and below
    the 10000 ns that the smaller convert period of 5000 ns yields. *)
Lemma calc_divisors_scan_period_wraps :
  calc_divisors_on_sessions 2
    (with_cmd cmd_follow_timer (session_dma pci9118dg))
    3000 2147484000 0 2 0 0 0
  = (704, 2147484000, 8589936, 2)
  /\ 704 < ai_ns_min pci9118dg
  /\ realized_scan_period
       (calc_divisors_on_sessions 2
          (with_cmd cmd_follow_timer (session_dma pci9118dg))
          3000 5000 0 2 0 0 0)
     = 10000
  /\ 8589936 * 2 * I8254_OSC_BASE_4MHZ = 2 ^ 32 + 704.
Proof.
  by_running.
Qed.

(** C7 as first stated fails: a cancel after an externally started run
    of timed conversions on the interrupt path and a cancel of the idle
    session disagree on the interrupt-control shadow register (the timer
    source stays enabled) and on the start/stop word. *)
Lemma ai_cancel_keeps_interrupt_sources :
  fst (ai_cmd_on_sessions (with_cmd cmd_ext_start (session_irq pci9118dg)))
  = 0
  /\ IntControlReg
       (private
          (snd (ai_cancel_on_sessions
                  (snd (ai_cmd_on_sessions
                          (with_cmd cmd_ext_start
                             (session_irq pci9118dg)))))))
     = Int_Timer
  /\ IntControlReg
       (private (snd (ai_cancel_on_sessions (session_irq pci9118dg))))
     = 0
  /\ ai12_startstop
       (private
          (snd (ai_cancel_on_sessions
                  (snd (ai_cmd_on_sessions
                          (with_cmd cmd_ext_start
                             (session_irq pci9118dg)))))))
     = START_AI_EXT
  /\ ai12_startstop
       (private (snd (ai_cancel_on_sessions (session_irq pci9118dg))))
     = 0.
Proof.
  by_running.
Qed.

(** C8 on the sample sessions: a started run begins at position 0, and
    a block of twelve samples taken from position 3 of a six-sample
    padded scan leaves the cursor at position 3. *)
Lemma ai_act_dmapos_invariant_witness :
  ai_act_dmapos
    (private
       (snd (ai_cmd_on_sessions
               (with_cmd cmd_follow_timer (session_dma pci9118dg)))))
  = 0
  /\ exists j buf dev',
       defragment_dma_buffer session_padded raw_block_12 12
       = Some (j, buf, dev')
       /\ 0 <= ai_act_dmapos (private dev') < 6
       /\ ai_act_dmapos (private dev') = 3.
Proof.
  destruct (ai_act_dmapos_invariant
              0x24 0x28 0x38 0x3c 0x400 0x04000000 0x100 0x4000
              pacer_stand_in)
    as (_ & Hcmd & Hdefrag).
  split.
  - apply Hcmd. by_running.
  - destruct (Hdefrag session_padded raw_block_12
                ltac:(by_running) ltac:(by_running) ltac:(by_running)
                ltac:(by_running))
      as (j & buf & dev' & He & _ & Hpos).
    exists j, buf, dev'. split; [exact He|].
    destruct (Hpos ltac:(by_running)) as [Hr Hm].
    split; [exact Hr|]. rewrite Hm. reflexivity.
Defined.



(** ** Further properties on the sample sessions *)

(** X5 on the PCI-9118DG: a status word with the over-run bit alone is a
    hard error. *)
Lemma decode_error_status_verdict_witness :
  fst (pci9118_decode_error_status events_stand_in (session_dma pci9118dg)
         0x002)
  = 1.
Proof.
  destruct (decode_error_status_verdict events_stand_in
              (session_dma pci9118dg) 0x002 ltac:(by_running)) as [H _].
  exact H.
Defined.

(** X6 on the PCI-9118DG attached with no error bit ignored. *)
Lemma decode_overspeed_is_a_warning_witness :
  fst (pci9118_decode_error_status events_stand_in (session_dma pci9118dg)
         AdStatus_ADOS)
  = 0.
Proof.
  destruct (decode_overspeed_is_a_warning events_stand_in
              (session_dma pci9118dg) 0 ltac:(by_running)) as [H _].
  exact H.
Defined.

(** X9 on two channels with one front and two back padding entries:
    five entries are queued. *)
Lemma setup_channel_list_queue_witness :
  Z.of_nat
    (length
       (padded_queue (session_dma pci9118dg)
          [CR_PACK 0 0 AREF_GROUND; CR_PACK 1 0 AREF_GROUND] 1 2))
  = 5.
Proof.
  destruct (setup_channel_list_queue (session_dma pci9118dg)
              [CR_PACK 0 0 AREF_GROUND; CR_PACK 1 0 AREF_GROUND] 0 1 2 1
              ltac:(by_running) ltac:(by_running) ltac:(by_running))
    as (_ & _ & H).
  exact H.
Defined.

(** X10 on two samples of the 12-bit board outside a DMA run: byte
    order is left alone and the four channel bits are shifted out. *)
Lemma ai_munge_samples_witness :
  pci9118_ai_munge be16_stand_in (session_dma pci9118dg) [0x3012; 0x6045] 4 0
  = Some
      (map (munge_sample be16_stand_in (session_dma pci9118dg))
         [0x3012; 0x6045]).
Proof.
  destruct (ai_munge_samples be16_stand_in (session_dma pci9118dg)
              [0x3012; 0x6045] 4 0 ltac:(by_running)) as [H _].
  rewrite H. reflexivity.
Defined.

(** X12 on the interrupt session with every conversion ready and the
    word [0x8010] at the data port: both conversions store [0x801], the
    word the munge routine makes of it. *)
Lemma insn_read_ai_samples_as_munged_witness :
  let stored :=
    snd (fst (pci9118_insn_read_ai timeout_stand_in 16 session_irq_ready
                (CR_PACK 0 0 AREF_GROUND) 2)) in
  fst (fst (pci9118_insn_read_ai timeout_stand_in 16 session_irq_ready
              (CR_PACK 0 0 AREF_GROUND) 2)) = 2
  /\ stored = [0x801; 0x801]
  /\ Forall
       (fun s =>
          s = munge_sample be16_stand_in session_irq_ready
                (u16 (inl (CardReg PCI9118_AD_DATA) session_irq_ready)))
       stored.
Proof.
  intros stored.
  split; [by_running|]. split; [by_running|].
  exact (insn_read_ai_samples_as_munged be16_stand_in timeout_stand_in 16
           session_irq_ready (CR_PACK 0 0 AREF_GROUND) 2
           ltac:(by_running)).
Defined.

(** X13 on the second analog output: two words written, the last one
    read back three times. *)
Lemma ao_write_then_read_witness :
  exists dev',
    pci9118_insn_write_ao (session_dma pci9118dg) 1 [100; 200]
    = Some (2, dev')
    /\ pci9118_insn_read_ao dev' 1 3 = Some (3, [200; 200; 200]).
Proof.
  destruct (ao_write_then_read (session_dma pci9118dg) 1 [100] 200 3
              ltac:(by_running)) as (dev' & W & _ & R & _).
  exists dev'. split; [exact W|exact R].
Defined.

(** X15 on the padded block of twelve samples: six samples are kept and
    counted as two scans of three. *)
Lemma move_block_scan_accounting_witness :
  exists d,
    ai_act_scan (private d) * 3 + cur_chan (dev_async d) = 6
    /\ 0 <= cur_chan (dev_async d) < 3.
Proof.
  destruct (defragment_dma_buffer session_padded_scan3 raw_block_12 12)
    as [[[k buf'] dev1]|] eqn:E; [|vm_compute in E; discriminate E].
  assert (K : k = 6).
  { pose proof E as E'. vm_compute in E'. injection E' as <- _ _.
    reflexivity. }
  subst k.
  destruct (move_block_scan_accounting buffer_write_array_stand_in
              session_padded_scan3 raw_block_12 12 6 buf' dev1 E
              ltac:(by_running) ltac:(by_running) ltac:(by_running)
              ltac:(by_running) ltac:(by_running))
    as (d & _ & A & C & _).
  exists d. split; [exact A|exact C].
Defined.

(** X18 on the first sample of a two-sample scan. *)
Lemma onesample_scan_accounting_witness :
  exists d,
    interrupt_pci9118_ai_onesample events_stand_in buffer_write_stand_in
      (with_cmd cmd_follow_timer (session_irq pci9118dg)) 0 0 0
    = Some (events_stand_in d)
    /\ ai_act_scan (private d) * 2 + cur_chan (dev_async d) = 1.
Proof.
  destruct (onesample_scan_accounting events_stand_in buffer_write_stand_in
              (with_cmd cmd_follow_timer (session_irq pci9118dg)) 0 0 0
              ltac:(by_running) ltac:(by_running) ltac:(by_running)
              ltac:(by_running) ltac:(by_running))
    as (d & R & _ & A & _).
  exists d. split; [exact R|exact A].
Defined.

(** X21 on a follow scan of timed conversions: accepted, and handed
    back as it came. *)
Lemma cmdtest_accept_unchanged_witness :
  snd (ai_cmdtest_on_sessions (session_dma pci9118dg) cmd_follow_timer)
  = cmd_follow_timer.
Proof.
  exact (cmdtest_accept_unchanged pacer_stand_in (session_dma pci9118dg)
           cmd_follow_timer ltac:(by_running)).
Defined.

(** X22 on the same command. *)
Lemma cmdtest_accept_args_witness :
  0 < scan_end_arg
        (snd (ai_cmdtest_on_sessions (session_dma pci9118dg)
                cmd_follow_timer)).
Proof.
  destruct (cmdtest_accept_args pacer_stand_in (session_dma pci9118dg)
              cmd_follow_timer ltac:(by_running)) as (_ & H & _).
  exact H.
Defined.

(** X2 on scenario A: scans follow, conversions are timed, and the run
    starts in mode 1 with the cursor at 0. *)
Lemma ai_cmd_mode_table_witness :
  let r :=
    ai_cmd_on_sessions (with_cmd cmd_follow_timer (session_dma pci9118dg)) in
  fst r = 0
  /\ ai_act_dmapos (private (snd r)) = 0
  /\ ai_do (private (snd r)) = 1.
Proof.
  intros r.
  assert (H0 : fst r = 0) by by_running.
  split; [exact H0|].
  exact (ai_cmd_mode_table 0x24 0x28 0x38 0x3c 0x400 0x04000000 0x100 0x4000
           pacer_stand_in
           (with_cmd cmd_follow_timer (session_dma pci9118dg)) H0).
Defined.

(** X3 on the state scenario A leaves: scans of two samples, four bytes,
    in mode 1; the start-up answers 0. *)
Lemma ai_docmd_dma_modes_witness :
  let dev :=
    snd (ai_cmd_on_sessions
           (with_cmd cmd_follow_timer (session_dma pci9118dg))) in
  u32 (Z.shiftl (ai_n_realscanlen (private dev)) 1) = 4
  /\ fst (pci9118_ai_docmd_dma 0x24 0x28 0x38 0x3c 0x400 0x04000000 0x100
            0x4000 dev) = 0.
Proof.
  intros dev.
  split; [by_running|].
  destruct (ai_docmd_dma_modes 0x24 0x28 0x38 0x3c 0x400 0x04000000 0x100
              0x4000 dev ltac:(by_running)) as [_ H].
  rewrite H. by_running.
Defined.

(** X23 on a started DMA run. *)
Lemma dma_lengths_within_buffers_witness :
  let dev :=
    snd (ai_cmd_on_sessions
           (with_cmd cmd_follow_timer (session_dma pci9118dg))) in
  let used :=
    dmabuf_use_size
      (private
         (snd (Compute_and_setup_dma 0x24 0x28 0x38 0x3c 0x400 0x04000000
                 0x100 0x4000 dev))) in
  0 <= fst used <= 16384 /\ 0 <= snd used <= 16384.
Proof.
  destruct (dma_lengths_within_buffers 0x24 0x28 0x38 0x3c 0x400 0x04000000
              0x100 0x4000
              (snd (ai_cmd_on_sessions
                      (with_cmd cmd_follow_timer (session_dma pci9118dg))))
              ltac:(by_running) ltac:(by_running) ltac:(by_running)
              ltac:(by_running))
    as (H0 & H1 & _).
  split; [exact H0|exact H1].
Defined.

(** X24 on a block of twelve samples of unpadded three-sample scans. *)
Lemma defragment_without_padding_witness :
  exists dev',
    defragment_dma_buffer session_unpadded raw_block_12 12
    = Some (12, raw_block_12, dev').
Proof.
  eexists.
  exact (defragment_without_padding session_unpadded raw_block_12
           ltac:(by_running) ltac:(by_running) ltac:(by_running)
           ltac:(by_running)).
Defined.
